(** * DatabaseLibrary.assertion: the Assertion keywords, embedded and verified

    Shallow embedding of [src/DatabaseLibrary/assertion.py] (class
    [Assertion]), in four layers:

    - [Py]: the Python 3 built-ins the keywords call ([str], [repr], [int],
      [float], [round], [str.encode], [%]-formatting, true division), over a
      small universe of dynamic values.  Floats are IEEE binary64, through the
      Standard Library's [SpecFloat] with [prec = 53] and [emax = 1024].
    - [Keywords]: every keyword of the class, written in a state-and-exception
      monad.  The methods of the other mixins of the library object ([query],
      [row_count], [execute_sql_script], [open_sql], the [count_*] helpers) are
      not in this file of the repository; they are the fields of the record
      [Collaborators], and every call to one of them, like every
      [logger.info], is recorded in a trace.
    - [Double]: collaborators over canned answers, for the closed examples.
    - the properties, by the numbers C1 to C10 of the claims they settle,
      and further properties of the keywords, X1 to X17.

    Strings are sequences of code points below 256.  The interpreter's limit
    on the digits of a conversion between [int] and text is the default one,
    [max_str_digits]: [int] of a text holds it, and so does the formatting of
    an argument that a caller hands in ([py_format]).  The integers that the
    database produces, row counts and column values, are those of the
    database's integer types and lie far within the limit, like the integers
    that [round] returns; they are printed by [str_of_Z] and [py_str]. *)

From Stdlib Require Import ZArith List String Ascii Bool Lia.
From Stdlib Require Import DecimalString DecimalZ DecimalFacts DecimalPos.
From Stdlib Require Import Floats.SpecFloat.
Import ListNotations.

Local Open Scope list_scope.
Local Open Scope string_scope.
Local Open Scope Z_scope.

(** ** Exceptions and results *)

Inductive exn : Type :=
| AssertionError (msg : string)
| ValueError
| TypeError
| AttributeError
| IndexError
| ZeroDivisionError
| OverflowError
| UnicodeEncodeError
| OtherError (cls msg : string).

Inductive result (A : Type) : Type :=
| Ok (a : A)
| Raise (e : exn).

Arguments Ok {A} a.
Arguments Raise {A} e.

Definition rbind {A B : Type} (r : result A) (k : A -> result B) : result B :=
  match r with
  | Ok a => k a
  | Raise e => Raise e
  end.

(** ** Python values and built-ins *)

Module Py.

(** The dynamic values that reach the keywords: keyword arguments and the
    column values of a result row.  A [PFloat] holds a binary64 number in the
    canonical form of [SpecFloat], which is the form every operation below
    returns. *)
Inductive pyval : Type :=
| PNone
| PInt (z : Z)
| PFloat (f : spec_float)
| PStr (s : string).

(** A result row is a tuple of column values. *)
Definition row : Type := list pyval.

Definition prec : Z := 53.
Definition emax : Z := 1024.

(** *** Characters *)

Definition code (c : ascii) : N := N_of_ascii c.

Definition is_digit (c : ascii) : bool :=
  ((48 <=? code c) && (code c <=? 57))%N.

Definition digit_val (c : ascii) : Z := Z.of_N (code c) - 48.

Definition is_underscore (c : ascii) : bool := (code c =? 95)%N.

(** [Py_ISSPACE]: the white space of byte strings. *)
Definition is_c_space (c : ascii) : bool :=
  (((9 <=? code c) && (code c <=? 13)) || (code c =? 32))%N.

(** The white space of [int] and [float] on a [str]: the conversion to ASCII
    that comes first keeps every code point below 127 and turns the other
    Unicode blanks (below 256: NEL and NBSP) into a space. *)
Definition is_py_space (c : ascii) : bool :=
  (is_c_space c || (code c =? 133) || (code c =? 160))%N.

Definition to_lower (c : ascii) : ascii :=
  if ((65 <=? code c) && (code c <=? 90))%N
  then ascii_of_N (code c + 32) else c.

Fixpoint drop_while (p : ascii -> bool) (s : list ascii) : list ascii :=
  match s with
  | c :: s' => if p c then drop_while p s' else s
  | [] => []
  end.

Definition strip (p : ascii -> bool) (s : list ascii) : list ascii :=
  rev (drop_while p (rev (drop_while p s))).

(** *** [str] of an integer *)

(** [sys.get_int_max_str_digits()]: the digits that a conversion between
    [int] and text may have, 4300 unless the interpreter is told otherwise. *)
Definition max_str_digits : Z := 4300.

(** The decimal text of an integer. *)
Definition str_of_Z (z : Z) : string := NilZero.string_of_int (Z.to_int z).

(** The number of decimal digits of [z], its sign apart. *)
Definition decimal_digits (z : Z) : Z :=
  Z.of_nat (String.length (str_of_Z (Z.abs z))).

(** [str(z)]: the decimal text, unless [z] has more digits than the limit. *)
Definition int_str (z : Z) : result string :=
  if max_str_digits <? decimal_digits z then Raise ValueError
  else Ok (str_of_Z z).

(** *** [int] of a string: [ws* [+-]? digit (_? digit)* ws*] *)

(** The digit scan of [long_from_string]: digits with single underscores
    between them; [prev] tells that the previous character was an underscore.
    Returns the value read and what follows the digits. *)
Fixpoint scan_int (prev : bool) (acc : Z) (s : list ascii)
  : option (Z * list ascii) :=
  match s with
  | c :: s' =>
      if is_digit c then scan_int false (acc * 10 + digit_val c) s'
      else if is_underscore c then
             if prev then None else scan_int true acc s'
           else if prev then None else Some (acc, s)
  | [] => if prev then None else Some (acc, [])
  end.

(** The digits of the numeral that [scan_int] reads, underscores apart and
    leading zeros included: the count that is held against the limit. *)
Fixpoint numeral_digits (s : list ascii) : Z :=
  match s with
  | c :: s' =>
      if is_digit c then 1 + numeral_digits s'
      else if is_underscore c then numeral_digits s'
      else 0
  | [] => 0
  end.

Definition split_sign (s : list ascii) : bool * list ascii :=
  match s with
  | "-"%char :: s' => (true, s')
  | "+"%char :: s' => (false, s')
  | _ => (false, s)
  end.

(** [PyLong_FromString] in base 10; [space] is the white space skipped at
    both ends.  A numeral of more digits than the limit is refused. *)
Definition parse_int (space : ascii -> bool) (s : list ascii) : result Z :=
  let s1 := drop_while space s in
  let '(neg, s2) := split_sign s1 in
  match s2 with
  | c :: _ =>
      if is_digit c then
        match scan_int false 0 s2 with
        | Some (n, rest) =>
            if max_str_digits <? numeral_digits s2 then Raise ValueError
            else
              match drop_while space rest with
              | [] => Ok (if neg then - n else n)
              | _ :: _ => Raise ValueError
              end
        | None => Raise ValueError
        end
      else Raise ValueError
  | [] => Raise ValueError
  end.

(** *** [float] of a string *)

(** [_Py_string_to_number_with_underscores]: an underscore is dropped when it
    stands between two digits, and refused anywhere else.  [prev] is the
    previous character. *)
Fixpoint remove_underscores (prev : option ascii) (s : list ascii)
  : option (list ascii) :=
  match s with
  | c :: s' =>
      if is_underscore c then
        match prev with
        | Some p => if is_digit p then remove_underscores (Some c) s' else None
        | None => None
        end
      else
        match prev with
        | Some p =>
            if is_underscore p && negb (is_digit c) then None
            else option_map (cons c) (remove_underscores (Some c) s')
        | None => option_map (cons c) (remove_underscores (Some c) s')
        end
  | [] =>
      match prev with
      | Some p => if is_underscore p then None else Some []
      | None => Some []
      end
  end.

(** Reads a run of digits: its value on top of [acc], its length on top of
    [n], and what follows. *)
Fixpoint scan_digits (acc : Z) (n : Z) (s : list ascii) : Z * Z * list ascii :=
  match s with
  | c :: s' =>
      if is_digit c then scan_digits (acc * 10 + digit_val c) (n + 1) s'
      else (acc, n, s)
  | [] => (acc, n, [])
  end.

(** The exponent part: [[eE] [+-]? digit+].  When no digit follows, the
    number stops before the letter. *)
Definition scan_exponent (s : list ascii) : Z * list ascii :=
  match s with
  | c :: s' =>
      if (code (to_lower c) =? 101)%N then
        let '(neg, s2) := split_sign s' in
        let '(ev, en, rest) := scan_digits 0 0 s2 in
        if en =? 0 then (0, s) else ((if neg then - ev else ev), rest)
      else (0, s)
  | [] => (0, [])
  end.

(** The nearest binary64 number to [m * 10 ^ e], ties to even. *)
Definition float_of_decimal (m : Z) (e : Z) : spec_float :=
  match m with
  | Zpos p =>
      if 0 <=? e then binary_normalize prec emax (Zpos p * 10 ^ e) 0 false
      else SFdiv prec emax (S754_finite false p 0)
                 (S754_finite false (Z.to_pos (10 ^ (- e))) 0)
  | _ => S754_zero false
  end.

Definition with_sign (neg : bool) (x : spec_float) : spec_float :=
  if neg then SFopp x else x.

Fixpoint lower_prefix (p s : list ascii) : option (list ascii) :=
  match p, s with
  | [], _ => Some s
  | a :: p', c :: s' =>
      if Ascii.eqb a (to_lower c) then lower_prefix p' s' else None
  | _ :: _, [] => None
  end.

(** [_Py_parse_inf_or_nan], after the sign. *)
Definition parse_inf_or_nan (s : list ascii) : option (spec_float * list ascii) :=
  match lower_prefix (list_ascii_of_string "inf") s with
  | Some rest =>
      match lower_prefix (list_ascii_of_string "inity") rest with
      | Some rest' => Some (S754_infinity false, rest')
      | None => Some (S754_infinity false, rest)
      end
  | None =>
      match lower_prefix (list_ascii_of_string "nan") s with
      | Some rest => Some (S754_nan, rest)
      | None => None
      end
  end.

(** [_PyOS_ascii_strtod]: the longest prefix that is a number, and the rest.
    [None] when the string starts with no number at all. *)
Definition strtod (s : list ascii) : option (spec_float * list ascii) :=
  let '(neg, s1) := split_sign s in
  let '(iv, inum, s2) := scan_digits 0 0 s1 in
  let '(mv, fnum, s3) :=
    match s2 with
    | "."%char :: s2' =>
        let '(v, n, r) := scan_digits iv 0 s2' in (v, n, r)
    | _ => (iv, 0, s2)
    end in
  if (inum + fnum =? 0) then
    match parse_inf_or_nan s1 with
    | Some (x, rest) => Some (with_sign neg x, rest)
    | None => None
    end
  else
    let '(ev, rest) := scan_exponent s3 in
    Some (with_sign neg (float_of_decimal mv (ev - fnum)), rest).

(** [float(s)] for a [str]: the whole stripped string has to be a number. *)
Definition parse_float (s : list ascii) : result spec_float :=
  match remove_underscores None (strip is_py_space s) with
  | Some s' =>
      match strtod s' with
      | Some (x, []) => Ok x
      | _ => Raise ValueError
      end
  | None => Raise ValueError
  end.

(** *** [round], [int], [float] and true division *)

(** The integer nearest to [m / d], ties to the even one ([0 < d]). *)
Definition round_half_even (m d : Z) : Z :=
  let q := m / d in
  match (2 * (m mod d) ?= d) with
  | Lt => q
  | Gt => q + 1
  | Eq => if Z.even q then q else q + 1
  end.

Definition cond_opp (neg : bool) (z : Z) : Z := if neg then - z else z.

(** [round(x)] with one argument: an [int], ties to even. *)
Definition py_round (x : spec_float) : result Z :=
  match x with
  | S754_nan => Raise ValueError
  | S754_infinity _ => Raise OverflowError
  | S754_zero _ => Ok 0
  | S754_finite s m e =>
      Ok (cond_opp s (if 0 <=? e then Zpos m * 2 ^ e
                      else round_half_even (Zpos m) (2 ^ (- e))))
  end.

(** [int(x)] of a float: towards zero. *)
Definition trunc_float (x : spec_float) : result Z :=
  match x with
  | S754_nan => Raise ValueError
  | S754_infinity _ => Raise OverflowError
  | S754_zero _ => Ok 0
  | S754_finite s m e =>
      Ok (cond_opp s (if 0 <=? e then Zpos m * 2 ^ e else Zpos m / 2 ^ (- e)))
  end.

(** An [int] as a float: the nearest one; too large an [int] raises. *)
Definition float_of_Z (z : Z) : spec_float := binary_normalize prec emax z 0 false.

Definition float_of_int (z : Z) : result spec_float :=
  match float_of_Z z with
  | S754_infinity _ => Raise OverflowError
  | x => Ok x
  end.

(** [a / b] on two [int]s: the float nearest to the exact quotient. *)
Definition py_truediv (a b : Z) : result spec_float :=
  match b with
  | Z0 => Raise ZeroDivisionError
  | _ =>
      match a with
      | Z0 => Ok (S754_zero (b <? 0))
      | _ =>
          match SFdiv prec emax
                  (S754_finite (a <? 0) (Z.to_pos (Z.abs a)) 0)
                  (S754_finite (b <? 0) (Z.to_pos (Z.abs b)) 0) with
          | S754_infinity _ => Raise OverflowError
          | x => Ok x
          end
      end
  end.

(** [x * y] and [x > y] on floats. *)
Definition py_fmul (x y : spec_float) : spec_float := SFmul prec emax x y.
Definition py_fgt (x y : spec_float) : bool := SFltb y x.

(** [s.encode('ascii')]: a byte string with the same codes, when they are all
    below 128. *)
Definition is_ascii (c : ascii) : bool := (code c <? 128)%N.

Definition encode_ascii (v : pyval) : result (list ascii) :=
  match v with
  | PStr s =>
      if forallb is_ascii (list_ascii_of_string s)
      then Ok (list_ascii_of_string s) else Raise UnicodeEncodeError
  | _ => Raise AttributeError
  end.

(** [int(b)] on a byte string. *)
Definition int_of_bytes (b : list ascii) : result Z := parse_int is_c_space b.

(** [int(v)]. *)
Definition py_int (v : pyval) : result Z :=
  match v with
  | PInt z => Ok z
  | PFloat x => trunc_float x
  | PStr s => parse_int is_py_space (list_ascii_of_string s)
  | PNone => Raise TypeError
  end.

(** [float(v)]. *)
Definition py_float (v : pyval) : result spec_float :=
  match v with
  | PInt z => float_of_int z
  | PFloat x => Ok x
  | PStr s => parse_float (list_ascii_of_string s)
  | PNone => Raise TypeError
  end.

(** *** [repr] of a float: the shortest digits that read back as the float *)

Definition sf_eqb (x y : spec_float) : bool :=
  match x, y with
  | S754_zero a, S754_zero b => Bool.eqb a b
  | S754_infinity a, S754_infinity b => Bool.eqb a b
  | S754_nan, S754_nan => true
  | S754_finite a m e, S754_finite b n f =>
      Bool.eqb a b && Pos.eqb m n && Z.eqb e f
  | _, _ => false
  end.

(** [floor (num * 10 ^ j / den)] and the remainder's place against one half. *)
Definition scaled (num den j : Z) : Z * comparison :=
  let p := if 0 <=? j then num * 10 ^ j else num in
  let q := if 0 <=? j then den else den * 10 ^ (- j) in
  (p / q, (2 * (p mod q) ?= q)).

(** The [k] with [10 ^ (k - 1) <= num / den < 10 ^ k], looked for around the
    estimate that the binary logarithms give. *)
Definition decimal_point (num den : Z) : Z :=
  let g := ((Z.log2 num - Z.log2 den) * 30103) / 100000 in
  let fits k := let d := fst (scaled num den (1 - k)) in (1 <=? d) && (d <=? 9) in
  match filter fits [g - 1; g; g + 1; g + 2; g + 3] with
  | k :: _ => k
  | [] => g
  end.

(** Digits [d] and exponent [j] ([d * 10 ^ j]) of the shortest decimal that
    reads back as [x = num / den]; with [n] digits tried first and [fuel]
    more lengths after it. *)
Fixpoint shortest (fuel : nat) (x : spec_float) (num den k n : Z) : Z * Z :=
  let j := k - n in
  let '(lo, c) := scaled num den (- j) in
  let hi := lo + 1 in
  let nearest :=
    match c with
    | Lt => lo
    | Gt => hi
    | Eq => if Z.even lo then lo else hi
    end in
  match fuel with
  | O => (nearest, j)
  | S fuel' =>
      let ok_lo := sf_eqb (float_of_decimal lo j) x in
      let ok_hi := sf_eqb (float_of_decimal hi j) x in
      if ok_lo && ok_hi then (nearest, j)
      else if ok_lo then (lo, j)
      else if ok_hi then (hi, j)
      else shortest fuel' x num den k (n + 1)
  end.

Fixpoint strip_zeros (fuel : nat) (d j : Z) : Z * Z :=
  match fuel with
  | O => (d, j)
  | S fuel' => if (d mod 10 =? 0) && (0 <? d) then strip_zeros fuel' (d / 10) (j + 1) else (d, j)
  end.

Definition zeros (n : Z) : string := string_of_list_ascii (repeat "0"%char (Z.to_nat n)).

Definition two_digits (z : Z) : string :=
  if z <? 10 then "0" ++ str_of_Z z else str_of_Z z.

(** The [repr] layout: positional for a decimal point between -3 and 16,
    with an exponent otherwise. *)
Definition layout (ds : string) (decpt : Z) : string :=
  let n := Z.of_nat (String.length ds) in
  if (decpt <=? -4) || (16 <? decpt) then
    let e := decpt - 1 in
    substring 0 1 ds
    ++ (if 1 <? n then "." ++ substring 1 (String.length ds - 1) ds else EmptyString)
    ++ "e" ++ (if e <? 0 then "-" else "+") ++ two_digits (Z.abs e)
  else if decpt <=? 0 then "0." ++ zeros (- decpt) ++ ds
  else if n <=? decpt then ds ++ zeros (decpt - n) ++ ".0"
  else substring 0 (Z.to_nat decpt) ds ++ "."
       ++ substring (Z.to_nat decpt) (String.length ds - Z.to_nat decpt) ds.

Definition float_repr (x : spec_float) : string :=
  match x with
  | S754_nan => "nan"
  | S754_infinity s => if s then "-inf" else "inf"
  | S754_zero s => if s then "-0.0" else "0.0"
  | S754_finite s m e =>
      let num := if 0 <=? e then Zpos m * 2 ^ e else Zpos m in
      let den := if 0 <=? e then 1 else 2 ^ (- e) in
      let k := decimal_point num den in
      let '(dr, jr) := shortest 16 (S754_finite false m e) num den k 1 in
      let '(d, j) := strip_zeros 17 dr jr in
      let ds := str_of_Z d in
      (if s then "-" else EmptyString) ++ layout ds (j + Z.of_nat (String.length ds))
  end.

(** *** [repr] of a string *)

Definition hex_digit (n : N) : ascii :=
  if (n <? 10)%N then ascii_of_N (48 + n) else ascii_of_N (87 + n).

Definition printable (c : ascii) : bool :=
  (((32 <=? code c) && (code c <? 127))
   || ((161 <=? code c) && negb (code c =? 173)))%N.

Definition backslash : ascii := ascii_of_N 92.
Definition dquote : ascii := ascii_of_N 34.
Definition squote : ascii := ascii_of_N 39.

Definition escape_char (quote : ascii) (c : ascii) : list ascii :=
  if Ascii.eqb c quote || Ascii.eqb c backslash then [backslash; c]
  else if (code c =? 9)%N then [backslash; "t"%char]
  else if (code c =? 10)%N then [backslash; "n"%char]
  else if (code c =? 13)%N then [backslash; "r"%char]
  else if printable c then [c]
  else [backslash; "x"%char; hex_digit (code c / 16); hex_digit (code c mod 16)].

(** Single quotes, unless the string holds one and no double quote. *)
Definition str_repr (s : string) : string :=
  let l := list_ascii_of_string s in
  let has c := existsb (Ascii.eqb c) l in
  let quote := if has squote && negb (has dquote) then dquote else squote in
  string_of_list_ascii ([quote] ++ flat_map (escape_char quote) l ++ [quote]).

(** *** [str], [repr] and the displays of tuples and lists *)

(** [str(v)] of a value within the digit limit. *)
Definition py_str (v : pyval) : string :=
  match v with
  | PNone => "None"
  | PInt z => str_of_Z z
  | PFloat x => float_repr x
  | PStr s => s
  end.

(** [str(v)], as ['%s' % v] computes it for an argument that a caller hands
    in: an [int] of more digits than the limit raises. *)
Definition py_format (v : pyval) : result string :=
  match v with
  | PInt z => int_str z
  | _ => Ok (py_str v)
  end.

Definition py_repr (v : pyval) : string :=
  match v with
  | PStr s => str_repr s
  | _ => py_str v
  end.

(** ['sep'.join(l)]. *)
Definition join (sep : string) (l : list string) : string := String.concat sep l.

Definition tuple_repr (r : row) : string :=
  match r with
  | [v] => "(" ++ py_repr v ++ ",)"
  | _ => "(" ++ join ", " (map py_repr r) ++ ")"
  end.

Definition rows_str (rs : list row) : string :=
  "[" ++ join ", " (map tuple_repr rs) ++ "]".

End Py.

(** ** The keywords of class [Assertion] *)

Module Keywords.
Import Py.

(** What leaves the class: the lines given to [logger.info], and the calls of
    methods that the other mixins of the library object define, with the
    arguments as they are passed (an omitted optional argument is not
    listed). *)
Inductive arg : Type :=
| AStr (s : string)
| ABool (b : bool).

Inductive event : Type :=
| LogInfo (msg : string)
| Call (method : string) (args : list arg).

(** The methods and attributes of [self] that the class uses and does not
    define.  [W] is the state they own: the connection and the database
    behind it.  Each method returns or raises, and leaves a new state.  The
    integers they return, counts of rows and column values of the database's
    integer types, are within the digit limit of the interpreter. *)
Record Collaborators (W : Type) : Type := {
  db_api_module_name : W -> string;
  query : string -> option bool -> W -> result (list row) * W;
  row_count : string -> option bool -> W -> result Z * W;
  execute_sql_script : string -> W -> result unit * W;
  open_sql : string -> W -> result string * W;
  compare_tables : string -> string -> string -> string -> W -> result Z * W;
  dbconnection_cursor : W -> result unit * W;
  count_unique_rows_table :
    string -> string -> string -> W -> result (list row) * W;
  count_unique_rows_table_argument :
    string -> string -> string -> string -> W -> result (list row) * W;
  count_object_rows_table : string -> string -> W -> result (list row) * W;
  count_object_rows_table_argument :
    string -> string -> string -> W -> result (list row) * W;
  count_found_rows_table :
    string -> string -> string -> string -> string -> W
    -> result (list row) * W;
  count_found_rows_table_argument :
    string -> string -> string -> string -> string -> string -> W
    -> result (list row) * W;
  count_found_rows_table_withClause :
    string -> string -> string -> string -> string -> W
    -> result (list row) * W
}.

Arguments db_api_module_name {W}.
Arguments query {W}.
Arguments row_count {W}.
Arguments execute_sql_script {W}.
Arguments open_sql {W}.
Arguments compare_tables {W}.
Arguments dbconnection_cursor {W}.
Arguments count_unique_rows_table {W}.
Arguments count_unique_rows_table_argument {W}.
Arguments count_object_rows_table {W}.
Arguments count_object_rows_table_argument {W}.
Arguments count_found_rows_table {W}.
Arguments count_found_rows_table_argument {W}.
Arguments count_found_rows_table_withClause {W}.

Record state (W : Type) : Type := {
  world : W;
  trace : list event
}.

Arguments Build_state {W}.
Arguments world {W}.
Arguments trace {W}.

(** *** The monad: state, trace and exceptions *)

Definition M (W A : Type) : Type := state W -> result A * state W.

Definition ret {W A : Type} (a : A) : M W A := fun st => (Ok a, st).

Definition raise {W A : Type} (e : exn) : M W A := fun st => (Raise e, st).

Definition lift {W A : Type} (r : result A) : M W A := fun st => (r, st).

Definition bind {W A B : Type} (m : M W A) (k : A -> M W B) : M W B :=
  fun st =>
    match m st with
    | (Ok a, st') => k a st'
    | (Raise e, st') => (Raise e, st')
    end.

Definition record {W : Type} (ev : event) (st : state W) (w : W) : state W :=
  {| world := w; trace := trace st ++ [ev] |}.

Definition logger_info {W : Type} (msg : string) : M W unit :=
  fun st => (Ok tt, record (LogInfo msg) st (world st)).

Definition call {W A : Type} (method : string) (args : list arg)
  (f : W -> result A * W) : M W A :=
  fun st => let '(r, w) := f (world st) in (r, record (Call method args) st w).

Definition attribute {W A : Type} (f : W -> A) : M W A :=
  fun st => (Ok (f (world st)), st).

Declare Scope keyword_scope.
Delimit Scope keyword_scope with kw.
Notation "x <- m ;; k" := (bind m (fun x => k))
  (at level 100, m at next level, right associativity) : keyword_scope.
Notation "m ;; k" := (bind m (fun _ => k))
  (at level 100, right associativity) : keyword_scope.
Local Open Scope keyword_scope.

Definition opt_arg (b : option bool) : list arg :=
  match b with
  | Some b => [ABool b]
  | None => []
  end.

(** [result[0]] on a list of rows. *)
Definition first_row (rs : list row) : result row :=
  match rs with
  | r :: _ => Ok r
  | [] => Raise IndexError
  end.

(** [round(float('.'.join(str(elem) for elem in result[0])))], which the
    derived-scalar keywords repeat for each of their results. *)
Definition scalar_of_row (r : row) : result Z :=
  rbind (py_float (PStr (join "." (map py_str r)))) py_round.

Definition scalar_of_first_row (rs : list row) : result Z :=
  rbind (first_row rs) scalar_of_row.

(** [int(numRows.encode('ascii'))]. *)
Definition coerce_count (numRows : pyval) : result Z :=
  rbind (encode_ascii numRows) int_of_bytes.

(** The statements that the keywords build.  First the table-existence query
    of [table_must_exist], by driver name. *)
Definition table_exists_sql (module_name tableName : string) : string :=
  if String.eqb module_name "cx_Oracle" then
    "SELECT * FROM all_objects WHERE object_type IN ('TABLE','VIEW') AND owner = SYS_CONTEXT('USERENV', 'SESSION_USER') AND object_name = UPPER('" ++ tableName ++ "')"
  else if String.eqb module_name "sqlite3" then
    "SELECT name FROM sqlite_master WHERE type='table' AND name='" ++ tableName ++ "' COLLATE NOCASE"
  else if String.eqb module_name "ibm_db" || String.eqb module_name "ibm_db_dbi" then
    "SELECT name FROM SYSIBM.SYSTABLES WHERE type='T' AND name=UPPER('" ++ tableName ++ "')"
  else
    "SELECT * FROM information_schema.tables WHERE table_name='" ++ tableName ++ "'".

(** The comparison query of [compare_table_structure_snowflake]. *)
Definition snowflake_structure_query
  (test_schema_name test_table_name result_schema_name result_table_name : string)
  : string :=
  "select * from information_schema.columns columns_left full outer join information_schema.columns columns_right on columns_left.column_name = columns_right.column_name where columns_left.table_schema = '"
  ++ test_schema_name ++ "' and columns_left.table_name = '" ++ test_table_name
  ++ "' and columns_right.table_schema = '" ++ result_schema_name
  ++ "' and columns_right.table_name = '" ++ result_table_name
  ++ "' and (columns_left.data_type <> columns_right.data_type or columns_left.ordinal_position <> columns_right.ordinal_position)".

(** The comparison query of [compare_table_structure]. *)
Definition structure_query (test_table_name schema_name compare_table_name : string)
  : string :=
  "WITH DB AS (SELECT TABLE_NAME,COLUMN_NAME,DATA_TYPE FROM ALL_TAB_COLUMNS WHERE OWNER = '"
  ++ schema_name ++ "' AND TABLE_NAME IN ('" ++ test_table_name ++ "')), "
  ++ compare_table_name ++ "_VW_STRUC AS (SELECT * FROM EDW_TALEND."
  ++ compare_table_name ++ "_VIEW_STRUCTURE WHERE TABLE_NAME = REPLACE('"
  ++ test_table_name ++ "', 'VW_AVALOQ_" ++ compare_table_name
  ++ "_', '')) SELECT * FROM DB FULL OUTER JOIN " ++ compare_table_name
  ++ "_VW_STRUC ON " ++ compare_table_name
  ++ "_VW_STRUC.COLUMN_NAME = DB.COLUMN_NAME WHERE DB.COLUMN_NAME IS NULL OR "
  ++ compare_table_name ++ "_VW_STRUC.COLUMN_NAME IS NULL".

(** The two statements of [count_empty_column_value_percentage]. *)
Definition query_total (schema_name table_name : string) : string :=
  "SELECT * FROM " ++ schema_name ++ "." ++ table_name.

Definition query_column (schema_name table_name column_name : string) : string :=
  "SELECT * FROM " ++ schema_name ++ "." ++ table_name ++ " WHERE "
  ++ column_name ++ " IS NULL".

Section Assertion.

Context {W : Type} (self : Collaborators W).

Definition self_query (stmt : string) (sansTran : option bool) : M W (list row) :=
  call "query" (AStr stmt :: opt_arg sansTran) (query self stmt sansTran).

Definition self_row_count (stmt : string) (sansTran : option bool) : M W Z :=
  call "row_count" (AStr stmt :: opt_arg sansTran) (row_count self stmt sansTran).

Definition self_execute_sql_script (script : string) : M W unit :=
  call "execute_sql_script" [AStr script] (execute_sql_script self script).

Definition self_open_sql (file : string) : M W string :=
  call "open_sql" [AStr file] (open_sql self file).

Definition self_compare_tables (a b c d : string) : M W Z :=
  call "compare_tables" [AStr a; AStr b; AStr c; AStr d]
       (compare_tables self a b c d).

Definition self_cursor : M W unit :=
  call "_dbconnection.cursor" [] (dbconnection_cursor self).

Definition self_count_unique_rows_table (s t k : string) : M W (list row) :=
  call "count_unique_rows_table" [AStr s; AStr t; AStr k]
       (count_unique_rows_table self s t k).

Definition self_count_unique_rows_table_argument (s t k a : string)
  : M W (list row) :=
  call "count_unique_rows_table_argument" [AStr s; AStr t; AStr k; AStr a]
       (count_unique_rows_table_argument self s t k a).

Definition self_count_object_rows_table (s t : string) : M W (list row) :=
  call "count_object_rows_table" [AStr s; AStr t]
       (count_object_rows_table self s t).

Definition self_count_object_rows_table_argument (s t a : string)
  : M W (list row) :=
  call "count_object_rows_table_argument" [AStr s; AStr t; AStr a]
       (count_object_rows_table_argument self s t a).

Definition self_count_found_rows_table (s t k ft fk : string) : M W (list row) :=
  call "count_found_rows_table" [AStr s; AStr t; AStr k; AStr ft; AStr fk]
       (count_found_rows_table self s t k ft fk).

Definition self_count_found_rows_table_argument (s t k ft fk a : string)
  : M W (list row) :=
  call "count_found_rows_table_argument"
       [AStr s; AStr t; AStr k; AStr ft; AStr fk; AStr a]
       (count_found_rows_table_argument self s t k ft fk a).

Definition self_count_found_rows_table_withClause (s t k ft fk : string)
  : M W (list row) :=
  call "count_found_rows_table_withClause"
       [AStr s; AStr t; AStr k; AStr ft; AStr fk]
       (count_found_rows_table_withClause self s t k ft fk).

(** *** Existence checks *)

Definition check_if_exists_in_database (selectStatement : string)
  (sansTran : bool) : M W unit :=
  logger_info ("Executing : Check If Exists In Database  |  " ++ selectStatement ++ " ") ;;
  queryResults <- self_query selectStatement (Some sansTran) ;;
  match queryResults with
  | [] =>
      raise (AssertionError
               ("Expected to have have at least one row from '" ++ selectStatement
                ++ "' but got 0 rows."))
  | _ :: _ => ret tt
  end.

Definition check_if_not_exists_in_database (selectStatement : string)
  (sansTran : bool) : M W unit :=
  logger_info ("Executing : Check If Not Exists In Database  |  " ++ selectStatement ++ " ") ;;
  queryResults <- self_query selectStatement (Some sansTran) ;;
  match queryResults with
  | _ :: _ =>
      raise (AssertionError
               ("Expected to have have no rows from '" ++ selectStatement
                ++ "' but got some rows : " ++ rows_str queryResults ++ "."))
  | [] => ret tt
  end.

(** *** Row-count comparisons *)

Definition row_count_is_0 (selectStatement : string) (sansTran : bool)
  : M W unit :=
  logger_info ("Executing : Row Count Is 0  |  " ++ selectStatement ++ " ") ;;
  num_rows <- self_row_count selectStatement (Some sansTran) ;;
  if num_rows >? 0 then
    raise (AssertionError
             ("Expected zero rows to be returned from '" ++ selectStatement
              ++ "' but got rows back. Number of rows returned was "
              ++ str_of_Z num_rows))
  else ret tt.

Definition row_count_is_equal_to_x (selectStatement : string) (numRows : pyval)
  (sansTran : bool) : M W unit :=
  shown <- lift (py_format numRows) ;;
  logger_info ("Executing : Row Count Is Equal To X  |  " ++ selectStatement
               ++ "  |  " ++ shown ++ " ") ;;
  num_rows <- self_row_count selectStatement (Some sansTran) ;;
  n <- lift (coerce_count numRows) ;;
  if negb (num_rows =? n) then
    raise (AssertionError
             ("Expected same number of rows to be returned from '" ++ selectStatement
              ++ "' than the returned rows of " ++ str_of_Z num_rows))
  else ret tt.

Definition row_count_is_greater_than_x (selectStatement : string)
  (numRows : pyval) (sansTran : bool) : M W unit :=
  shown <- lift (py_format numRows) ;;
  logger_info ("Executing : Row Count Is Greater Than X  |  " ++ selectStatement
               ++ "  |  " ++ shown ++ " ") ;;
  num_rows <- self_row_count selectStatement (Some sansTran) ;;
  n <- lift (coerce_count numRows) ;;
  if num_rows <=? n then
    raise (AssertionError
             ("Expected more rows to be returned from '" ++ selectStatement
              ++ "' than the returned rows of " ++ str_of_Z num_rows))
  else ret tt.

Definition row_count_is_less_than_x (selectStatement : string)
  (numRows : pyval) (sansTran : bool) : M W unit :=
  shown <- lift (py_format numRows) ;;
  logger_info ("Executing : Row Count Is Less Than X  |  " ++ selectStatement
               ++ "  |  " ++ shown ++ " ") ;;
  num_rows <- self_row_count selectStatement (Some sansTran) ;;
  n <- lift (coerce_count numRows) ;;
  if num_rows >=? n then
    raise (AssertionError
             ("Expected less rows to be returned from '" ++ selectStatement
              ++ "' than the returned rows of " ++ str_of_Z num_rows))
  else ret tt.

(** *** Schema existence *)

Definition table_must_exist (tableName : string) (sansTran : bool) : M W unit :=
  logger_info ("Executing : Table Must Exist  |  " ++ tableName ++ " ") ;;
  module_name <- attribute (db_api_module_name self) ;;
  let selectStatement := table_exists_sql module_name tableName in
  num_rows <- self_row_count selectStatement (Some sansTran) ;;
  if num_rows =? 0 then
    raise (AssertionError ("Table '" ++ tableName ++ "' does not exist in the db"))
  else ret tt.

(** *** Structural comparisons *)

Definition compare_table_structure_snowflake
  (script test_schema_name test_table_name result_schema_name
     result_table_name : string) : M W unit :=
  logger_info ("Executing : Compare Table Structure for table |  " ++ test_table_name ++ " ") ;;
  self_execute_sql_script script ;;
  let query :=
    snowflake_structure_query test_schema_name test_table_name result_schema_name
      result_table_name in
  num_rows <- self_row_count query None ;;
  if num_rows >? 0 then
    raise (AssertionError
             ("Table structure of table '" ++ test_table_name
              ++ "' does not match expected result. The number of faulty columns is '"
              ++ str_of_Z num_rows ++ "'"))
  else ret tt.

Definition compare_table_structure
  (test_table_name schema_name compare_table_name : string) : M W unit :=
  logger_info ("Executing : Compare Table Structure for table |  " ++ test_table_name ++ " ") ;;
  let query := structure_query test_table_name schema_name compare_table_name in
  num_rows <- self_row_count query None ;;
  if num_rows >? 0 then
    raise (AssertionError
             ("Table structure of table '" ++ test_table_name
              ++ "' does not match expected result. The number of faulty columns is '"
              ++ str_of_Z num_rows ++ "'"))
  else ret tt.

Definition check_query_result
  (script test_schema_name test_table_name result_schema_name
     result_table_name : string) (sansTrans : bool) : M W unit :=
  logger_info ("Executing : Compare Query Result |  " ++ script ++ " ") ;;
  self_execute_sql_script script ;;
  num_rows <- self_compare_tables test_schema_name test_table_name
                result_schema_name result_table_name ;;
  if num_rows >? 0 then
    raise (AssertionError
             ("Result of script '" ++ script
              ++ "' does not match expected result. The number of faulty rows is '"
              ++ str_of_Z num_rows ++ "'"))
  else ret tt.

(** *** Row counts of a script file and of a table *)

Definition script_row_count_is_greater_than_x (sqlScriptFileName : string)
  (numRows : pyval) (sansTran : bool) : M W unit :=
  selectStatement <- self_open_sql sqlScriptFileName ;;
  row_count_is_greater_than_x selectStatement numRows false.

Definition script_row_count_is_equal_to_x (sqlScriptFileName : string)
  (numRows : pyval) (sansTran : bool) : M W unit :=
  selectStatement <- self_open_sql sqlScriptFileName ;;
  row_count_is_equal_to_x selectStatement numRows false.

Definition count_specific_table (schema_name table_name : string)
  (num_rows : pyval) : M W unit :=
  logger_info ("Executing : Count for specific table: |  " ++ table_name ++ " ") ;;
  let query := "SELECT COUNT(" ++ "*) FROM " ++ schema_name ++ "." ++ table_name in
  row_count_is_equal_to_x query num_rows false.

Definition count_unique_rows_table2 (schema_name table_name unique_key : string)
  (num_rows : pyval) : M W unit :=
  logger_info ("Executing : Count (unique rows) for table: |  " ++ table_name ++ " ") ;;
  let uniqueRows :=
    "SELECT COUNT(DISTINCT " ++ unique_key ++ ") FROM " ++ schema_name ++ "."
    ++ table_name in
  row_count_is_equal_to_x uniqueRows num_rows false.

(** *** Threshold check *)

(** The message is built once [float(percentage)] has returned, which it does
    for no [int] beyond the digit limit (such an [int] is too large for a
    float): [py_str] is what ['%s'] prints. *)
Definition count_empty_column_value_percentage
  (schema_name table_name column_name : string) (percentage : pyval)
  : M W unit :=
  num_rows_total <- self_row_count (query_total schema_name table_name) None ;;
  num_rows_columns <-
    self_row_count (query_column schema_name table_name column_name) None ;;
  quotient <- lift (py_truediv num_rows_columns num_rows_total) ;;
  let percentage_calculated := py_fmul quotient (float_of_Z 100) in
  threshold <- lift (py_float percentage) ;;
  if py_fgt percentage_calculated threshold then
    raise (AssertionError
             ("Percentage of EMPTY columns is '" ++ float_repr percentage_calculated
              ++ "' is higher than allow percentage '" ++ py_str percentage ++ "'"))
  else ret tt.

(** *** Derived-scalar comparisons *)

Definition row_unique_check2 (count_key count_total : string) : M W unit :=
  selectStatement1 <- self_open_sql count_key ;;
  selectStatement2 <- self_open_sql count_total ;;
  self_cursor ;;
  result_key <- self_query selectStatement1 None ;;
  result_total <- self_query selectStatement2 None ;;
  rowunique <- lift (scalar_of_first_row result_key) ;;
  objectrows <- lift (scalar_of_first_row result_total) ;;
  if negb (rowunique =? objectrows) then
    raise (AssertionError
             ("Key is not unique, total rows: '" ++ str_of_Z objectrows
              ++ "', key rows: '" ++ str_of_Z rowunique ++ "'"))
  else ret tt.

(** The message of the three choices.  It is built once [int(field)] is 0, 1
    or 2, so that an [int] printed here has one digit, and [uniqueRows] comes
    from [round]: [py_str] and [str_of_Z] are what ['%s'] prints. *)
Definition expected_actual (field : pyval) (uniqueRows : Z) : string :=
  "Expected: '" ++ py_str field ++ "'   Actual: '" ++ str_of_Z uniqueRows ++ "'".

Definition value_variance_check (schema_name table_name unique_key : string)
  (field : pyval) : M W unit :=
  logger_info ("Executing : Values variance check: |  " ++ table_name ++ " ") ;;
  result_uniqueRows <- self_count_unique_rows_table schema_name table_name unique_key ;;
  uniqueRows <- lift (scalar_of_first_row result_uniqueRows) ;;
  f0 <- lift (py_int field) ;;
  if f0 =? 0 then
    f <- lift (py_int field) ;;
    if negb (uniqueRows =? f) then
      raise (AssertionError (expected_actual field uniqueRows))
    else ret tt
  else
    f1 <- lift (py_int field) ;;
    if f1 =? 1 then
      f <- lift (py_int field) ;;
      if negb (uniqueRows =? f) then
        raise (AssertionError (expected_actual field uniqueRows))
      else ret tt
    else
      f2 <- lift (py_int field) ;;
      if f2 =? 2 then
        f <- lift (py_int field) ;;
        if uniqueRows <? f then
          raise (AssertionError (expected_actual field uniqueRows))
        else ret tt
      else
        raise (AssertionError "Check 4th argument in TC, expected value 0, 1 or 2").

Definition object_unique_message (objectRows : Z) (unique_key : string)
  (uniqueRows : Z) : string :=
  "Object rows: '" ++ str_of_Z objectRows ++ "', unique rows '" ++ unique_key
  ++ "': '" ++ str_of_Z uniqueRows ++ "'".

Definition row_unique_check (schema_name table_name unique_key : string)
  : M W unit :=
  logger_info ("Executing : Row unique check for table: |  " ++ table_name ++ " ") ;;
  result_uniqueRows <- self_count_unique_rows_table schema_name table_name unique_key ;;
  result_objectRows <- self_count_object_rows_table schema_name table_name ;;
  uniqueRows <- lift (scalar_of_first_row result_uniqueRows) ;;
  objectRows <- lift (scalar_of_first_row result_objectRows) ;;
  logger_info (object_unique_message objectRows unique_key uniqueRows) ;;
  if negb (uniqueRows =? objectRows) then
    raise (AssertionError (object_unique_message objectRows unique_key uniqueRows))
  else ret tt.

Definition row_unique_check_argument
  (schema_name table_name unique_key argument : string) : M W unit :=
  logger_info ("Executing : Row unique check for table: |  " ++ table_name ++ " ") ;;
  result_uniqueRows <- self_count_unique_rows_table schema_name table_name unique_key ;;
  result_objectRows <-
    self_count_object_rows_table_argument schema_name table_name argument ;;
  uniqueRows <- lift (scalar_of_first_row result_uniqueRows) ;;
  objectRows <- lift (scalar_of_first_row result_objectRows) ;;
  logger_info (object_unique_message objectRows unique_key uniqueRows) ;;
  if negb (uniqueRows =? objectRows) then
    raise (AssertionError (object_unique_message objectRows unique_key uniqueRows))
  else ret tt.

Definition unique_found_message (unique_key : string) (uniqueRows : Z)
  (kind foreign_key : string) (foundRows : Z) : string :=
  "Unique rows '" ++ unique_key ++ "': '" ++ str_of_Z uniqueRows ++ "', " ++ kind
  ++ " rows '" ++ foreign_key ++ "': '" ++ str_of_Z foundRows ++ "'".

Definition integrity_log (table_name foreign_table_name : string) : string :=
  "Executing : Dimensional integrity check: | Between tables " ++ table_name
  ++ " and " ++ foreign_table_name.

(** What the five dimensional-integrity keywords do once their two results
    are fetched. *)
Definition compare_found_unique (result_foundRows result_uniqueRows : list row)
  (unique_key foreign_key kind : string) : M W unit :=
  foundRows <- lift (scalar_of_first_row result_foundRows) ;;
  uniqueRows <- lift (scalar_of_first_row result_uniqueRows) ;;
  logger_info (unique_found_message unique_key uniqueRows "found" foreign_key foundRows) ;;
  if negb (foundRows =? uniqueRows) then
    raise (AssertionError
             (unique_found_message unique_key uniqueRows kind foreign_key foundRows))
  else ret tt.

Definition dimensional_integrity_check_found
  (schema_name table_name unique_key foreign_table_name foreign_key : string)
  : M W unit :=
  logger_info (integrity_log table_name foreign_table_name) ;;
  result_foundRows <-
    self_count_found_rows_table schema_name table_name unique_key
      foreign_table_name foreign_key ;;
  result_uniqueRows <- self_count_unique_rows_table schema_name table_name unique_key ;;
  compare_found_unique result_foundRows result_uniqueRows unique_key foreign_key "found".

Definition dimensional_integrity_check_found_joinArgument
  (schema_name table_name unique_key foreign_table_name foreign_key
     argument : string) : M W unit :=
  logger_info (integrity_log table_name foreign_table_name) ;;
  result_foundRows <-
    self_count_found_rows_table_argument schema_name table_name unique_key
      foreign_table_name foreign_key argument ;;
  result_uniqueRows <- self_count_unique_rows_table schema_name table_name unique_key ;;
  compare_found_unique result_foundRows result_uniqueRows unique_key foreign_key "found".

Definition dimensional_integrity_check_found_argument
  (schema_name table_name unique_key argument foreign_table_name
     foreign_key : string) : M W unit :=
  logger_info (integrity_log table_name foreign_table_name) ;;
  result_foundRows <-
    self_count_found_rows_table schema_name table_name unique_key
      foreign_table_name foreign_key ;;
  result_uniqueRows <-
    self_count_unique_rows_table_argument schema_name table_name unique_key argument ;;
  compare_found_unique result_foundRows result_uniqueRows unique_key foreign_key "found".

Definition dimensional_integrity_check_found_withClause_argument
  (schema_name table_name unique_key argument foreign_table_name
     foreign_key : string) : M W unit :=
  logger_info (integrity_log table_name foreign_table_name) ;;
  result_foundRows <-
    self_count_found_rows_table_withClause schema_name table_name unique_key
      foreign_table_name foreign_key ;;
  result_uniqueRows <-
    self_count_unique_rows_table_argument schema_name table_name unique_key argument ;;
  compare_found_unique result_foundRows result_uniqueRows unique_key foreign_key "found".

Definition dimensional_integrity_check_potential
  (schema_name table_name unique_key foreign_key : string) : M W unit :=
  logger_info ("Executing : Dimensional integrity check: | " ++ table_name) ;;
  result_potentialRows <- self_count_unique_rows_table schema_name table_name foreign_key ;;
  result_uniqueRows <- self_count_unique_rows_table schema_name table_name unique_key ;;
  compare_found_unique result_potentialRows result_uniqueRows unique_key foreign_key
    "potential".

End Assertion.

End Keywords.

(** ** A database double

    Collaborators over canned answers: the closed examples below run the
    keywords against it.  The general theorems quantify over every
    [Collaborators]. *)

Module Double.
Import Py.
Import Keywords.

Record db : Type := {
  driver : string;
  answers : list (string * list row);
  files : list (string * string);
  differences : list (string * Z);
  deployed : list string
}.

Fixpoint lookup {A : Type} (k : string) (l : list (string * A)) : option A :=
  match l with
  | (k', a) :: l' => if String.eqb k k' then Some a else lookup k l'
  | [] => None
  end.

Definition run_query (stmt : string) (w : db) : result (list row) * db :=
  match lookup stmt (answers w) with
  | Some rs => (Ok rs, w)
  | None => (Raise (OtherError "ProgrammingError" stmt), w)
  end.

Definition run_row_count (stmt : string) (w : db) : result Z * db :=
  match lookup stmt (answers w) with
  | Some rs => (Ok (Z.of_nat (List.length rs)), w)
  | None => (Raise (OtherError "ProgrammingError" stmt), w)
  end.

Definition run_script (script : string) (w : db) : result unit * db :=
  (Ok tt,
   {| driver := driver w; answers := answers w; files := files w;
      differences := differences w; deployed := deployed w ++ [script] |}).

Definition read_file (file : string) (w : db) : result string * db :=
  match lookup file (files w) with
  | Some text => (Ok text, w)
  | None => (Raise (OtherError "FileNotFoundError" file), w)
  end.

Definition run_compare (a b c d : string) (w : db) : result Z * db :=
  match lookup (a ++ "." ++ b ++ "/" ++ c ++ "." ++ d) (differences w) with
  | Some n => (Ok n, w)
  | None => (Raise (OtherError "ProgrammingError" b), w)
  end.

Definition collaborators : Collaborators db := {|
  db_api_module_name := driver;
  query := fun stmt _ => run_query stmt;
  row_count := fun stmt _ => run_row_count stmt;
  execute_sql_script := run_script;
  open_sql := read_file;
  compare_tables := run_compare;
  dbconnection_cursor := fun w => (Ok tt, w);
  count_unique_rows_table := fun s t k =>
    run_query ("unique " ++ k ++ " of " ++ s ++ "." ++ t);
  count_unique_rows_table_argument := fun s t k a =>
    run_query ("unique " ++ k ++ " of " ++ s ++ "." ++ t ++ " where " ++ a);
  count_object_rows_table := fun s t => run_query ("rows of " ++ s ++ "." ++ t);
  count_object_rows_table_argument := fun s t a =>
    run_query ("rows of " ++ s ++ "." ++ t ++ " where " ++ a);
  count_found_rows_table := fun s t k ft fk =>
    run_query ("found " ++ fk ++ " of " ++ ft ++ " for " ++ k ++ " of " ++ s ++ "." ++ t);
  count_found_rows_table_argument := fun s t k ft fk a =>
    run_query ("found " ++ fk ++ " of " ++ ft ++ " for " ++ k ++ " of " ++ s ++ "." ++ t
               ++ " and " ++ a);
  count_found_rows_table_withClause := fun s t k ft fk =>
    run_query ("found " ++ fk ++ " of " ++ ft ++ " for " ++ k ++ " of " ++ s ++ "." ++ t)
|}.

(** The table [person] of the keyword documentation, once with ten rows of
    which three have no last name. *)
Definition franz : string := "SELECT id FROM person WHERE first_name = 'Franz Allan'".
Definition john : string := "SELECT id FROM person WHERE first_name = 'John'".

Definition ten_rows : list row := map (fun n => [PInt n]) [1; 2; 3; 4; 5; 6; 7; 8; 9; 10].

Definition person_db : db := {|
  driver := "sqlite3";
  answers :=
    [ (franz, [[PInt 1]]);
      (john, []);
      ("SELECT id FROM person", [[PInt 1]; [PInt 2]]);
      ("SELECT * FROM hr.person", ten_rows);
      ("SELECT * FROM hr.person WHERE last_name IS NULL", firstn 3 ten_rows);
      ("SELECT * FROM hr.empty", []);
      ("SELECT * FROM hr.empty WHERE last_name IS NULL", []);
      ("unique id of hr.person", [[PInt 10]]);
      ("rows of hr.person", [[PInt 10]]);
      ("unique dept of hr.person", [[PInt 3; PInt 14]]);
      (snowflake_structure_query "test" "person" "expected" "person",
       [[PStr "id"]; [PStr "last_name"]]) ];
  files := [ ("count.sql", "SELECT id FROM person") ];
  differences := [ ("test.person/expected.person", 2) ];
  deployed := []
|}.

Definition start : state db := {| world := person_db; trace := [] |}.

End Double.

(** ** The vocabulary of the properties *)

Import Py.
Import Keywords.
Local Open Scope keyword_scope.

Abbreviation chars := list_ascii_of_string (only parsing).

(** [sub] occurs in [s]. *)
Definition contains (sub s : string) : Prop :=
  exists pre post : string, s = pre ++ sub ++ post.

Definition outcome {W A : Type} (m : M W A) (st : state W) : result A :=
  fst (m st).

Definition final {W A : Type} (m : M W A) (st : state W) : state W :=
  snd (m st).

(** The two outcomes a check is meant to have. *)
Definition passes {W : Type} (m : M W unit) (st : state W) : Prop :=
  outcome m st = Ok tt.

Definition fails_with {W : Type} (m : M W unit) (st : state W) (msg : string)
  : Prop :=
  outcome m st = Raise (AssertionError msg).

(** The events of a run: what the trace gained. *)
Definition emitted {W A : Type} (m : M W A) (st : state W) (evs : list event)
  : Prop :=
  trace (final m st) = (trace st ++ evs)%list.

Definition is_call (method : string) (ev : event) : bool :=
  match ev with
  | Call m _ => String.eqb m method
  | LogInfo _ => false
  end.

Definition count_calls (method : string) (evs : list event) : nat :=
  List.length (filter (is_call method) evs).

(** A value that Python takes for a number: [float] accepts it. *)
Definition numeric (v : pyval) : Prop := exists x, py_float v = Ok x.

(** [n] is an integer nearest to the finite float [x]. *)
Definition nearest_integer (x : spec_float) (n : Z) : Prop :=
  match x with
  | S754_zero _ => n = 0
  | S754_finite s m e =>
      if 0 <=? e then n = cond_opp s (Zpos m * 2 ^ e)
      else 2 * Z.abs (n * 2 ^ (- e) - cond_opp s (Zpos m)) <= 2 ^ (- e)
  | _ => False
  end.

(** What a derived-scalar keyword makes of the first rows [r1] and [r2] of its
    two results, [r1] being flattened first: the flattening errors come out as
    they are, and the two numbers are compared. *)
Definition scalars_verdict (r1 r2 : row) (verdict : result unit) : Prop :=
  match scalar_of_row r1, scalar_of_row r2 with
  | Raise e, _ => verdict = Raise e
  | Ok _, Raise e => verdict = Raise e
  | Ok a, Ok b =>
      if a =? b then verdict = Ok tt
      else exists msg, verdict = Raise (AssertionError msg)
  end.

(** The generic statement of [table_must_exist], and "[d] gets a statement of
    its own dialect". *)
Definition ansi_table_sql (tableName : string) : string :=
  "SELECT * FROM information_schema.tables WHERE table_name='" ++ tableName ++ "'".

Definition dialect_specific (module_name tableName : string) : Prop :=
  table_exists_sql module_name tableName <> ansi_table_sql tableName.

(** "There are four dialect-specific table-existence queries": four driver
    names get, for some table, four different statements, none of them the
    generic one. *)
Definition four_dialect_queries : Prop :=
  exists d1 d2 d3 d4 t : string,
    (dialect_specific d1 t /\ dialect_specific d2 t /\
     dialect_specific d3 t /\ dialect_specific d4 t) /\
    table_exists_sql d1 t <> table_exists_sql d2 t /\
    table_exists_sql d1 t <> table_exists_sql d3 t /\
    table_exists_sql d1 t <> table_exists_sql d4 t /\
    table_exists_sql d2 t <> table_exists_sql d3 t /\
    table_exists_sql d2 t <> table_exists_sql d4 t /\
    table_exists_sql d3 t <> table_exists_sql d4 t.

Definition known_driver (module_name : string) : Prop :=
  module_name = "cx_Oracle" \/ module_name = "sqlite3" \/
  module_name = "ibm_db" \/ module_name = "ibm_db_dbi".

(** "Whenever [int(field)] is none of 0, 1 and 2, [value_variance_check]
    raises the [AssertionError] on its fourth argument, regardless of the
    database result": whatever result the helper returns. *)
Definition invalid_choice_always_reported : Prop :=
  forall (W : Type) (self : Collaborators W) (s t k : string) (field : pyval)
         (st : state W) (rs : list row) (w1 : W) (f : Z),
    count_unique_rows_table self s t k (world st) = (Ok rs, w1) ->
    py_int field = Ok f -> f <> 0 -> f <> 1 -> f <> 2 ->
    fails_with (value_variance_check self s t k field) st
      "Check 4th argument in TC, expected value 0, 1 or 2".

(** A derived-scalar keyword [kw] that fetches two results, by [fetch1] and
    then [fetch2], and judges their first rows. *)
Definition flattens_first_rows {W : Type} (kw : M W unit)
  (fetch1 fetch2 : W -> result (list row) * W) (st : state W) : Prop :=
  forall (r1 r2 : row) (l1 l2 : list row) (w1 w2 : W),
    fetch1 (world st) = (Ok (r1 :: l1), w1) ->
    fetch2 w1 = (Ok (r2 :: l2), w2) ->
    scalars_verdict r1 r2 (outcome kw st).

(** The number of digits of a decimal numeral. *)
Definition digits_len (d : Decimal.uint) : Z :=
  Z.of_nat (List.length (chars (NilEmpty.string_of_uint d))).

(** The number of characters of [str(z)]. *)
Definition str_len (z : Z) : Z := Z.of_nat (String.length (str_of_Z z)).

(** The characters of the text of a row of integers. *)
Definition plain_char (c : ascii) : bool :=
  is_digit c || Ascii.eqb c "-" || Ascii.eqb c ".".

(** A derived-scalar keyword [kw] that fetches two results, by [fetch1] and
    then [fetch2] (the events [call1] and [call2]), and, once their first rows
    are flattened to [a] and [b], logs [line a b] and judges: it passes when
    [a = b] and raises an [AssertionError] with [message a b] otherwise. *)
Definition logs_then_judges {W : Type} (kw : M W unit)
  (fetch1 fetch2 : W -> result (list row) * W) (start : string)
  (call1 call2 : event) (line message : Z -> Z -> string) (st : state W)
  : Prop :=
  forall (r1 r2 : row) (l1 l2 : list row) (w1 w2 : W) (a b : Z),
    fetch1 (world st) = (Ok (r1 :: l1), w1) ->
    fetch2 w1 = (Ok (r2 :: l2), w2) ->
    scalar_of_row r1 = Ok a ->
    scalar_of_row r2 = Ok b ->
    emitted kw st [LogInfo start; call1; call2; LogInfo (line a b)] /\
    (a = b -> passes kw st) /\
    (a <> b -> fails_with kw st (message a b)).

(** A derived-scalar keyword [kw] that takes the first row of each of its two
    results only after both are fetched: an empty first result, or an empty
    second one after a first that flattens, ends in an [IndexError], in the
    state that the second fetch left and with nothing logged after the
    fetches. *)
Definition needs_first_rows {W : Type} (kw : M W unit)
  (fetch1 fetch2 : W -> result (list row) * W) (start : string)
  (call1 call2 : event) (st : state W) : Prop :=
  forall (rs1 rs2 : list row) (w1 w2 : W),
    fetch1 (world st) = (Ok rs1, w1) ->
    fetch2 w1 = (Ok rs2, w2) ->
    (rs1 = [] \/ (rs2 = [] /\ exists a, scalar_of_first_row rs1 = Ok a)) ->
    outcome kw st = Raise IndexError /\
    world (final kw st) = w2 /\
    emitted kw st [LogInfo start; call1; call2].

(** What ends a run of digits in [int]: the end of the text, or a character
    that is neither a digit nor an underscore. *)
Definition ends_digits (r : list ascii) : Prop :=
  match r with
  | c :: _ => is_digit c = false /\ is_underscore c = false
  | [] => True
  end.

(** The characters that a text accepted by [float] can hold: digits, signs,
    the point, the underscore, the letters of the exponent and of [inf],
    [infinity] and [nan] in either case, and white space. *)
Definition float_char (c : ascii) : bool :=
  is_digit c || is_py_space c || is_underscore c
  || existsb (Ascii.eqb (to_lower c)) (list_ascii_of_string "+-.einftya").

(** The float [x] is zero or finite and positive, with an exponent that is
    not positive, and lies between the integers [lo] and [hi]. *)
Definition float_between (x : spec_float) (lo hi : Z) : Prop :=
  match x with
  | S754_zero _ => lo <= 0 <= hi
  | S754_finite false m e =>
      e <= 0 /\ lo * 2 ^ (- e) <= Zpos m <= hi * 2 ^ (- e)
  | _ => False
  end.


(** Collaborators that answer every call the same way: [answering] returns
    the count [n], the rows [rows] and the text [text]; [failing] raises [e]
    from every method. *)
Module Stub.

Definition answering (n : Z) (rows : list row) (text : string)
  : Collaborators unit := {|
  db_api_module_name := fun _ => "psycopg2";
  query := fun _ _ w => (Ok rows, w);
  row_count := fun _ _ w => (Ok n, w);
  execute_sql_script := fun _ w => (Ok tt, w);
  open_sql := fun _ w => (Ok text, w);
  compare_tables := fun _ _ _ _ w => (Ok n, w);
  dbconnection_cursor := fun w => (Ok tt, w);
  count_unique_rows_table := fun _ _ _ w => (Ok rows, w);
  count_unique_rows_table_argument := fun _ _ _ _ w => (Ok rows, w);
  count_object_rows_table := fun _ _ w => (Ok rows, w);
  count_object_rows_table_argument := fun _ _ _ w => (Ok rows, w);
  count_found_rows_table := fun _ _ _ _ _ w => (Ok rows, w);
  count_found_rows_table_argument := fun _ _ _ _ _ _ w => (Ok rows, w);
  count_found_rows_table_withClause := fun _ _ _ _ _ w => (Ok rows, w)
|}.

Definition failing (e : exn) : Collaborators unit := {|
  db_api_module_name := fun _ => "psycopg2";
  query := fun _ _ w => (Raise e, w);
  row_count := fun _ _ w => (Raise e, w);
  execute_sql_script := fun _ w => (Raise e, w);
  open_sql := fun _ w => (Raise e, w);
  compare_tables := fun _ _ _ _ w => (Raise e, w);
  dbconnection_cursor := fun w => (Raise e, w);
  count_unique_rows_table := fun _ _ _ w => (Raise e, w);
  count_unique_rows_table_argument := fun _ _ _ _ w => (Raise e, w);
  count_object_rows_table := fun _ _ w => (Raise e, w);
  count_object_rows_table_argument := fun _ _ _ w => (Raise e, w);
  count_found_rows_table := fun _ _ _ _ _ w => (Raise e, w);
  count_found_rows_table_argument := fun _ _ _ _ _ _ w => (Raise e, w);
  count_found_rows_table_withClause := fun _ _ _ _ _ w => (Raise e, w)
|}.

Definition start : state unit := {| world := tt; trace := [] |}.

End Stub.

(** ** Lemmas and theorems *)

(** *** Running the monad *)

Section Run.

Context {W : Type}.

Lemma run_bind_ok {A B : Type} (m : M W A) (k : A -> M W B) st a st' :
  m st = (Ok a, st') -> bind m k st = k a st'.
Proof. intros H. unfold bind. now rewrite H. Qed.

Lemma run_call {A : Type} method args (f : W -> result A * W) st r w :
  f (world st) = (r, w) ->
  call method args f st = (r, record (Call method args) st w).
Proof. intros H. unfold call. now rewrite H. Qed.

End Run.

(** Unfolds a keyword down to the calls of its collaborators. *)
Ltac run_keyword :=
  cbv beta delta
    [outcome final passes fails_with bind ret raise lift
     logger_info call attribute record
     self_query self_row_count self_execute_sql_script self_open_sql
     self_compare_tables self_cursor
     self_count_unique_rows_table self_count_unique_rows_table_argument
     self_count_object_rows_table self_count_object_rows_table_argument
     self_count_found_rows_table self_count_found_rows_table_argument
     self_count_found_rows_table_withClause];
  cbn [world trace fst snd].

(** *** Texts *)

Lemma append_assoc (a b c : string) : (a ++ b) ++ c = a ++ b ++ c.
Proof. induction a as [|x a IH]; cbn; [reflexivity | now rewrite IH]. Qed.

Lemma append_empty (a : string) : a ++ EmptyString = a.
Proof. induction a as [|x a IH]; cbn; [reflexivity | now rewrite IH]. Qed.

Lemma contains_refl (s : string) : contains s s.
Proof. exists EmptyString, EmptyString. cbn. now rewrite append_empty. Qed.

Lemma contains_app_l (sub p s : string) : contains sub s -> contains sub (p ++ s).
Proof.
  intros (pre & post & ->). exists (p ++ pre), post. now rewrite append_assoc.
Qed.

Lemma contains_app_r (sub s p : string) : contains sub s -> contains sub (s ++ p).
Proof.
  intros (pre & post & ->). exists pre, (post ++ p). now rewrite !append_assoc.
Qed.

Create HintDb contains.
#[local] Hint Resolve contains_refl contains_app_l contains_app_r : contains.

Lemma chars_app (a b : string) : chars (a ++ b) = (chars a ++ chars b)%list.
Proof. induction a as [|c a IH]; cbn; [reflexivity | now rewrite IH]. Qed.

Lemma chars_length (a : string) : List.length (chars a) = String.length a.
Proof. induction a as [|c a IH]; cbn; [reflexivity | now rewrite IH]. Qed.

(** *** Decimal texts *)

Lemma scan_int_digit (c : ascii) (prev : bool) (acc : Z) (s : list ascii) :
  is_digit c = true ->
  scan_int prev acc (c :: s) = scan_int false (acc * 10 + digit_val c) s.
Proof. intros H. cbn [scan_int]. now rewrite H. Qed.

Lemma scan_int_acc (d : Decimal.uint) (p : positive) :
  scan_int false (Zpos p) (chars (NilEmpty.string_of_uint d))
  = Some (Zpos (Pos.of_uint_acc d p), []).
Proof.
  revert p. induction d; intros p;
    cbn [NilEmpty.string_of_uint list_ascii_of_string Pos.of_uint_acc];
    [reflexivity | ..];
    rewrite scan_int_digit by reflexivity;
    match goal with
    | |- scan_int false ?a _ = Some (Zpos (Pos.of_uint_acc _ ?q), _) =>
        replace a with (Zpos q)
          by (unfold digit_val, code;
              match goal with
              | |- context [N_of_ascii ?c] =>
                  let v := eval cbv in (N_of_ascii c) in
                  change (N_of_ascii c) with v
              end; lia)
    end; apply IHd.
Qed.

Lemma scan_int_uint (d : Decimal.uint) :
  scan_int false 0 (chars (NilEmpty.string_of_uint d))
  = Some (Z.of_N (Pos.of_uint d), []).
Proof.
  induction d;
    cbn [NilEmpty.string_of_uint list_ascii_of_string Pos.of_uint];
    [reflexivity | ..];
    rewrite scan_int_digit by reflexivity;
    [exact IHd | ..]; apply scan_int_acc.
Qed.

Lemma ascii_uint (d : Decimal.uint) :
  forallb is_ascii (chars (NilEmpty.string_of_uint d)) = true.
Proof. induction d; cbn; auto. Qed.

Lemma head_uint (sp : ascii -> bool) (d : Decimal.uint) :
  (forall c, is_digit c = true -> sp c = false) ->
  d <> Decimal.Nil ->
  exists c s, chars (NilEmpty.string_of_uint d) = c :: s
              /\ is_digit c = true /\ sp c = false
              /\ split_sign (c :: s) = (false, c :: s).
Proof.
  intros Hsp Hd. destruct d; [congruence | ..]; cbn;
    eexists; eexists; (split; [reflexivity|]); (split; [reflexivity|]);
    (split; [apply Hsp; reflexivity | reflexivity]).
Qed.

Lemma numeral_digits_end (r : list ascii) : ends_digits r -> numeral_digits r = 0.
Proof.
  destruct r as [|c r]; [reflexivity|]. intros [H1 H2].
  cbn [numeral_digits]. now rewrite H1, H2.
Qed.

(** The limit is held against the number of digits of the numeral. *)
Lemma numeral_digits_uint (d : Decimal.uint) (r : list ascii) :
  ends_digits r ->
  numeral_digits (chars (NilEmpty.string_of_uint d) ++ r) = digits_len d.
Proof.
  intros Hr. unfold digits_len.
  induction d;
    cbn [NilEmpty.string_of_uint list_ascii_of_string app List.length
         numeral_digits];
    [now apply numeral_digits_end | ..];
    change (is_digit _) with true; cbv iota;
    rewrite IHd, Nat2Z.inj_succ; lia.
Qed.

Lemma parse_int_uint (sp : ascii -> bool) (d : Decimal.uint) :
  (forall c, is_digit c = true -> sp c = false) ->
  d <> Decimal.Nil ->
  digits_len d <= max_str_digits ->
  parse_int sp (chars (NilEmpty.string_of_uint d)) = Ok (Z.of_uint d).
Proof.
  intros Hsp Hd Hlen. unfold parse_int.
  destruct (head_uint sp d Hsp Hd) as (c & s & E & Hc & Hs & Hsign).
  pose proof (scan_int_uint d) as Hscan.
  pose proof (numeral_digits_uint d [] I) as Hnum.
  rewrite List.app_nil_r in Hnum. rewrite E in *.
  cbn [drop_while]. rewrite Hs, Hsign, Hc, Hscan, Hnum.
  destruct (Z.ltb_spec max_str_digits (digits_len d)); [lia | reflexivity].
Qed.

Lemma to_int_digits (z : Z) :
  exists d, d <> Decimal.Nil /\
    NilZero.string_of_int (Z.to_int z)
    = (if z <? 0 then "-" else EmptyString) ++ NilEmpty.string_of_uint d
    /\ Z.of_uint d = Z.abs z.
Proof.
  destruct z as [|p|p]; cbn [Z.to_int NilZero.string_of_int Z.ltb Z.compare].
  - exists (Decimal.D0 Decimal.Nil). repeat split. discriminate.
  - exists (Pos.to_uint p). split; [apply DecimalPos.Unsigned.to_uint_nonnil|]. split.
    + unfold NilZero.string_of_uint.
      pose proof (DecimalPos.Unsigned.to_uint_nonnil p). destruct (Pos.to_uint p); [congruence | reflexivity ..].
    + unfold Z.of_uint. now rewrite DecimalPos.Unsigned.of_to.
  - exists (Pos.to_uint p). split; [apply DecimalPos.Unsigned.to_uint_nonnil|]. split.
    + unfold NilZero.string_of_uint.
      pose proof (DecimalPos.Unsigned.to_uint_nonnil p). destruct (Pos.to_uint p); [congruence | reflexivity ..].
    + unfold Z.of_uint. now rewrite DecimalPos.Unsigned.of_to.
Qed.

(** The digits of [str(z)], with their number. *)
Lemma str_of_Z_digits (z : Z) :
  exists d, d <> Decimal.Nil /\
    str_of_Z z = (if z <? 0 then "-" else EmptyString) ++ NilEmpty.string_of_uint d
    /\ Z.of_uint d = Z.abs z /\ decimal_digits z = digits_len d.
Proof.
  unfold decimal_digits, digits_len.
  assert (H : forall p,
             str_of_Z (Zpos p) = NilEmpty.string_of_uint (Pos.to_uint p)).
  { intros p. unfold str_of_Z.
    cbn [Z.to_int NilZero.string_of_int]. unfold NilZero.string_of_uint.
    pose proof (DecimalPos.Unsigned.to_uint_nonnil p).
    destruct (Pos.to_uint p); [congruence | reflexivity ..]. }
  destruct z as [|p|p]; cbn [Z.abs Z.ltb Z.compare].
  - exists (Decimal.D0 Decimal.Nil). repeat split. discriminate.
  - exists (Pos.to_uint p). split; [apply DecimalPos.Unsigned.to_uint_nonnil|].
    split; [apply H|]. split.
    + unfold Z.of_uint. now rewrite DecimalPos.Unsigned.of_to.
    + now rewrite H, chars_length.
  - exists (Pos.to_uint p). split; [apply DecimalPos.Unsigned.to_uint_nonnil|].
    split; [|split].
    + rewrite <- H. reflexivity.
    + unfold Z.of_uint. now rewrite DecimalPos.Unsigned.of_to.
    + now rewrite H, chars_length.
Qed.

(** [int] reads back what [str] prints, whatever white space it skips, when
    the digits are within the limit. *)
Lemma parse_int_str_of_Z (sp : ascii -> bool) (z : Z) :
  (forall c, is_digit c = true -> sp c = false) ->
  sp "-"%char = false ->
  decimal_digits z <= max_str_digits ->
  parse_int sp (chars (str_of_Z z)) = Ok z.
Proof.
  intros Hsp Hminus Hlen.
  destruct (str_of_Z_digits z) as (d & Hd & -> & Hv & Hdig).
  rewrite Hdig in Hlen.
  pose proof (parse_int_uint sp d Hsp Hd Hlen) as H.
  destruct (Z.ltb_spec z 0) as [Hz|Hz].
  - unfold parse_int in *. cbn [append list_ascii_of_string drop_while].
    rewrite Hminus. cbn [split_sign].
    destruct (head_uint sp d Hsp Hd) as (c & s & E & Hc & Hs & Hsign).
    rewrite E in *. cbn [drop_while] in H. rewrite Hs, Hsign, Hc in H.
    rewrite Hc.
    destruct (scan_int false 0 (c :: s)) as [[n rest]|]; [|discriminate].
    destruct (max_str_digits <? numeral_digits (c :: s)); [discriminate|].
    destruct (drop_while sp rest); [|discriminate].
    inversion H. f_equal. lia.
  - cbn [append]. rewrite H. f_equal. lia.
Qed.

(** [int] refuses what [str] would print with more digits than the limit. *)
Lemma parse_int_too_long (sp : ascii -> bool) (z : Z) :
  (forall c, is_digit c = true -> sp c = false) ->
  sp "-"%char = false ->
  max_str_digits < decimal_digits z ->
  parse_int sp (chars (str_of_Z z)) = Raise ValueError.
Proof.
  intros Hsp Hminus Hlen.
  destruct (str_of_Z_digits z) as (d & Hd & -> & Hv & Hdig).
  rewrite Hdig in Hlen.
  destruct (head_uint sp d Hsp Hd) as (c & s & E & Hc & Hs & Hsign).
  pose proof (scan_int_uint d) as Hscan.
  pose proof (numeral_digits_uint d [] I) as Hnum.
  rewrite List.app_nil_r in Hnum. rewrite E in *.
  assert (Hcut : (max_str_digits <? numeral_digits (c :: s)) = true)
    by (apply Z.ltb_lt; lia).
  unfold parse_int.
  destruct (z <? 0); cbn [append list_ascii_of_string drop_while].
  - rewrite Hminus. cbn [split_sign]. rewrite E, Hc, Hscan, Hcut. reflexivity.
  - rewrite E. cbn [drop_while]. rewrite Hs, Hsign, Hc, Hscan, Hcut. reflexivity.
Qed.

Lemma c_space_digit (c : ascii) : is_digit c = true -> is_c_space c = false.
Proof.
  unfold is_digit, is_c_space. intros H.
  apply andb_true_iff in H. destruct H as [H1 H2].
  apply N.leb_le in H1. apply N.leb_le in H2.
  apply orb_false_iff. split.
  - apply andb_false_iff. right. apply N.leb_gt. lia.
  - apply N.eqb_neq. lia.
Qed.

Lemma ascii_str_of_Z (z : Z) : forallb is_ascii (chars (str_of_Z z)) = true.
Proof.
  unfold str_of_Z. destruct (to_int_digits z) as (d & _ & -> & _).
  destruct (z <? 0); cbn [append list_ascii_of_string forallb].
  - now rewrite ascii_uint.
  - apply ascii_uint.
Qed.

(** The coercion of the row-count keywords reads the decimal text of every
    integer whose digits are within the limit, and refuses the others. *)
Lemma coerce_count_str_of_Z (z : Z) :
  decimal_digits z <= max_str_digits -> coerce_count (PStr (str_of_Z z)) = Ok z.
Proof.
  intros Hlen. unfold coerce_count, encode_ascii.
  rewrite ascii_str_of_Z. cbn [rbind]. unfold int_of_bytes.
  apply parse_int_str_of_Z; [apply c_space_digit | reflexivity | assumption].
Qed.

Lemma coerce_count_too_long (z : Z) :
  max_str_digits < decimal_digits z ->
  coerce_count (PStr (str_of_Z z)) = Raise ValueError.
Proof.
  intros Hlen. unfold coerce_count, encode_ascii.
  rewrite ascii_str_of_Z. cbn [rbind]. unfold int_of_bytes.
  apply parse_int_too_long; [apply c_space_digit | reflexivity | assumption].
Qed.

(** [int] of a text raises nothing but a [ValueError]. *)
Lemma parse_int_errors (sp : ascii -> bool) (l : list ascii) (e : exn) :
  parse_int sp l = Raise e -> e = ValueError.
Proof.
  unfold parse_int.
  destruct (split_sign _) as [neg s2].
  destruct s2 as [|c s2]; [now intros [= <-]|].
  destruct (is_digit c); [|now intros [= <-]].
  destruct (scan_int false 0 (c :: s2)) as [[n rest]|]; [|now intros [= <-]].
  destruct (max_str_digits <? numeral_digits (c :: s2)); [now intros [= <-]|].
  destruct (drop_while sp rest); [discriminate | now intros [= <-]].
Qed.

(** The coercion fails with the error of [encode] or of [int], never with an
    [AssertionError]. *)
Lemma coerce_count_errors (v : pyval) (e : exn) :
  coerce_count v = Raise e ->
  e = AttributeError \/ e = UnicodeEncodeError \/ e = ValueError.
Proof.
  unfold coerce_count, encode_ascii, int_of_bytes.
  destruct v as [| z | f | s]; cbn [rbind]; try (intros [= <-]; auto).
  destruct (forallb is_ascii (list_ascii_of_string s)); cbn [rbind];
    [|intros [= <-]; auto].
  intros H. apply parse_int_errors in H. auto.
Qed.

(** What the formatting of an argument gives: the text of [str], or the
    [ValueError] of an [int] beyond the limit. *)
Lemma py_format_cases (v : pyval) :
  py_format v = Ok (py_str v) \/
  (py_format v = Raise ValueError /\
   exists z, v = PInt z /\ max_str_digits < decimal_digits z).
Proof.
  destruct v as [| z | f | s]; cbn [py_format py_str]; auto.
  unfold int_str. destruct (Z.ltb_spec max_str_digits (decimal_digits z));
    [right; eauto | now left].
Qed.

(** An argument that the coercion takes is a text, and is logged as it is. *)
Lemma coerced_is_text (v : pyval) (n : Z) :
  coerce_count v = Ok n -> py_format v = Ok (py_str v).
Proof. destruct v; try discriminate. reflexivity. Qed.

(** *** The float of an integer text *)

Lemma drop_while_head (p : ascii -> bool) (s : list ascii) :
  (forall c, In c s -> p c = false) -> drop_while p s = s.
Proof.
  destruct s as [|c s]; [reflexivity|]. intros H. cbn [drop_while].
  now rewrite (H c (or_introl eq_refl)).
Qed.

Lemma strip_none (p : ascii -> bool) (s : list ascii) :
  (forall c, In c s -> p c = false) -> strip p s = s.
Proof.
  intros H. unfold strip. rewrite (drop_while_head p s H).
  rewrite drop_while_head; [apply rev_involutive|].
  intros c Hc. apply H. now apply in_rev.
Qed.

Lemma remove_underscores_none (prev : option ascii) (s : list ascii) :
  (forall c, In c s -> is_underscore c = false) ->
  match prev with Some p => is_underscore p = false | None => True end ->
  remove_underscores prev s = Some s.
Proof.
  revert prev. induction s as [|c s IH]; intros prev Hs Hprev; cbn [remove_underscores].
  - destruct prev as [p|]; [now rewrite Hprev | reflexivity].
  - rewrite (Hs c (or_introl eq_refl)).
    assert (Hrec : remove_underscores (Some c) s = Some s).
    { apply IH; [intros d Hd; apply Hs; now right | apply Hs; now left]. }
    destruct prev as [p|]; [rewrite Hprev; cbn [andb]|]; now rewrite Hrec.
Qed.

Lemma scan_digits_digit (c : ascii) (acc n : Z) (s : list ascii) :
  is_digit c = true ->
  scan_digits acc n (c :: s) = scan_digits (acc * 10 + digit_val c) (n + 1) s.
Proof. intros H. cbn [scan_digits]. now rewrite H. Qed.

Lemma scan_digits_acc (d : Decimal.uint) (p : positive) (n : Z) :
  exists k, 0 <= k /\
    scan_digits (Zpos p) n (chars (NilEmpty.string_of_uint d))
    = (Zpos (Pos.of_uint_acc d p), n + k, []).
Proof.
  revert p n. induction d; intros p n;
    cbn [NilEmpty.string_of_uint list_ascii_of_string Pos.of_uint_acc];
    [exists 0; split; [lia | now rewrite Z.add_0_r] | ..];
    rewrite scan_digits_digit by reflexivity;
    match goal with
    | |- exists k, _ /\ scan_digits ?a _ _ = (Zpos (Pos.of_uint_acc _ ?q), _, _) =>
        replace a with (Zpos q)
          by (unfold digit_val, code;
              match goal with
              | |- context [N_of_ascii ?c] =>
                  let v := eval cbv in (N_of_ascii c) in
                  change (N_of_ascii c) with v
              end; lia);
        destruct (IHd q (n + 1)) as (k & Hk & ->)
    end;
    exists (1 + k); (split; [lia | now rewrite Z.add_assoc]).
Qed.

Lemma scan_digits_uint (d : Decimal.uint) (n : Z) :
  d <> Decimal.Nil ->
  exists k, 0 < k /\
    scan_digits 0 n (chars (NilEmpty.string_of_uint d))
    = (Z.of_N (Pos.of_uint d), n + k, []).
Proof.
  revert n. induction d; intros n Hd; [congruence | ..];
    cbn [NilEmpty.string_of_uint list_ascii_of_string Pos.of_uint];
    rewrite scan_digits_digit by reflexivity;
    [ destruct d;
      [ exists 1; split; [lia | reflexivity]
      | destruct (IHd (n + 1) ltac:(discriminate)) as (k & Hk & E);
        exists (1 + k); split; [lia|];
        change (0 * 10 + digit_val "0") with 0; rewrite E;
        now rewrite Z.add_assoc .. ]
    | .. ];
    match goal with
    | |- exists k, _ /\ scan_digits ?a _ _ = (Z.of_N (N.pos (Pos.of_uint_acc _ ?q)), _, _) =>
        change a with (Zpos q);
        destruct (scan_digits_acc d q (n + 1)) as (k & Hk & ->)
    end;
    exists (1 + k); (split; [lia | now rewrite Z.add_assoc]).
Qed.

Lemma uint_chars (d : Decimal.uint) (c : ascii) :
  In c (chars (NilEmpty.string_of_uint d)) -> is_digit c = true.
Proof.
  induction d; cbn [NilEmpty.string_of_uint list_ascii_of_string In];
    [tauto | ..]; (intros [<- | H]; [reflexivity | now apply IHd]).
Qed.

Lemma digit_plain (c : ascii) :
  is_digit c = true ->
  is_py_space c = false /\ is_underscore c = false /\
  forall s, split_sign (c :: s) = (false, c :: s).
Proof.
  destruct c as [b0 b1 b2 b3 b4 b5 b6 b7].
  destruct b0, b1, b2, b3, b4, b5, b6, b7; intros H;
    try discriminate H; repeat split.
Qed.

(** [float] reads the decimal text of an integer as the float nearest to it. *)
Lemma py_float_str_of_Z (z : Z) :
  py_float (PStr (str_of_Z z))
  = Ok (with_sign (z <? 0) (float_of_decimal (Z.abs z) 0)).
Proof.
  cbn [py_float]. unfold str_of_Z.
  destruct (to_int_digits z) as (d & Hd & -> & Hv).
  pose proof (uint_chars d) as Hdig.
  destruct (scan_digits_uint d 0 Hd) as (k & Hk & Hscan).
  destruct (head_uint is_py_space d
              (fun c H => proj1 (digit_plain c H)) Hd)
    as (c0 & s0 & E0 & Hc0 & _ & _).
  unfold parse_float.
  assert (Hplain : forall c,
             In c (chars ((if z <? 0 then "-" else EmptyString)
                          ++ NilEmpty.string_of_uint d)) ->
             is_py_space c = false /\ is_underscore c = false).
  { intros c Hc.
    destruct (z <? 0); cbn [append list_ascii_of_string In] in Hc.
    - destruct Hc as [<- | Hc]; [split; reflexivity|].
      destruct (digit_plain c (Hdig c Hc)) as (? & ? & _). now split.
    - destruct (digit_plain c (Hdig c Hc)) as (? & ? & _). now split. }
  rewrite strip_none by (intros c Hc; apply (Hplain c Hc)).
  rewrite remove_underscores_none
    by (try exact I; intros c Hc; apply (Hplain c Hc)).
  unfold strtod.
  assert (Hsign : split_sign (chars ((if z <? 0 then "-" else EmptyString)
                                      ++ NilEmpty.string_of_uint d))
                  = (z <? 0, chars (NilEmpty.string_of_uint d))).
  { destruct (z <? 0); cbn [append list_ascii_of_string].
    - reflexivity.
    - rewrite E0.
      apply (digit_plain c0 Hc0). }
  rewrite Hsign, Hscan.
  destruct (Z.eqb_spec (0 + k + 0) 0) as [|_]; [lia|].
  cbn [scan_exponent]. unfold Z.of_uint in Hv. rewrite Hv. reflexivity.
Qed.

(** *** The float of a row of integers *)

Lemma digits_len_nonneg (d : Decimal.uint) : 0 <= digits_len d.
Proof. unfold digits_len. lia. Qed.

Lemma of_uint_acc_val (d : Decimal.uint) (p : positive) :
  Zpos (Pos.of_uint_acc d p) = Zpos p * 10 ^ digits_len d + Z.of_uint d.
Proof.
  unfold Z.of_uint, digits_len. revert p.
  induction d; intros p;
    cbn [Pos.of_uint_acc Pos.of_uint NilEmpty.string_of_uint
         list_ascii_of_string List.length];
    [cbn; lia | ..];
    (rewrite Nat2Z.inj_succ, Z.pow_succ_r by lia);
    rewrite ?N2Z.inj_pos, !IHd; lia.
Qed.

Lemma of_uint_digit (d : Decimal.uint) (c : ascii) (s : string) :
  NilEmpty.string_of_uint d = String c s ->
  exists d', s = NilEmpty.string_of_uint d' /\
             is_digit c = true /\
             Z.of_uint d = digit_val c * 10 ^ digits_len d' + Z.of_uint d' /\
             digits_len d = 1 + digits_len d'.
Proof.
  unfold digits_len.
  destruct d; cbn [NilEmpty.string_of_uint]; [discriminate | ..];
    intros [= <- <-]; exists d;
    (split; [reflexivity|]); (split; [reflexivity|]);
    (split; [|cbn [list_ascii_of_string List.length]; lia]);
    unfold Z.of_uint; cbn [Pos.of_uint];
    rewrite ?N2Z.inj_pos, ?of_uint_acc_val; unfold Z.of_uint, digits_len;
    change (digit_val "0") with 0; change (digit_val "1") with 1;
    change (digit_val "2") with 2; change (digit_val "3") with 3;
    change (digit_val "4") with 4; change (digit_val "5") with 5;
    change (digit_val "6") with 6; change (digit_val "7") with 7;
    change (digit_val "8") with 8; change (digit_val "9") with 9; lia.
Qed.

(** A run of digits is read up to the first character that is no digit. *)
Lemma scan_digits_run (d : Decimal.uint) (acc n : Z) (rest : list ascii) :
  (forall c r, rest = c :: r -> is_digit c = false) ->
  scan_digits acc n (chars (NilEmpty.string_of_uint d) ++ rest)%list
  = (acc * 10 ^ digits_len d + Z.of_uint d, n + digits_len d, rest).
Proof.
  intros Hrest.
  remember (NilEmpty.string_of_uint d) as s eqn:Es.
  revert d acc n Es. induction s as [|c s IH]; intros d acc n Es.
  - assert (d = Decimal.Nil) by (destruct d; cbn in Es; congruence). subst d.
    cbn [list_ascii_of_string app]. unfold digits_len, Z.of_uint. cbn.
    rewrite Z.mul_1_r, !Z.add_0_r.
    destruct rest as [|c r]; [reflexivity|].
    cbn [scan_digits]. now rewrite (Hrest c r eq_refl).
  - destruct (of_uint_digit d c s (eq_sym Es)) as (d' & -> & Hc & Hv & Hl).
    cbn [list_ascii_of_string app]. rewrite scan_digits_digit by assumption.
    rewrite (IH d' _ _ eq_refl), Hv, Hl.
    rewrite Z.pow_add_r by (pose proof (digits_len_nonneg d'); lia).
    f_equal. f_equal; lia.
Qed.

Lemma plain_char_facts (c : ascii) :
  plain_char c = true -> is_py_space c = false /\ is_underscore c = false.
Proof.
  destruct c as [b0 b1 b2 b3 b4 b5 b6 b7].
  destruct b0, b1, b2, b3, b4, b5, b6, b7; intros H;
    try discriminate H; split; reflexivity.
Qed.

Lemma plain_uint (d : Decimal.uint) :
  forallb plain_char (chars (NilEmpty.string_of_uint d)) = true.
Proof. induction d; cbn; auto. Qed.

Lemma plain_str_of_Z (z : Z) : forallb plain_char (chars (str_of_Z z)) = true.
Proof.
  unfold str_of_Z. destruct (to_int_digits z) as (d & _ & -> & _).
  rewrite chars_app, forallb_app, plain_uint.
  now destruct (z <? 0).
Qed.

Lemma plain_concat (l : list string) :
  (forall s, In s l -> forallb plain_char (chars s) = true) ->
  forallb plain_char (chars (String.concat "." l)) = true.
Proof.
  induction l as [|x l IH]; intros H; [reflexivity|].
  cbn [String.concat]. destruct l as [|y l].
  - apply H. now left.
  - rewrite !chars_app, !forallb_app, (H x (or_introl eq_refl)).
    rewrite IH by (intros s Hs; apply H; now right). reflexivity.
Qed.

Lemma plain_join (l : list Z) :
  forallb plain_char (chars (join "." (map py_str (map PInt l)))) = true.
Proof.
  apply plain_concat. intros s Hs.
  apply in_map_iff in Hs. destruct Hs as (v & <- & Hv).
  apply in_map_iff in Hv. destruct Hv as (z & <- & _).
  apply plain_str_of_Z.
Qed.

Lemma parse_float_plain (s : list ascii) :
  forallb plain_char s = true ->
  parse_float s = match strtod s with
                  | Some (x, []) => Ok x
                  | _ => Raise ValueError
                  end.
Proof.
  intros H. unfold parse_float.
  assert (Hc : forall c, In c s -> is_py_space c = false /\ is_underscore c = false).
  { intros c Hin. apply plain_char_facts.
    now apply (proj1 (forallb_forall plain_char s) H). }
  rewrite strip_none by (intros c Hin; apply (Hc c Hin)).
  now rewrite remove_underscores_none
    by (try exact I; intros c Hin; apply (Hc c Hin)).
Qed.

Lemma scan_digits_count (s : list ascii) (acc n : Z) :
  n <= snd (fst (scan_digits acc n s)).
Proof.
  revert acc n. induction s as [|c s IH]; intros acc n; cbn [scan_digits].
  - cbn. lia.
  - destruct (is_digit c); [|cbn; lia].
    specialize (IH (acc * 10 + digit_val c) (n + 1)). lia.
Qed.

Lemma digits_len_pos (d : Decimal.uint) : d <> Decimal.Nil -> 0 < digits_len d.
Proof.
  unfold digits_len. destruct d; [congruence | ..];
    intros _; cbn [NilEmpty.string_of_uint list_ascii_of_string List.length]; lia.
Qed.

(** [strtod] on the text of an integer followed by [rest], which starts with
    no digit: the integer part is read, then a fraction when [rest] starts
    with a point, then an exponent. *)
Lemma strtod_integer (a : Z) (rest : list ascii) :
  (forall c r, rest = c :: r -> is_digit c = false) ->
  strtod (chars (str_of_Z a) ++ rest)%list
  = (let '(mv, fnum, s3) :=
       match rest with
       | "."%char :: r => scan_digits (Z.abs a) 0 r
       | _ => (Z.abs a, 0, rest)
       end in
     let '(ev, s4) := scan_exponent s3 in
     Some (with_sign (a <? 0) (float_of_decimal mv (ev - fnum)), s4)).
Proof.
  intros Hrest. unfold str_of_Z.
  destruct (to_int_digits a) as (d & Hd & -> & Hv).
  pose proof (digits_len_pos d Hd) as Hlen.
  destruct (head_uint is_py_space d
              (fun c H => proj1 (digit_plain c H)) Hd)
    as (c0 & s0 & E0 & Hc0 & _ & _).
  assert (Hsign : split_sign (chars ((if a <? 0 then "-" else EmptyString)
                                     ++ NilEmpty.string_of_uint d) ++ rest)%list
                  = (a <? 0, (chars (NilEmpty.string_of_uint d) ++ rest)%list)).
  { rewrite chars_app. destruct (a <? 0); cbn [list_ascii_of_string app].
    - reflexivity.
    - rewrite E0. cbn [app]. apply (digit_plain c0 Hc0). }
  unfold strtod. rewrite Hsign, (scan_digits_run d 0 0 rest Hrest).
  rewrite Z.mul_0_l, !Z.add_0_l, Hv.
  assert (Hnz : forall fnum, 0 <= fnum -> (digits_len d + fnum =? 0) = false)
    by (intros fnum Hf; apply Z.eqb_neq; lia).
  destruct rest as [|c r]; [now rewrite Hnz by lia|].
  destruct (Ascii.eqb_spec c ".") as [-> | Hc].
  - pose proof (scan_digits_count r (Z.abs a) 0) as Hcount.
    destruct (scan_digits (Z.abs a) 0 r) as [[mv fnum] s3]. cbn [fst snd] in Hcount.
    now rewrite Hnz by lia.
  - destruct c as [b0 b1 b2 b3 b4 b5 b6 b7].
    destruct b0, b1, b2, b3, b4, b5, b6, b7;
      try (exfalso; apply Hc; reflexivity); now rewrite Hnz by lia.
Qed.

Lemma str_of_Z_nonneg (b : Z) :
  0 <= b ->
  exists d, str_of_Z b = NilEmpty.string_of_uint d /\ Z.of_uint d = b /\
            digits_len d = str_len b.
Proof.
  intros Hb. unfold str_len, str_of_Z, digits_len.
  destruct (to_int_digits b) as (d & _ & -> & Hv).
  destruct (Z.ltb_spec b 0); [lia|]. exists d. cbn [append].
  split; [reflexivity|]. split; [lia|]. now rewrite chars_length.
Qed.

Lemma str_of_Z_neg (b : Z) :
  b < 0 -> exists s, str_of_Z b = String "-" s.
Proof.
  intros Hb. unfold str_of_Z.
  destruct (to_int_digits b) as (d & _ & -> & _).
  destruct (Z.ltb_spec b 0); [|lia]. eexists. reflexivity.
Qed.

Lemma scan_digits_stop (c : ascii) (acc n : Z) (s : list ascii) :
  is_digit c = false -> scan_digits acc n (c :: s) = (acc, n, c :: s).
Proof. intros H. cbn [scan_digits]. now rewrite H. Qed.

Lemma scan_exponent_point (r : list ascii) :
  scan_exponent ("."%char :: r) = (0, "."%char :: r).
Proof. reflexivity. Qed.

Lemma scan_exponent_minus (r : list ascii) :
  scan_exponent ("-"%char :: r) = (0, "-"%char :: r).
Proof. reflexivity. Qed.

(** The scalar of a row of integers: one column gives the integer as a float,
    rounded; two columns [a] and [b >= 0] give the float nearest to the decimal
    number written [a.b], rounded; a negative second column and a third column
    make the text no number. *)
Lemma scalar_of_integer_rows :
  (forall a : Z,
      scalar_of_row [PInt a]
      = py_round (with_sign (a <? 0) (float_of_decimal (Z.abs a) 0))) /\
  (forall a b : Z,
      0 <= b ->
      scalar_of_row [PInt a; PInt b]
      = py_round (with_sign (a <? 0)
                    (float_of_decimal (Z.abs a * 10 ^ str_len b + b) (- str_len b)))) /\
  (forall (a b : Z) (l : list Z),
      b < 0 -> scalar_of_row (PInt a :: PInt b :: map PInt l) = Raise ValueError) /\
  (forall (a b c : Z) (l : list Z),
      scalar_of_row (PInt a :: PInt b :: PInt c :: map PInt l) = Raise ValueError).
Proof.
  assert (Hneg : forall (a b : Z) (l : list Z),
             b < 0 ->
             scalar_of_row (PInt a :: PInt b :: map PInt l) = Raise ValueError).
  { intros a b l Hb. unfold scalar_of_row.
    pose proof (plain_join (a :: b :: l)) as Hplain.
    cbn [py_float]. rewrite parse_float_plain by exact Hplain.
    unfold join. cbn [map String.concat py_str].
    destruct (str_of_Z_neg b Hb) as (s & ->).
    rewrite chars_app.
    assert (Hshape : exists r,
               chars ("." ++ match map py_str (map PInt l) with
                             | [] => String "-" s
                             | _ :: _ => String "-" s ++ "."
                                         ++ String.concat "." (map py_str (map PInt l))
                             end) = "."%char :: "-"%char :: r).
    { destruct (map py_str (map PInt l)); cbn [append list_ascii_of_string];
        eexists; reflexivity. }
    destruct Hshape as (r & ->).
    rewrite strtod_integer by (intros c r' [= <- _]; reflexivity).
    rewrite scan_digits_stop by reflexivity.
    cbv beta iota. rewrite scan_exponent_minus. reflexivity.
  }
  split; [|split; [|split; [exact Hneg|]]].
  - intros a. unfold scalar_of_row, join. cbn [map String.concat py_str].
    now rewrite py_float_str_of_Z.
  - intros a b Hb. unfold scalar_of_row.
    pose proof (plain_join [a; b]) as Hplain.
    cbn [py_float]. rewrite parse_float_plain by exact Hplain.
    unfold join. cbn [map String.concat py_str].
    destruct (str_of_Z_nonneg b Hb) as (d & -> & Hv & Hl).
    rewrite chars_app. cbn [append list_ascii_of_string].
    rewrite strtod_integer by (intros c r [= <- _]; reflexivity).
    pose proof (scan_digits_run d (Z.abs a) 0 [] ltac:(discriminate)) as Hscan.
    rewrite List.app_nil_r in Hscan. rewrite Hscan, Hv, Hl. cbn [scan_exponent rbind].
    now rewrite Z.add_0_l, Z.sub_0_l.
  - intros a b c l. destruct (Z.ltb_spec b 0) as [Hb|Hb];
    [exact (Hneg a b (c :: l) Hb)|].
    unfold scalar_of_row.
    pose proof (plain_join (a :: b :: c :: l)) as Hplain.
    cbn [py_float]. rewrite parse_float_plain by exact Hplain.
    unfold join. cbn [map String.concat py_str].
    destruct (str_of_Z_nonneg b Hb) as (d & -> & Hv & Hl).
    assert (Hshape : exists r,
               chars ("." ++ NilEmpty.string_of_uint d ++ "."
                      ++ match map py_str (map PInt l) with
                         | [] => str_of_Z c
                         | _ :: _ => str_of_Z c ++ "."
                                     ++ String.concat "." (map py_str (map PInt l))
                         end)
               = "."%char :: (chars (NilEmpty.string_of_uint d)
                              ++ "."%char :: r)%list).
    { cbn [append list_ascii_of_string]. rewrite chars_app.
      cbn [append list_ascii_of_string]. eexists. reflexivity. }
    destruct Hshape as (r & Hshape).
    rewrite chars_app, Hshape.
    rewrite strtod_integer by (intros c0 r' [= <- _]; reflexivity).
    rewrite scan_digits_run by (intros c0 r' [= <- _]; reflexivity).
    cbv beta iota. rewrite scan_exponent_point. reflexivity.
Qed.

(** *** Integers of at most 53 bits are floats *)

Lemma digits2_size (p : positive) : digits2_pos p = Pos.size p.
Proof. induction p; cbn; now rewrite ?IHp. Qed.

Lemma Zdigits2_le (m k : Z) : 0 <= k -> 0 <= m < 2 ^ k -> Zdigits2 m <= k.
Proof.
  intros Hk [Hm Hlt]. destruct m as [|p|p]; cbn [Zdigits2]; [lia | | lia].
  rewrite digits2_size.
  destruct (Z_le_gt_dec (Zpos (Pos.size p)) k) as [|Hgt]; [assumption|exfalso].
  pose proof (Pos.size_le p) as Hs.
  assert (H2 : 2 ^ (k + 1) <= 2 ^ Zpos (Pos.size p))
    by (apply Z.pow_le_mono_r; lia).
  rewrite Z.pow_add_r in H2 by lia.
  apply Pos2Z.pos_le_pos in Hs. rewrite Pos2Z.inj_pow in Hs.
  assert (0 < 2 ^ k) by (apply Z.pow_pos_nonneg; lia).
  lia.
Qed.

Lemma iter_xO (p : positive) (k : positive) :
  Zpos (Pos.iter xO p k) = Zpos p * 2 ^ Zpos k /\
  digits2_pos (Pos.iter xO p k) = (digits2_pos p + k)%positive.
Proof.
  revert p. induction k as [k IH|k IH|]; intros p; cbn [Pos.iter].
  - destruct (IH p) as [V1 D1]. destruct (IH (Pos.iter xO p k)) as [V2 D2].
    cbn [digits2_pos]. rewrite Pos2Z.inj_xO, V2, V1, D2, D1. split; [|lia].
    assert (E : Zpos k~1 = 1 + Zpos k + Zpos k) by lia.
    rewrite E, !Z.pow_add_r by lia. lia.
  - destruct (IH p) as [V1 D1]. destruct (IH (Pos.iter xO p k)) as [V2 D2].
    rewrite V2, V1, D2, D1. split; [|lia].
    assert (E : Zpos k~0 = Zpos k + Zpos k) by lia.
    rewrite E, !Z.pow_add_r by lia. lia.
  - cbn [digits2_pos]. split; lia.
Qed.

(** A mantissa of 53 bits with an exponent in range needs no rounding. *)
Lemma binary_round_aux_canonical (s : bool) (m : positive) (e : Z) :
  digits2_pos m = 53%positive -> -1074 <= e <= 971 ->
  binary_round_aux prec emax s (Zpos m) e loc_Exact = S754_finite s m e.
Proof.
  intros Hm He. unfold binary_round_aux, shr_fexp, shr. cbn [Zdigits2].
  rewrite Hm.
  assert (Hf : fexp prec emax (53 + e) - e = 0)
    by (unfold fexp, SpecFloat.emin, prec, emax; lia).
  rewrite Hf. cbn [shr_record_of_loc shr_m loc_of_shr_record round_nearest_even Zdigits2].
  rewrite Hm, Hf. cbn [shr_record_of_loc shr_m].
  destruct (Z.leb_spec e (emax - prec)); [reflexivity|].
  unfold emax, prec in *. lia.
Qed.

(** [float] of an integer of at most 53 bits is that integer. *)
Lemma binary_round_exact (s : bool) (p : positive) :
  Zpos p < 2 ^ 53 ->
  exists m e, binary_round prec emax s p 0 = S754_finite s m e /\
              e <= 0 /\ Zpos m = Zpos p * 2 ^ (- e).
Proof.
  intros Hp. unfold binary_round.
  assert (Hd : Zpos (digits2_pos p) <= 53).
  { apply (Zdigits2_le (Zpos p) 53); lia. }
  assert (Hf : fexp prec emax (Zpos (digits2_pos p) + 0)
               = Zpos (digits2_pos p) - 53)
    by (unfold fexp, SpecFloat.emin, prec, emax; lia).
  rewrite Hf. unfold shl_align.
  destruct (Zpos (digits2_pos p) - 53 - 0) as [|k|k] eqn:Ek; try lia.
  - exists p, 0. split; [|split; [lia | cbn; lia]].
    apply binary_round_aux_canonical; [|lia].
    apply Pos2Z.inj. lia.
  - destruct (iter_xO p k) as [V D].
    exists (Pos.iter xO p k), (Zpos (digits2_pos p) - 53).
    split; [|split; [lia|]].
    + apply binary_round_aux_canonical; [|lia].
      rewrite D. apply Pos2Z.inj. rewrite Pos2Z.inj_add. lia.
    + rewrite V. f_equal. f_equal. lia.
Qed.

(** *** Binary64 rounding never overflows below one *)

Lemma shr_1_m (mrs : shr_record) :
  0 <= shr_m mrs -> shr_m (shr_1 mrs) = shr_m mrs / 2.
Proof.
  destruct mrs as [m r s]. cbn [shr_m]. intros Hm.
  rewrite <- Z.div2_div.
  destruct m as [|[p|p|]|p]; cbn [shr_1 shr_m]; try reflexivity; lia.
Qed.

Lemma iter_shr_1_m (p : positive) (mrs : shr_record) :
  0 <= shr_m mrs ->
  shr_m (iter_pos shr_1 p mrs) = shr_m mrs / 2 ^ Zpos p.
Proof.
  revert mrs. induction p as [p IH|p IH|]; intros mrs Hm; cbn [iter_pos].
  - assert (H1 : 0 <= shr_m (shr_1 mrs))
      by (rewrite shr_1_m by assumption; apply Z.div_pos; lia).
    assert (H2 : 0 <= shr_m (iter_pos shr_1 p (shr_1 mrs)))
      by (rewrite IH by assumption; apply Z.div_pos; [lia|apply Z.pow_pos_nonneg; lia]).
    rewrite IH, IH, shr_1_m by assumption.
    assert (Hp : 0 < 2 ^ Zpos p) by (apply Z.pow_pos_nonneg; lia).
    rewrite !Z.div_div by lia.
    f_equal.
    assert (E : Zpos p~1 = 1 + Zpos p + Zpos p) by lia.
    rewrite E, !Z.pow_add_r by lia. lia.
  - assert (H2 : 0 <= shr_m (iter_pos shr_1 p mrs))
      by (rewrite IH by assumption; apply Z.div_pos; [lia|apply Z.pow_pos_nonneg; lia]).
    rewrite IH, IH by assumption.
    assert (Hp : 0 < 2 ^ Zpos p) by (apply Z.pow_pos_nonneg; lia).
    rewrite !Z.div_div by lia.
    f_equal.
    assert (E : Zpos p~0 = Zpos p + Zpos p) by lia.
    rewrite E, !Z.pow_add_r by lia. lia.
  - rewrite shr_1_m by assumption. reflexivity.
Qed.

Lemma shr_record_of_loc_m (m : Z) (l : location) : shr_m (shr_record_of_loc m l) = m.
Proof. destruct l as [|[]]; reflexivity. Qed.

(** After [shr_fexp] a mantissa that stood for at most one still does, and
    its exponent is not positive. *)
Lemma shr_fexp_below_one (m e : Z) (l : location) :
  e <= 0 -> 0 <= m <= 2 ^ (- e) ->
  let '(mrs, e') := shr_fexp prec emax m e l in
  e' <= 0 /\ 0 <= shr_m mrs <= 2 ^ (- e').
Proof.
  intros He [Hm Hle]. unfold shr_fexp, shr.
  assert (Hd : Zdigits2 m <= - e + 1).
  { apply Zdigits2_le; [lia|]. split; [assumption|].
    rewrite Z.pow_add_r by lia. assert (0 < 2 ^ (- e)) by (apply Z.pow_pos_nonneg; lia).
    lia. }
  assert (Hf : fexp prec emax (Zdigits2 m + e) <= 0)
    by (unfold fexp, SpecFloat.emin, prec, emax; lia).
  destruct (fexp prec emax (Zdigits2 m + e) - e) as [|n|n] eqn:En.
  - rewrite shr_record_of_loc_m. lia.
  - rewrite iter_shr_1_m by (rewrite shr_record_of_loc_m; assumption).
    rewrite shr_record_of_loc_m. split; [lia|].
    assert (Hp : 0 < 2 ^ Zpos n) by (apply Z.pow_pos_nonneg; lia).
    split; [apply Z.div_pos; lia|].
    apply Z.div_le_upper_bound; [lia|].
    rewrite <- Z.pow_add_r by lia.
    replace (Z.pos n + - (e + Z.pos n)) with (- e) by lia. assumption.
  - rewrite shr_record_of_loc_m. lia.
Qed.

Lemma round_nearest_even_le (m : Z) (l : location) :
  0 <= m -> 0 <= round_nearest_even m l <= m + 1.
Proof.
  intros Hm. destruct l as [|[]]; cbn [round_nearest_even];
    try destruct (Z.even m); lia.
Qed.

(** [binary_round_aux] on a mantissa that stands for at most one gives no
    infinity. *)
Lemma binary_round_aux_below_one (sx : bool) (m e : Z) (l : location) :
  e <= 0 -> 0 <= m <= 2 ^ (- e) ->
  forall s, binary_round_aux prec emax sx m e l <> S754_infinity s.
Proof.
  intros He Hm s. unfold binary_round_aux.
  pose proof (shr_fexp_below_one m e l He Hm) as H1.
  destruct (shr_fexp prec emax m e l) as [mrs1 e1]. destruct H1 as [He1 Hm1].
  pose proof (round_nearest_even_le (shr_m mrs1) (loc_of_shr_record mrs1)
                ltac:(lia)) as Hr.
  set (m2 := round_nearest_even (shr_m mrs1) (loc_of_shr_record mrs1)) in *.
  unfold shr_fexp, shr.
  assert (Hp : 0 < 2 ^ (- e1)) by (apply Z.pow_pos_nonneg; lia).
  assert (Hd : Zdigits2 m2 <= - e1 + 2).
  { apply Zdigits2_le; [lia|]. split; [lia|].
    replace (- e1 + 2) with (- e1 + 1 + 1) by lia.
    rewrite !Z.pow_add_r by lia. lia. }
  assert (Hf : fexp prec emax (Zdigits2 m2 + e1) <= 0)
    by (unfold fexp, SpecFloat.emin, prec, emax; lia).
  destruct (fexp prec emax (Zdigits2 m2 + e1) - e1) as [|n|n] eqn:En.
  - destruct (shr_m (shr_record_of_loc m2 loc_Exact)); try discriminate.
    destruct (Z.leb_spec e1 (emax - prec)); [discriminate|].
    unfold emax, prec in *. lia.
  - destruct (shr_m (iter_pos shr_1 n (shr_record_of_loc m2 loc_Exact)));
      try discriminate.
    destruct (Z.leb_spec (e1 + Zpos n) (emax - prec)); [discriminate|].
    unfold emax, prec in *. lia.
  - destruct (shr_m (shr_record_of_loc m2 loc_Exact)); try discriminate.
    destruct (Z.leb_spec e1 (emax - prec)); [discriminate|].
    unfold emax, prec in *. lia.
Qed.

(** The quotient of two counts, the first no larger than the second, is a
    float: the division neither divides by zero nor overflows. *)
Lemma py_truediv_fraction (a b : Z) :
  0 < b -> 0 <= a <= b -> exists q, py_truediv a b = Ok q.
Proof.
  intros Hb [Ha Hab]. unfold py_truediv.
  destruct b as [|pb|pb]; try lia.
  destruct a as [|pa|pa]; try lia; [eexists; reflexivity|].
  cbn [Z.abs Z.to_pos Z.ltb Z.compare SFdiv xorb].
  unfold SFdiv_core_binary.
  set (e' := Z.min (fexp prec emax (Zdigits2 (Zpos pa) + 0 - (Zdigits2 (Zpos pb) + 0))) (0 - 0)).
  assert (He' : e' <= 0) by (subst e'; lia).
  set (m' := match 0 - 0 - e' with
             | Zpos _ => Z.shiftl (Zpos pa) (0 - 0 - e')
             | Z0 => Zpos pa
             | Zneg _ => 0
             end).
  assert (Hm' : m' = Zpos pa * 2 ^ (- e')).
  { subst m'. replace (0 - 0 - e') with (- e') by lia.
    destruct (- e') as [|n|n] eqn:En; [cbn; lia | | lia].
    now rewrite Z.shiftl_mul_pow2 by lia. }
  pose proof (Z_div_mod m' (Zpos pb) ltac:(lia)) as Hdiv.
  destruct (Z.div_eucl m' (Zpos pb)) as [q r]. destruct Hdiv as [Hq Hr].
  assert (Hp : 0 < 2 ^ (- e')) by (apply Z.pow_pos_nonneg; lia).
  assert (Hq' : 0 <= q <= 2 ^ (- e')) by nia.
  pose proof (binary_round_aux_below_one false q e' (new_location (Zpos pb) r) He' Hq') as Hno.
  destruct (binary_round_aux prec emax false q e' (new_location (Z.pos pb) r)) eqn:E;
    try (eexists; reflexivity).
  exfalso. eapply Hno. reflexivity.
Qed.

(** *** Rounding to an integer *)

Lemma round_half_even_near (m d : Z) :
  0 < d -> 2 * Z.abs (round_half_even m d * d - m) <= d.
Proof.
  intros Hd. unfold round_half_even.
  pose proof (Z.div_mod m d ltac:(lia)) as Hdm.
  pose proof (Z.mod_pos_bound m d Hd) as Hr.
  destruct (Z.compare_spec (2 * (m mod d)) d) as [E|L|G];
    [destruct (Z.even (m / d))| |]; nia.
Qed.

Lemma round_half_even_exact (n d : Z) : 0 < d -> round_half_even (n * d) d = n.
Proof.
  intros Hd. unfold round_half_even.
  rewrite Z.div_mul, Z.mod_mul by lia.
  destruct (Z.compare_spec (2 * 0) d); lia.
Qed.

(** [round] returns an integer nearest to its argument. *)
Lemma py_round_nearest (x : spec_float) (n : Z) :
  py_round x = Ok n -> nearest_integer x n.
Proof.
  destruct x as [s | s | | s m e]; cbn [py_round nearest_integer];
    try discriminate; intros [= <-]; [reflexivity|].
  destruct (0 <=? e) eqn:He; [reflexivity|].
  apply Z.leb_gt in He.
  assert (Hd : 0 < 2 ^ (- e)) by (apply Z.pow_pos_nonneg; lia).
  pose proof (round_half_even_near (Zpos m) (2 ^ (- e)) Hd) as H.
  destruct s; cbn [cond_opp]; lia.
Qed.

(** The scalar of a one-column row holding an integer of at most 53 bits is
    that integer. *)
Lemma scalar_of_single_int (n : Z) :
  Z.abs n <= 2 ^ 53 -> scalar_of_row [PInt n] = Ok n.
Proof.
  intros Hn. unfold scalar_of_row, join. cbn [map String.concat py_str].
  rewrite py_float_str_of_Z.
  destruct (Z.eq_dec (Z.abs n) (2 ^ 53)) as [E|E].
  - assert (Hcases : n = 2 ^ 53 \/ n = - 2 ^ 53) by lia.
    destruct Hcases as [-> | ->]; vm_compute; reflexivity.
  - destruct n as [|p|p]; [reflexivity | |].
    + cbn [Z.abs Z.ltb Z.compare with_sign float_of_decimal Z.leb].
      rewrite Z.pow_0_r, Z.mul_1_r. cbn [binary_normalize].
      destruct (binary_round_exact false p ltac:(cbn [Z.abs] in *; lia))
        as (m & e & -> & He & Hm).
      cbn [rbind py_round cond_opp].
      destruct (Z.leb_spec 0 e).
      * assert (e = 0) by lia. subst e. f_equal. cbn in Hm. lia.
      * rewrite Hm, round_half_even_exact; [reflexivity|].
        apply Z.pow_pos_nonneg; lia.
    + cbn [Z.abs Z.ltb Z.compare with_sign float_of_decimal Z.leb].
      rewrite Z.pow_0_r, Z.mul_1_r. cbn [binary_normalize].
      destruct (binary_round_exact false p ltac:(cbn [Z.abs] in *; lia))
        as (m & e & -> & He & Hm).
      cbn [SFopp negb rbind py_round cond_opp].
      destruct (Z.leb_spec 0 e).
      * assert (e = 0) by lia. subst e. f_equal. cbn in Hm. lia.
      * rewrite Hm, round_half_even_exact; [reflexivity|].
        apply Z.pow_pos_nonneg; lia.
Qed.

(** *** The scalar of a row (C1) *)

Ltac flatten_two H1 H2 :=
  run_keyword; rewrite H1; cbn [world trace]; rewrite H2;
  unfold scalars_verdict, scalar_of_first_row, first_row; cbn [rbind];
  repeat match goal with
    | |- context [scalar_of_row ?r] =>
        let E := fresh "E" in destruct (scalar_of_row r) eqn:E; cbn [rbind fst]
    end;
  try reflexivity;
  match goal with
  | |- context [?a =? ?b] => destruct (a =? b); cbn [negb fst]
  end;
  [reflexivity | eexists; reflexivity].

(** C1: the scalar that the derived-scalar keywords make of a row is
    [round(float('.'.join(str(elem) for elem in row)))]: when [float] reads the
    joined text as [x], the scalar is [round(x)], an integer nearest to [x], and
    when [float] raises, so does the flattening.  The row (3, 14) is joined to
    the text 3.14 and yields 3, not 17; the row (5,) yields 5.  On rows of
    integers: a row (n,) of one integer of at most 53 bits yields n; a row
    (a, b) with [b >= 0] yields the rounding of the float nearest to the
    decimal number written a.b; a negative second column, or a third column,
    makes [float] raise a [ValueError].  Each of
    [row_unique_check], [row_unique_check_argument], [row_unique_check2] and
    the five [dimensional_integrity_check_*] keywords passes when the scalars
    of the first rows of its two results are equal, raises an [AssertionError]
    when they differ, and raises the flattening error otherwise;
    [value_variance_check] raises the flattening error of its result. *)
Theorem scalar_flatten_law :
  (forall (r : row) (x : spec_float),
      py_float (PStr (String.concat "." (map py_str r))) = Ok x ->
      scalar_of_row r = py_round x /\
      forall n, scalar_of_row r = Ok n -> nearest_integer x n) /\
  (forall (r : row) (e : exn),
      py_float (PStr (String.concat "." (map py_str r))) = Raise e ->
      scalar_of_row r = Raise e) /\
  (String.concat "." (map py_str [PInt 3; PInt 14]) = "3.14" /\
   scalar_of_row [PInt 3; PInt 14] = Ok 3 /\
   scalar_of_row [PInt 3; PInt 14] <> Ok 17 /\
   scalar_of_row [PInt 5] = Ok 5) /\
  ((forall n : Z, Z.abs n <= 2 ^ 53 -> scalar_of_row [PInt n] = Ok n) /\
   (forall a b : Z,
       0 <= b ->
       scalar_of_row [PInt a; PInt b]
       = py_round (with_sign (a <? 0)
                     (float_of_decimal (Z.abs a * 10 ^ str_len b + b)
                        (- str_len b)))) /\
   (forall (a b : Z) (l : list Z),
       b < 0 -> scalar_of_row (PInt a :: PInt b :: map PInt l) = Raise ValueError) /\
   (forall (a b c : Z) (l : list Z),
       scalar_of_row (PInt a :: PInt b :: PInt c :: map PInt l)
       = Raise ValueError)) /\
  (forall (W : Type) (self : Collaborators W) (s t k a ft fk : string)
          (st : state W),
      flattens_first_rows (row_unique_check self s t k)
        (count_unique_rows_table self s t k) (count_object_rows_table self s t) st /\
      flattens_first_rows (row_unique_check_argument self s t k a)
        (count_unique_rows_table self s t k)
        (count_object_rows_table_argument self s t a) st /\
      flattens_first_rows (dimensional_integrity_check_found self s t k ft fk)
        (count_found_rows_table self s t k ft fk)
        (count_unique_rows_table self s t k) st /\
      flattens_first_rows
        (dimensional_integrity_check_found_joinArgument self s t k ft fk a)
        (count_found_rows_table_argument self s t k ft fk a)
        (count_unique_rows_table self s t k) st /\
      flattens_first_rows
        (dimensional_integrity_check_found_argument self s t k a ft fk)
        (count_found_rows_table self s t k ft fk)
        (count_unique_rows_table_argument self s t k a) st /\
      flattens_first_rows
        (dimensional_integrity_check_found_withClause_argument self s t k a ft fk)
        (count_found_rows_table_withClause self s t k ft fk)
        (count_unique_rows_table_argument self s t k a) st /\
      flattens_first_rows (dimensional_integrity_check_potential self s t k fk)
        (count_unique_rows_table self s t fk)
        (count_unique_rows_table self s t k) st) /\
  (forall (W : Type) (self : Collaborators W) (f1 f2 q1 q2 : string)
          (st : state W) (w1 w2 w3 : W),
      open_sql self f1 (world st) = (Ok q1, w1) ->
      open_sql self f2 w1 = (Ok q2, w2) ->
      dbconnection_cursor self w2 = (Ok tt, w3) ->
      flattens_first_rows (row_unique_check2 self f1 f2)
        (fun _ => query self q1 None w3) (query self q2 None) st) /\
  (forall (W : Type) (self : Collaborators W) (s t k : string) (field : pyval)
          (st : state W) (r : row) (l : list row) (w1 : W) (e : exn),
      count_unique_rows_table self s t k (world st) = (Ok (r :: l), w1) ->
      scalar_of_row r = Raise e ->
      outcome (value_variance_check self s t k field) st = Raise e).
Proof.
  split; [|split; [|split; [|split; [|split; [|split]]]]].
  - intros r x Hx. unfold scalar_of_row, join. rewrite Hx. cbn [rbind].
    split; [reflexivity | apply py_round_nearest].
  - intros r e He. unfold scalar_of_row, join. now rewrite He.
  - split; [reflexivity|]. split; [vm_compute; reflexivity|].
    split; [vm_compute; discriminate | vm_compute; reflexivity].
  - split; [exact scalar_of_single_int | exact (proj2 scalar_of_integer_rows)].
  - intros W self s t k a ft fk st. unfold flattens_first_rows.
    repeat split; intros r1 r2 l1 l2 w1 w2 H1 H2.
    + unfold row_unique_check. flatten_two H1 H2.
    + unfold row_unique_check_argument. flatten_two H1 H2.
    + unfold dimensional_integrity_check_found, compare_found_unique.
      flatten_two H1 H2.
    + unfold dimensional_integrity_check_found_joinArgument, compare_found_unique.
      flatten_two H1 H2.
    + unfold dimensional_integrity_check_found_argument, compare_found_unique.
      flatten_two H1 H2.
    + unfold dimensional_integrity_check_found_withClause_argument,
        compare_found_unique.
      flatten_two H1 H2.
    + unfold dimensional_integrity_check_potential, compare_found_unique.
      flatten_two H1 H2.
  - intros W self f1 f2 q1 q2 st w1 w2 w3 Ho1 Ho2 Hc r1 r2 l1 l2 w4 w5 H1 H2.
    unfold row_unique_check2. run_keyword.
    rewrite Ho1; cbn [world trace]; rewrite Ho2; cbn [world trace]; rewrite Hc;
      cbn [world trace].
    flatten_two H1 H2.
  - intros W self s t k field st r l w1 e Hrows He.
    unfold value_variance_check. run_keyword. rewrite Hrows.
    unfold scalar_of_first_row, first_row. cbn [rbind]. now rewrite He.
Qed.

(** C1, on the double: the unique key and the object rows both count ten, and
    [row_unique_check] passes. *)
Lemma scalar_flatten_witness :
  py_float (PStr (String.concat "." (map py_str [PInt 3; PInt 14])))
  = Ok (S754_finite false 7070651414971679 (-51))
  /\ scalar_of_row [PInt 3; PInt 14] = py_round (S754_finite false 7070651414971679 (-51))
  /\ scalars_verdict [PInt 10] [PInt 10]
       (outcome (row_unique_check Double.collaborators "hr" "person" "id")
          Double.start).
Proof.
  split; [vm_compute; reflexivity|]. split.
  - apply (proj1 scalar_flatten_law [PInt 3; PInt 14]
             (S754_finite false 7070651414971679 (-51))).
    vm_compute; reflexivity.
  - apply (proj1 (proj1 (proj2 (proj2 (proj2 (proj2 scalar_flatten_law))))
             _ Double.collaborators "hr" "person" "id" "x" "y" "z" Double.start)
             [PInt 10] [PInt 10] [] [] Double.person_db Double.person_db);
      reflexivity.
Defined.

(** Ties go to the even integer; a row of three columns, a row holding [None]
    and an empty result raise; beyond 53 bits the float is not the integer. *)
Example scalar_examples :
  scalar_of_row [PInt 2; PInt 5] = Ok 2 /\
  scalar_of_row [PInt 3; PInt 5] = Ok 4 /\
  scalar_of_row [PInt 10; PInt 10] = Ok 10 /\
  scalar_of_row [PInt (-3); PInt 14] = Ok (-3) /\
  scalar_of_row [PInt 3; PInt (-14)] = Raise ValueError /\
  scalar_of_row [PInt 1; PInt 2; PInt 3] = Raise ValueError /\
  scalar_of_row [PNone] = Raise ValueError /\
  scalar_of_row [] = Raise ValueError /\
  scalar_of_row [PStr "1e3"] = Ok 1000 /\
  scalar_of_row [PStr "inf"] = Raise OverflowError /\
  scalar_of_first_row [] = Raise IndexError /\
  scalar_of_row [PInt (2 ^ 53 + 1)] = Ok (2 ^ 53).
Proof. repeat split; vm_compute; reflexivity. Qed.

(** *** Row-count comparisons (C2) *)



(** *** Existence checks (C3) *)

(** C3: when the query of an existence check returns at least one row,
    [check_if_exists_in_database] passes and [check_if_not_exists_in_database]
    raises an [AssertionError]; when it returns no row, the reverse; and the
    message of the [AssertionError] contains the text of the query. *)
Theorem existence_checks_follow_the_rows :
  forall (W : Type) (self : Collaborators W) (q : string) (sansTran : bool)
         (st : state W) (rows : list row) (w' : W),
    query self q (Some sansTran) (world st) = (Ok rows, w') ->
    (rows <> [] ->
     passes (check_if_exists_in_database self q sansTran) st /\
     exists msg,
       fails_with (check_if_not_exists_in_database self q sansTran) st msg /\
       contains q msg) /\
    (rows = [] ->
     (exists msg,
        fails_with (check_if_exists_in_database self q sansTran) st msg /\
        contains q msg) /\
     passes (check_if_not_exists_in_database self q sansTran) st).
Proof.
  intros W self q sansTran st rows w' Hq.
  unfold check_if_exists_in_database, check_if_not_exists_in_database.
  run_keyword. rewrite Hq.
  split; intros Hrows.
  - destruct rows as [|r rows]; [congruence|]. split; [reflexivity|].
    eexists. split; [reflexivity|]. auto with contains.
  - subst rows. split; [|reflexivity].
    eexists. split; [reflexivity|]. auto with contains.
Qed.

(** C3, on the table [person]: the query for Franz Allan has a row, the one
    for John has none. *)
Lemma existence_checks_witness :
  query Double.collaborators Double.franz (Some false) (world Double.start)
  = (Ok [[PInt 1]], Double.person_db)
  /\ passes (check_if_exists_in_database Double.collaborators Double.franz false)
            Double.start
  /\ fails_with (check_if_exists_in_database Double.collaborators Double.john false)
       Double.start
       "Expected to have have at least one row from 'SELECT id FROM person WHERE first_name = 'John'' but got 0 rows.".
Proof.
  split; [reflexivity|]. split.
  - apply (existence_checks_follow_the_rows _ Double.collaborators Double.franz
             false Double.start [[PInt 1]] Double.person_db eq_refl).
    discriminate.
  - reflexivity.
Defined.

(** *** The dispatch of [table_must_exist] (C4) *)

Lemma table_exists_sql_cases (d t : string) :
  table_exists_sql d t = table_exists_sql "cx_Oracle" t \/
  table_exists_sql d t = table_exists_sql "sqlite3" t \/
  table_exists_sql d t = table_exists_sql "ibm_db" t \/
  table_exists_sql d t = ansi_table_sql t.
Proof.
  unfold table_exists_sql, ansi_table_sql.
  destruct (String.eqb d "cx_Oracle"); [now left|].
  destruct (String.eqb d "sqlite3"); [now right; left|].
  destruct (String.eqb d "ibm_db" || String.eqb d "ibm_db_dbi");
    [now right; right; left | now right; right; right].
Qed.

Lemma table_exists_sql_other (d t : string) :
  ~ known_driver d -> table_exists_sql d t = ansi_table_sql t.
Proof.
  unfold known_driver, table_exists_sql, ansi_table_sql. intros H.
  destruct (String.eqb_spec d "cx_Oracle"); [tauto|].
  destruct (String.eqb_spec d "sqlite3"); [tauto|].
  destruct (String.eqb_spec d "ibm_db"); [tauto|].
  destruct (String.eqb_spec d "ibm_db_dbi"); [tauto|]. reflexivity.
Qed.

(** C4 as stated fails: the two IBM driver names share one statement, and no
    four driver names get four different dialect-specific statements. *)
Lemma no_four_dialect_queries :
  table_exists_sql "ibm_db" "person" = table_exists_sql "ibm_db_dbi" "person" /\
  ~ four_dialect_queries.
Proof.
  split; [reflexivity|].
  intros (d1 & d2 & d3 & d4 & t & (S1 & S2 & S3 & S4) & N12 & N13 & N14 & N23 & N24 & N34).
  unfold dialect_specific in *.
  destruct (table_exists_sql_cases d1 t) as [E1|[E1|[E1|E1]]]; [| | |congruence];
  destruct (table_exists_sql_cases d2 t) as [E2|[E2|[E2|E2]]]; try congruence;
  destruct (table_exists_sql_cases d3 t) as [E3|[E3|[E3|E3]]]; try congruence;
  destruct (table_exists_sql_cases d4 t) as [E4|[E4|[E4|E4]]]; congruence.
Qed.

(** C4, as the code has it: [table_must_exist] counts the rows of the
    statement that [table_exists_sql] builds from the stored driver name and
    the table name.  Four driver names are recognised and select one of three
    dialect-specific statements: [cx_Oracle] the one on [all_objects],
    [sqlite3] the one on [sqlite_master] with [COLLATE NOCASE], [ibm_db] and
    [ibm_db_dbi] the same one on [SYSIBM.SYSTABLES]; every other name selects
    the generic one on [information_schema.tables] with the exact match
    [table_name='<name>'].  The four statements differ from one another. *)
Theorem table_exists_dispatch :
  forall (d t : string),
    table_exists_sql "cx_Oracle" t
    = "SELECT * FROM all_objects WHERE object_type IN ('TABLE','VIEW') AND owner = SYS_CONTEXT('USERENV', 'SESSION_USER') AND object_name = UPPER('" ++ t ++ "')" /\
    table_exists_sql "sqlite3" t
    = "SELECT name FROM sqlite_master WHERE type='table' AND name='" ++ t ++ "' COLLATE NOCASE" /\
    table_exists_sql "ibm_db" t
    = "SELECT name FROM SYSIBM.SYSTABLES WHERE type='T' AND name=UPPER('" ++ t ++ "')" /\
    table_exists_sql "ibm_db_dbi" t = table_exists_sql "ibm_db" t /\
    (~ known_driver d ->
     table_exists_sql d t
     = "SELECT * FROM information_schema.tables WHERE table_name='" ++ t ++ "'") /\
    (dialect_specific "cx_Oracle" t /\ dialect_specific "sqlite3" t /\
     dialect_specific "ibm_db" t /\
     table_exists_sql "cx_Oracle" t <> table_exists_sql "sqlite3" t /\
     table_exists_sql "cx_Oracle" t <> table_exists_sql "ibm_db" t /\
     table_exists_sql "sqlite3" t <> table_exists_sql "ibm_db" t) /\
    (forall (W : Type) (self : Collaborators W) (sansTran : bool) (st : state W),
        db_api_module_name self (world st) = d ->
        exists l,
          emitted (table_must_exist self t sansTran) st
            [LogInfo l; Call "row_count" [AStr (table_exists_sql d t); ABool sansTran]]).
Proof.
  intros d t.
  split; [reflexivity|]. split; [reflexivity|]. split; [reflexivity|].
  split; [reflexivity|]. split; [apply table_exists_sql_other|]. split.
  - unfold dialect_specific, ansi_table_sql. cbn. repeat split; discriminate.
  - intros W self sansTran st <-. unfold table_must_exist, emitted. run_keyword.
    destruct (row_count self _ (Some sansTran) (world st)) as [[n|e] w];
      [destruct (n =? 0)|]; eexists; cbn [snd trace]; rewrite <- !app_assoc;
      reflexivity.
Qed.

(** C4, on the double, whose driver is [sqlite3]. *)
Lemma table_exists_dispatch_witness :
  ~ known_driver "psycopg2"
  /\ table_exists_sql "psycopg2" "person"
     = "SELECT * FROM information_schema.tables WHERE table_name='person'"
  /\ db_api_module_name Double.collaborators (world Double.start) = "sqlite3"
  /\ emitted (table_must_exist Double.collaborators "person" false) Double.start
       [LogInfo "Executing : Table Must Exist  |  person ";
        Call "row_count"
          [AStr "SELECT name FROM sqlite_master WHERE type='table' AND name='person' COLLATE NOCASE";
           ABool false]].
Proof.
  assert (H : ~ known_driver "psycopg2")
    by (intros [H|[H|[H|H]]]; discriminate).
  split; [exact H|]. split.
  - exact (proj1 (proj2 (proj2 (proj2 (proj2
             (table_exists_dispatch "psycopg2" "person"))))) H).
  - split; reflexivity.
Defined.

(** *** The percentage of empty values (C5, C6) *)

(** C5: for a table of [total > 0] rows of which [nulls] have no value in the
    column, the division gives a float [quotient], and
    [count_empty_column_value_percentage] raises an [AssertionError] iff
    [quotient * 100] is greater than [float(percentage)], and passes iff it is
    not.  With ten rows of which three have no value the product is 30.0,
    which is greater than 20.0 and not greater than 40.0: the keyword fails
    against 20.0 and passes against 40.0. *)
Theorem empty_percentage_threshold :
  (forall (W : Type) (self : Collaborators W) (s t c : string)
          (percentage : pyval) (st : state W) (total nulls : Z) (w1 w2 : W)
          (threshold : spec_float),
      row_count self (query_total s t) None (world st) = (Ok total, w1) ->
      row_count self (query_column s t c) None w1 = (Ok nulls, w2) ->
      0 < total ->
      0 <= nulls <= total ->
      py_float percentage = Ok threshold ->
      let kw := count_empty_column_value_percentage self s t c percentage in
      exists quotient,
        py_truediv nulls total = Ok quotient /\
        let computed := py_fmul quotient (float_of_Z 100) in
        ((exists msg, fails_with kw st msg) <-> py_fgt computed threshold = true) /\
        (passes kw st <-> py_fgt computed threshold = false)) /\
  (rbind (py_truediv 3 10) (fun q => Ok (py_fmul q (float_of_Z 100)))
   = Ok (float_of_Z 30) /\
   float_repr (float_of_Z 30) = "30.0" /\
   py_float (PStr "20.0") = Ok (float_of_Z 20) /\
   py_fgt (float_of_Z 30) (float_of_Z 20) = true /\
   py_float (PStr "40.0") = Ok (float_of_Z 40) /\
   py_fgt (float_of_Z 30) (float_of_Z 40) = false /\
   fails_with (count_empty_column_value_percentage Double.collaborators
                 "hr" "person" "last_name" (PStr "20.0")) Double.start
     "Percentage of EMPTY columns is '30.0' is higher than allow percentage '20.0'" /\
   passes (count_empty_column_value_percentage Double.collaborators
             "hr" "person" "last_name" (PStr "40.0")) Double.start).
Proof.
  split.
  - intros W self s t c percentage st total nulls w1 w2 threshold
      H1 H2 Htotal Hnulls Hthreshold kw.
    destruct (py_truediv_fraction nulls total Htotal Hnulls) as [quotient Hq].
    exists quotient. split; [assumption|].
    subst kw. unfold count_empty_column_value_percentage, passes, fails_with.
    run_keyword. rewrite H1. cbn [world trace]. rewrite H2, Hq, Hthreshold.
    destruct (py_fgt (py_fmul quotient (float_of_Z 100)) threshold); cbn [fst].
    + split; split; intros H; try discriminate; try reflexivity.
      eexists; reflexivity.
    + split; split; intros H; try discriminate; try reflexivity.
      destruct H as [msg Hmsg]. discriminate.
  - repeat split; vm_compute; reflexivity.
Qed.

(** C5, on the ten rows of [hr.person] in the double, three of them without a
    last name: the check against 20.0 does not pass. *)
Lemma empty_percentage_witness :
  row_count Double.collaborators (query_total "hr" "person") None
    (world Double.start) = (Ok 10, Double.person_db)
  /\ row_count Double.collaborators (query_column "hr" "person" "last_name") None
       Double.person_db = (Ok 3, Double.person_db)
  /\ 0 < 10 /\ 0 <= 3 <= 10
  /\ py_float (PStr "20.0") = Ok (float_of_Z 20)
  /\ (exists quotient,
        py_truediv 3 10 = Ok quotient /\
        (passes (count_empty_column_value_percentage Double.collaborators
                   "hr" "person" "last_name" (PStr "20.0")) Double.start
         <-> py_fgt (py_fmul quotient (float_of_Z 100)) (float_of_Z 20) = false)).
Proof.
  assert (H20 : py_float (PStr "20.0") = Ok (float_of_Z 20))
    by (vm_compute; reflexivity).
  split; [reflexivity|]. split; [reflexivity|]. split; [lia|]. split; [lia|].
  split; [exact H20|].
  destruct (proj1 empty_percentage_threshold _ Double.collaborators
              "hr" "person" "last_name" (PStr "20.0") Double.start 10 3
              Double.person_db Double.person_db (float_of_Z 20)
              eq_refl eq_refl ltac:(lia) ltac:(lia) H20)
    as (quotient & Hq & _ & Hpass).
  exists quotient. split; [exact Hq | exact Hpass].
Defined.

(** The product is a float: seven rows in a hundred make
    7.000000000000001 per cent, which is greater than 7. *)
Example seven_in_a_hundred :
  rbind (py_truediv 7 100) (fun q => Ok (float_repr (py_fmul q (float_of_Z 100))))
  = Ok "7.000000000000001" /\
  rbind (py_truediv 7 100)
        (fun q => Ok (py_fgt (py_fmul q (float_of_Z 100)) (float_of_Z 7)))
  = Ok true.
Proof. split; vm_compute; reflexivity. Qed.

(** C6: when the table is empty (the first [row_count] returns 0 and the
    second returns), [count_empty_column_value_percentage] raises the
    [ZeroDivisionError] of the division, whatever the threshold argument, and
    calls nothing after the two counts. *)
Theorem empty_table_division_error :
  forall (W : Type) (self : Collaborators W) (s t c : string)
         (percentage : pyval) (st : state W) (nulls : Z) (w1 w2 : W),
    row_count self (query_total s t) None (world st) = (Ok 0, w1) ->
    row_count self (query_column s t c) None w1 = (Ok nulls, w2) ->
    let kw := count_empty_column_value_percentage self s t c percentage in
    outcome kw st = Raise ZeroDivisionError /\
    world (final kw st) = w2 /\
    emitted kw st [Call "row_count" [AStr (query_total s t)];
                   Call "row_count" [AStr (query_column s t c)]].
Proof.
  intros W self s t c percentage st nulls w1 w2 H1 H2 kw. subst kw.
  unfold count_empty_column_value_percentage, emitted. run_keyword.
  rewrite H1. cbn [world trace]. rewrite H2. cbn [py_truediv].
  repeat split. cbn [snd trace]. now rewrite <- !app_assoc.
Qed.

(** C6, on the empty table of the double. *)
Lemma empty_table_division_witness :
  row_count Double.collaborators (query_total "hr" "empty") None
    (world Double.start) = (Ok 0, Double.person_db)
  /\ row_count Double.collaborators (query_column "hr" "empty" "last_name") None
       Double.person_db = (Ok 0, Double.person_db)
  /\ outcome (count_empty_column_value_percentage Double.collaborators
                "hr" "empty" "last_name" (PStr "20.0")) Double.start
     = Raise ZeroDivisionError.
Proof.
  split; [reflexivity|]. split; [reflexivity|].
  apply (empty_table_division_error _ Double.collaborators "hr" "empty"
           "last_name" (PStr "20.0") Double.start 0 Double.person_db
           Double.person_db eq_refl eq_refl).
Defined.

(** *** The coercion of the count argument (C7) *)

(** C7, as the code has it: the coercion step of the row-count comparisons,
    [int(numRows.encode('ascii'))], turns the decimal text of every integer of
    at most [max_str_digits] digits into that integer, and raises a
    [ValueError] for the text of a longer one.  When the step raises for an
    argument that the log line could print, in each of the three comparisons
    that very error reaches the caller (the row count having been fetched),
    and it is an [AttributeError], a [UnicodeEncodeError] or a [ValueError],
    never an [AssertionError].  The one argument that the log line cannot
    print is an [int] of more than [max_str_digits] digits: its [ValueError]
    reaches the caller before anything is logged or called. *)
Theorem count_coercion :
  (forall z : Z,
      (decimal_digits z <= max_str_digits ->
       coerce_count (PStr (str_of_Z z)) = Ok z) /\
      (max_str_digits < decimal_digits z ->
       coerce_count (PStr (str_of_Z z)) = Raise ValueError)) /\
  (forall (W : Type) (self : Collaborators W) (q : string) (numRows : pyval)
          (sansTran : bool) (st : state W) (actual : Z) (w' : W) (e : exn)
          (shown : string),
      py_format numRows = Ok shown ->
      row_count self q (Some sansTran) (world st) = (Ok actual, w') ->
      coerce_count numRows = Raise e ->
      outcome (row_count_is_equal_to_x self q numRows sansTran) st = Raise e /\
      outcome (row_count_is_greater_than_x self q numRows sansTran) st = Raise e /\
      outcome (row_count_is_less_than_x self q numRows sansTran) st = Raise e /\
      (e = AttributeError \/ e = UnicodeEncodeError \/ e = ValueError)) /\
  (forall (W : Type) (self : Collaborators W) (q : string) (numRows : pyval)
          (sansTran : bool) (st : state W) (e : exn),
      py_format numRows = Raise e ->
      e = ValueError /\
      (exists z, numRows = PInt z /\ max_str_digits < decimal_digits z) /\
      forall kw,
        In kw [row_count_is_equal_to_x self q numRows sansTran;
               row_count_is_greater_than_x self q numRows sansTran;
               row_count_is_less_than_x self q numRows sansTran] ->
        outcome kw st = Raise e /\ final kw st = st).
Proof.
  split; [|split].
  - intros z. split; [apply coerce_count_str_of_Z | apply coerce_count_too_long].
  - intros W self q numRows sansTran st actual w' e shown Hshown Hcount He.
    unfold row_count_is_equal_to_x, row_count_is_greater_than_x,
      row_count_is_less_than_x.
    run_keyword. rewrite Hshown. cbn [world trace fst snd].
    rewrite Hcount, He. cbn.
    repeat split. exact (coerce_count_errors _ _ He).
  - intros W self q numRows sansTran st e He.
    destruct (py_format_cases numRows) as [H | [H Hz]]; [congruence|].
    assert (E : e = ValueError) by congruence. subst e.
    split; [reflexivity|]. split; [exact Hz|].
    intros kw [<- | [<- | [<- | []]]];
      unfold row_count_is_equal_to_x, row_count_is_greater_than_x,
        row_count_is_less_than_x;
      run_keyword; rewrite H; split; reflexivity.
Qed.

(** C7, on the table [person]: the text [two] is no number, and the
    [ValueError] of [int] comes out of the keyword. *)
Lemma count_coercion_witness :
  py_format (PStr "two") = Ok "two"
  /\ row_count Double.collaborators "SELECT id FROM person" (Some false)
       (world Double.start) = (Ok 2, Double.person_db)
  /\ coerce_count (PStr "two") = Raise ValueError
  /\ outcome (row_count_is_equal_to_x Double.collaborators "SELECT id FROM person"
                (PStr "two") false) Double.start = Raise ValueError.
Proof.
  split; [reflexivity|]. split; [reflexivity|]. split; [reflexivity|].
  apply (proj1 (proj2 count_coercion) _ Double.collaborators
           "SELECT id FROM person" (PStr "two") false Double.start 2
           Double.person_db ValueError "two" eq_refl eq_refl eq_refl).
Defined.

(** C7 as stated fails: the integer 3 and the text [3.0] are numeric, and the
    coercion step raises for both. *)
Lemma numeric_arguments_not_coerced :
  (numeric (PInt 3) /\ coerce_count (PInt 3) = Raise AttributeError) /\
  (numeric (PStr "3.0") /\ coerce_count (PStr "3.0") = Raise ValueError) /\
  ~ (forall v : pyval, numeric v -> exists n : Z, coerce_count v = Ok n).
Proof.
  assert (H3 : numeric (PInt 3)) by (eexists; reflexivity).
  assert (H30 : numeric (PStr "3.0")) by (eexists; reflexivity).
  repeat split; auto.
  intros H. destruct (H (PInt 3) H3) as [n Hn]. discriminate.
Qed.

(** *** Deploy, then compare (C8) *)

(** C8: in every run of [compare_table_structure_snowflake] and of
    [check_query_result] the script is executed once, first among the calls,
    and the comparison is issued at most once and after it; when the script has
    run and the comparison then counts [n > 0] faulty rows, the keyword raises
    its [AssertionError] with no further call: the state is the one that the
    script and then the comparison left. *)
Theorem deploy_then_compare :
  forall (W : Type) (self : Collaborators W)
         (script ts tn rs rn : string) (sansTrans : bool) (st : state W),
    let snow := compare_table_structure_snowflake self script ts tn rs rn in
    let check := check_query_result self script ts tn rs rn sansTrans in
    let deploy := Call "execute_sql_script" [AStr script] in
    let count := Call "row_count" [AStr (snowflake_structure_query ts tn rs rn)] in
    let compare := Call "compare_tables" [AStr ts; AStr tn; AStr rs; AStr rn] in
    (exists l rest,
        emitted snow st (LogInfo l :: deploy :: rest) /\
        (rest = [] \/ rest = [count]) /\
        count_calls "execute_sql_script" (LogInfo l :: deploy :: rest) = 1%nat) /\
    (exists l rest,
        emitted check st (LogInfo l :: deploy :: rest) /\
        (rest = [] \/ rest = [compare]) /\
        count_calls "execute_sql_script" (LogInfo l :: deploy :: rest) = 1%nat) /\
    (forall (w1 w2 : W) (n : Z),
        execute_sql_script self script (world st) = (Ok tt, w1) ->
        row_count self (snowflake_structure_query ts tn rs rn) None w1 = (Ok n, w2) ->
        n > 0 ->
        (exists msg, fails_with snow st msg) /\
        world (final snow st) = w2 /\
        exists l, emitted snow st [LogInfo l; deploy; count]) /\
    (forall (w1 w2 : W) (n : Z),
        execute_sql_script self script (world st) = (Ok tt, w1) ->
        compare_tables self ts tn rs rn w1 = (Ok n, w2) ->
        n > 0 ->
        (exists msg, fails_with check st msg) /\
        world (final check st) = w2 /\
        exists l, emitted check st [LogInfo l; deploy; compare]).
Proof.
  intros W self script ts tn rs rn sansTrans st snow check deploy count compare.
  subst snow check deploy count compare.
  unfold compare_table_structure_snowflake, check_query_result, emitted.
  run_keyword.
  repeat split.
  - destruct (execute_sql_script self script (world st)) as [[[]|e] w1];
      cbn [world trace snd].
    + destruct (row_count self _ None w1) as [[n|e] w2]; cbn [world trace snd].
      * eexists; eexists. split; [|split; [right; reflexivity | reflexivity]].
        destruct (n >? 0); cbn [snd trace]; rewrite <- !app_assoc; reflexivity.
      * eexists; eexists. split; [|split; [right; reflexivity | reflexivity]].
        cbn [snd trace]; rewrite <- !app_assoc; reflexivity.
    + eexists; eexists. split; [|split; [left; reflexivity | reflexivity]].
      cbn [snd trace]; rewrite <- !app_assoc; reflexivity.
  - destruct (execute_sql_script self script (world st)) as [[[]|e] w1];
      cbn [world trace snd].
    + destruct (compare_tables self ts tn rs rn w1) as [[n|e] w2];
        cbn [world trace snd].
      * eexists; eexists. split; [|split; [right; reflexivity | reflexivity]].
        destruct (n >? 0); cbn [snd trace]; rewrite <- !app_assoc; reflexivity.
      * eexists; eexists. split; [|split; [right; reflexivity | reflexivity]].
        cbn [snd trace]; rewrite <- !app_assoc; reflexivity.
    + eexists; eexists. split; [|split; [left; reflexivity | reflexivity]].
      cbn [snd trace]; rewrite <- !app_assoc; reflexivity.
  - rewrite H; cbn [world trace]; rewrite H0.
    destruct (Z.gtb_spec n 0); [|lia]. eexists. reflexivity.
  - rewrite H; cbn [world trace]; rewrite H0.
    destruct (Z.gtb_spec n 0); [|lia]. reflexivity.
  - rewrite H; cbn [world trace]; rewrite H0.
    destruct (Z.gtb_spec n 0); [|lia]. eexists.
    cbn [snd trace]; rewrite <- !app_assoc; reflexivity.
  - rewrite H; cbn [world trace]; rewrite H0.
    destruct (Z.gtb_spec n 0); [|lia]. eexists. reflexivity.
  - rewrite H; cbn [world trace]; rewrite H0.
    destruct (Z.gtb_spec n 0); [|lia]. reflexivity.
  - rewrite H; cbn [world trace]; rewrite H0.
    destruct (Z.gtb_spec n 0); [|lia]. eexists.
    cbn [snd trace]; rewrite <- !app_assoc; reflexivity.
Qed.

(** C8, on the double: the structures of [test.person] and [expected.person]
    differ in two columns; the keyword fails and the script stays deployed. *)
Lemma deploy_then_compare_witness :
  (exists w1,
      execute_sql_script Double.collaborators "deploy.sql" (world Double.start)
      = (Ok tt, w1) /\
      row_count Double.collaborators
        (snowflake_structure_query "test" "person" "expected" "person") None w1
      = (Ok 2, w1) /\
      2 > 0 /\
      Double.deployed w1 = ["deploy.sql"] /\
      world (final (compare_table_structure_snowflake Double.collaborators
                      "deploy.sql" "test" "person" "expected" "person")
               Double.start) = w1).
Proof.
  eexists. split; [reflexivity|]. split; [reflexivity|]. split; [lia|].
  split; [reflexivity|].
  apply (proj1 (proj2 (proj2 (deploy_then_compare _ Double.collaborators
           "deploy.sql" "test" "person" "expected" "person" false Double.start)))
           _ _ 2 eq_refl eq_refl).
  lia.
Defined.

(** *** Row counts of a script (C9) *)

(** C9: [script_row_count_is_greater_than_x] and
    [script_row_count_is_equal_to_x] run the same way, result, state and trace,
    for the two values of [sansTran]; once [open_sql] has returned the
    statement, they are the row-count check on it with [sansTran] false, which
    is what the check hands to [row_count], in its one call, when the count
    argument can be printed in the log line; an argument that cannot, an
    [int] of more than [max_str_digits] digits, ends the run before any such
    call. *)
Theorem script_row_count_ignores_sansTran :
  forall (W : Type) (self : Collaborators W) (file : string) (numRows : pyval)
         (b1 b2 : bool) (st : state W),
    script_row_count_is_greater_than_x self file numRows b1 st
    = script_row_count_is_greater_than_x self file numRows b2 st /\
    script_row_count_is_equal_to_x self file numRows b1 st
    = script_row_count_is_equal_to_x self file numRows b2 st /\
    (forall (stmt : string) (w1 : W),
        open_sql self file (world st) = (Ok stmt, w1) ->
        let st1 := record (Call "open_sql" [AStr file]) st w1 in
        script_row_count_is_greater_than_x self file numRows b1 st
        = row_count_is_greater_than_x self stmt numRows false st1 /\
        script_row_count_is_equal_to_x self file numRows b1 st
        = row_count_is_equal_to_x self stmt numRows false st1 /\
        (forall (shown : string) (r : result Z) (w2 : W),
            py_format numRows = Ok shown ->
            row_count self stmt (Some false) w1 = (r, w2) ->
            exists evs,
              emitted (script_row_count_is_greater_than_x self file numRows b1) st
                (Call "open_sql" [AStr file] :: evs) /\
              In (Call "row_count" [AStr stmt; ABool false]) evs /\
              count_calls "row_count" evs = 1%nat) /\
        (forall e : exn,
            py_format numRows = Raise e ->
            outcome (script_row_count_is_greater_than_x self file numRows b1) st
            = Raise e /\
            emitted (script_row_count_is_greater_than_x self file numRows b1) st
              [Call "open_sql" [AStr file]])).
Proof.
  intros W self file numRows b1 b2 st.
  split; [reflexivity|]. split; [reflexivity|].
  intros stmt w1 Hopen st1.
  unfold script_row_count_is_greater_than_x, script_row_count_is_equal_to_x.
  split; [|split; [|split]].
  - unfold self_open_sql. rewrite (run_bind_ok _ _ st stmt st1); [reflexivity|].
    now apply run_call.
  - unfold self_open_sql. rewrite (run_bind_ok _ _ st stmt st1); [reflexivity|].
    now apply run_call.
  - intros shown r w2 Hshown Hcount. unfold emitted, row_count_is_greater_than_x.
    run_keyword. rewrite Hopen. cbn [world trace]. rewrite Hshown.
    cbn [world trace]. rewrite Hcount.
    eexists. split.
    + destruct r as [n|e].
      * destruct (coerce_count numRows) as [m|e]; [destruct (n <=? m)|];
          cbn [snd trace]; rewrite <- !app_assoc; reflexivity.
      * cbn [snd trace]. rewrite <- !app_assoc. reflexivity.
    + split; [right; left; reflexivity | reflexivity].
  - intros e He. unfold emitted, row_count_is_greater_than_x.
    run_keyword. rewrite Hopen. cbn [world trace]. rewrite He.
    split; reflexivity.
Qed.

(** C9, on the script [count.sql] of the double. *)
Lemma script_row_count_witness :
  open_sql Double.collaborators "count.sql" (world Double.start)
  = (Ok "SELECT id FROM person", Double.person_db)
  /\ script_row_count_is_greater_than_x Double.collaborators "count.sql" (PStr "1")
       true Double.start
     = row_count_is_greater_than_x Double.collaborators "SELECT id FROM person"
         (PStr "1") false
         (record (Call "open_sql" [AStr "count.sql"]) Double.start Double.person_db).
Proof.
  split; [reflexivity|].
  apply (script_row_count_ignores_sansTran _ Double.collaborators "count.sql"
           (PStr "1") true false Double.start).
  reflexivity.
Defined.

(** *** The variance of a value (C10) *)

(** C10, as the code has it: [value_variance_check] flattens the first row of
    the result before it reads [int(field)].  When the flattening raises, an
    [IndexError] for an empty result, that error comes out whatever the
    fourth argument.  When the row flattens to [u] and [int(field)] is [f]:
    for [f] none of 0, 1, 2 the keyword raises the [AssertionError] on its
    fourth argument, whatever [u]; for [f] 0 or 1 it passes iff [u = f]; for
    [f] 2 it passes iff [u >= 2]. *)
Theorem value_variance_by_field :
  forall (W : Type) (self : Collaborators W) (s t k : string) (field : pyval)
         (st : state W) (rs : list row) (w1 : W),
    count_unique_rows_table self s t k (world st) = (Ok rs, w1) ->
    let kw := value_variance_check self s t k field in
    (rs = [] -> outcome kw st = Raise IndexError) /\
    (forall e : exn, scalar_of_first_row rs = Raise e -> outcome kw st = Raise e) /\
    (forall u f : Z,
        scalar_of_first_row rs = Ok u ->
        py_int field = Ok f ->
        (f <> 0 -> f <> 1 -> f <> 2 ->
         fails_with kw st "Check 4th argument in TC, expected value 0, 1 or 2") /\
        (f = 0 \/ f = 1 -> (passes kw st <-> u = f)) /\
        (f = 2 -> (passes kw st <-> u >= 2)) /\
        (f = 0 \/ f = 1 \/ f = 2 -> ~ passes kw st ->
         fails_with kw st (expected_actual field u))).
Proof.
  intros W self s t k field st rs w1 Hrows kw. subst kw.
  unfold value_variance_check, passes, fails_with. run_keyword.
  rewrite Hrows. cbn [fst snd world trace].
  split; [|split].
  - intros ->. reflexivity.
  - intros e ->. reflexivity.
  - intros u f Hu Hf. rewrite Hu, Hf.
    destruct (Z.eqb_spec f 0) as [-> | N0]; [|destruct (Z.eqb_spec f 1) as [-> | N1];
      [|destruct (Z.eqb_spec f 2) as [-> | N2]]].
    + repeat split; try lia.
      * destruct (Z.eqb_spec u 0); cbn; [auto | discriminate].
      * intros ->. reflexivity.
      * destruct (Z.eqb_spec u 0); cbn; [congruence | reflexivity].
    + repeat split; try lia.
      * destruct (Z.eqb_spec u 1); cbn; [auto | discriminate].
      * intros ->. reflexivity.
      * destruct (Z.eqb_spec u 1); cbn; [congruence | reflexivity].
    + repeat split; try lia.
      * destruct (Z.ltb_spec u 2); cbn; [discriminate | lia].
      * intros Hge. destruct (Z.ltb_spec u 2); [lia | reflexivity].
      * destruct (Z.ltb_spec u 2); cbn; [reflexivity | congruence].
    + repeat split; lia.
Qed.

(** C10, on the double: ten unique rows, and a fourth argument of 3. *)
Lemma value_variance_witness :
  count_unique_rows_table Double.collaborators "hr" "person" "id"
    (world Double.start) = (Ok [[PInt 10]], Double.person_db)
  /\ scalar_of_first_row [[PInt 10]] = Ok 10
  /\ py_int (PStr "3") = Ok 3
  /\ fails_with (value_variance_check Double.collaborators "hr" "person" "id"
                   (PStr "3")) Double.start
       "Check 4th argument in TC, expected value 0, 1 or 2".
Proof.
  split; [reflexivity|]. split; [reflexivity|]. split; [reflexivity|].
  apply (proj2 (proj2 (value_variance_by_field _ Double.collaborators "hr"
                         "person" "id" (PStr "3") Double.start [[PInt 10]]
                         Double.person_db eq_refl))
           10 3 eq_refl eq_refl); lia.
Defined.

(** C10 as stated fails: with a fourth argument of 3 and an empty result the
    keyword raises the [IndexError] of [result[0]], and with a result whose
    only column is [None] the [ValueError] of [float]; the [AssertionError] on
    the fourth argument is not raised regardless of the database result. *)
Lemma empty_result_hides_the_choice :
  py_int (PStr "3") = Ok 3 /\
  outcome (value_variance_check (Stub.answering 0 [] "x") "hr" "person" "id"
             (PStr "3")) Stub.start = Raise IndexError /\
  outcome (value_variance_check (Stub.answering 0 [[PNone]] "x") "hr" "person"
             "id" (PStr "3")) Stub.start = Raise ValueError /\
  ~ invalid_choice_always_reported.
Proof.
  split; [reflexivity|]. split; [reflexivity|]. split; [reflexivity|].
  intros H.
  specialize (H unit (Stub.answering 0 [] "x") "hr" "person" "id" (PStr "3")
                Stub.start [] tt 3 eq_refl eq_refl).
  assert (E : fails_with (value_variance_check (Stub.answering 0 [] "x") "hr"
                            "person" "id" (PStr "3")) Stub.start
                "Check 4th argument in TC, expected value 0, 1 or 2")
    by (apply H; discriminate).
  discriminate E.
Qed.

(** ** Further properties of the keywords *)

(** Closes a goal on the trace of a run. *)
Ltac trace_done := cbn [snd fst trace world]; rewrite <- ?app_assoc; reflexivity.

(** *** The keywords on one count (X1 to X7) *)

(** X1: once [row_count] has returned [n], [row_count_is_0] passes iff
    [n <= 0], a negative count included; for [n > 0] it raises the
    [AssertionError] that quotes the statement and ends with the decimal text
    of [n].  The run logs one line and calls [row_count] once, with the
    statement and [sansTran] as given, and ends in the state that call left. *)
Theorem row_count_is_0_verdict :
  forall (W : Type) (self : Collaborators W) (q : string) (sansTran : bool)
         (st : state W) (n : Z) (w' : W),
    row_count self q (Some sansTran) (world st) = (Ok n, w') ->
    let kw := row_count_is_0 self q sansTran in
    (passes kw st <-> n <= 0) /\
    (0 < n ->
     fails_with kw st
       ("Expected zero rows to be returned from '" ++ q
        ++ "' but got rows back. Number of rows returned was " ++ str_of_Z n)) /\
    emitted kw st [LogInfo ("Executing : Row Count Is 0  |  " ++ q ++ " ");
                   Call "row_count" [AStr q; ABool sansTran]] /\
    world (final kw st) = w'.
Proof.
  intros W self q sansTran st n w' Hcount kw. subst kw.
  unfold row_count_is_0, emitted. run_keyword. rewrite Hcount.
  destruct (Z.gtb_spec n 0) as [Hn|Hn]; cbn [fst snd world trace].
  - repeat split; try (intros; lia || discriminate || reflexivity); trace_done.
  - repeat split; try (intros; lia || discriminate || reflexivity); trace_done.
Qed.

Lemma row_count_is_0_witness :
  row_count Double.collaborators Double.john (Some true) (world Double.start)
  = (Ok 0, Double.person_db)
  /\ passes (row_count_is_0 Double.collaborators Double.john true) Double.start.
Proof.
  split; [reflexivity|].
  apply (row_count_is_0_verdict _ Double.collaborators Double.john true
           Double.start 0 Double.person_db eq_refl).
  lia.
Defined.

(** X2: once [row_count] has returned [n] for the statement of the stored
    driver, [table_must_exist] passes iff [n] is not 0, so also for a negative
    count; for 0 it raises the [AssertionError] that names the table. *)
Theorem table_must_exist_verdict :
  forall (W : Type) (self : Collaborators W) (t : string) (sansTran : bool)
         (st : state W) (n : Z) (w' : W),
    row_count self (table_exists_sql (db_api_module_name self (world st)) t)
      (Some sansTran) (world st) = (Ok n, w') ->
    let kw := table_must_exist self t sansTran in
    (passes kw st <-> n <> 0) /\
    (n = 0 -> fails_with kw st ("Table '" ++ t ++ "' does not exist in the db")) /\
    world (final kw st) = w'.
Proof.
  intros W self t sansTran st n w' Hcount kw. subst kw.
  unfold table_must_exist. run_keyword. rewrite Hcount.
  destruct (Z.eqb_spec n 0) as [Hn|Hn]; cbn [fst snd world trace].
  - repeat split; try (intros; congruence || discriminate || reflexivity).
  - repeat split; try (intros; congruence || discriminate || reflexivity).
Qed.

Lemma table_must_exist_witness :
  row_count (Stub.answering (-1) [] "x")
    (table_exists_sql (db_api_module_name (Stub.answering (-1) [] "x")
                         (world Stub.start)) "person")
    (Some false) (world Stub.start) = (Ok (-1), tt)
  /\ passes (table_must_exist (Stub.answering (-1) [] "x") "person" false)
       Stub.start.
Proof.
  split; [reflexivity|].
  apply (table_must_exist_verdict _ (Stub.answering (-1) [] "x") "person" false
           Stub.start (-1) tt eq_refl).
  discriminate.
Defined.

(** X3: every run of [compare_table_structure] logs one line and calls
    [row_count] once, on the comparison statement and with no transaction
    flag; it executes no script.  It ends in the state that call left; an
    error of the call comes out as it is; a count [n] passes iff [n <= 0], and
    for [n > 0] the [AssertionError] names the table and [n]. *)
Theorem compare_table_structure_counts_once :
  forall (W : Type) (self : Collaborators W) (tn sn cn : string) (st : state W),
    let kw := compare_table_structure self tn sn cn in
    let evs := [LogInfo ("Executing : Compare Table Structure for table |  "
                         ++ tn ++ " ");
                Call "row_count" [AStr (structure_query tn sn cn)]] in
    emitted kw st evs /\
    count_calls "execute_sql_script" evs = 0%nat /\
    world (final kw st)
    = snd (row_count self (structure_query tn sn cn) None (world st)) /\
    (forall (e : exn) (w' : W),
        row_count self (structure_query tn sn cn) None (world st) = (Raise e, w') ->
        outcome kw st = Raise e) /\
    (forall (n : Z) (w' : W),
        row_count self (structure_query tn sn cn) None (world st) = (Ok n, w') ->
        (passes kw st <-> n <= 0) /\
        (0 < n ->
         fails_with kw st
           ("Table structure of table '" ++ tn
            ++ "' does not match expected result. The number of faulty columns is '"
            ++ str_of_Z n ++ "'"))).
Proof.
  intros W self tn sn cn st kw evs. subst kw evs.
  unfold compare_table_structure, emitted. run_keyword.
  destruct (row_count self (structure_query tn sn cn) None (world st))
    as [[n|e] w] eqn:Hcount; cbn [fst snd world trace].
  - destruct (Z.gtb_spec n 0) as [Hn|Hn]; cbn [fst snd world trace].
    + split; [trace_done|]. split; [reflexivity|]. split; [reflexivity|].
      split; [intros e w' [=]|]. intros n' w' [= <- <-].
      split; [split; [discriminate | lia] | reflexivity].
    + split; [trace_done|]. split; [reflexivity|]. split; [reflexivity|].
      split; [intros e w' [=]|]. intros n' w' [= <- <-].
      split; [split; [lia | reflexivity] | lia].
  - split; [trace_done|]. split; [reflexivity|]. split; [reflexivity|].
    split; [intros e' w' [= <- <-]; reflexivity | intros n' w' [=]].
Qed.

Lemma compare_table_structure_witness :
  row_count (Stub.answering 2 [] "x") (structure_query "T" "S" "C") None
    (world Stub.start) = (Ok 2, tt)
  /\ 0 < 2
  /\ fails_with (compare_table_structure (Stub.answering 2 [] "x") "T" "S" "C")
       Stub.start
       "Table structure of table 'T' does not match expected result. The number of faulty columns is '2'".
Proof.
  split; [reflexivity|]. split; [lia|].
  apply (proj2 (proj2 (proj2 (proj2 (proj2
           (compare_table_structure_counts_once _ (Stub.answering 2 [] "x")
              "T" "S" "C" Stub.start)))) 2 tt eq_refl)).
  lia.
Defined.

(** X4: in [compare_table_structure_snowflake] and [check_query_result] a
    script that fails to deploy ends the keyword: its error comes out, and no
    comparison is issued.  After a deployment, a comparison that counts [n]
    passes iff [n <= 0], and for [n > 0] the [AssertionError] of
    [check_query_result] names the script and [n].  [check_query_result] runs
    the same way for the two values of [sansTrans]. *)
Theorem deployment_comes_first :
  forall (W : Type) (self : Collaborators W)
         (script ts tn rs rn : string) (b : bool) (st : state W),
    let snow := compare_table_structure_snowflake self script ts tn rs rn in
    let check := check_query_result self script ts tn rs rn b in
    let deploy := Call "execute_sql_script" [AStr script] in
    (forall (e : exn) (w1 : W),
        execute_sql_script self script (world st) = (Raise e, w1) ->
        (outcome snow st = Raise e /\ world (final snow st) = w1 /\
         emitted snow st
           [LogInfo ("Executing : Compare Table Structure for table |  " ++ tn ++ " ");
            deploy]) /\
        (outcome check st = Raise e /\ world (final check st) = w1 /\
         emitted check st
           [LogInfo ("Executing : Compare Query Result |  " ++ script ++ " ");
            deploy])) /\
    (forall (w1 w2 : W) (n : Z),
        execute_sql_script self script (world st) = (Ok tt, w1) ->
        row_count self (snowflake_structure_query ts tn rs rn) None w1 = (Ok n, w2) ->
        (passes snow st <-> n <= 0)) /\
    (forall (w1 w2 : W) (n : Z),
        execute_sql_script self script (world st) = (Ok tt, w1) ->
        compare_tables self ts tn rs rn w1 = (Ok n, w2) ->
        (passes check st <-> n <= 0) /\
        (0 < n ->
         fails_with check st
           ("Result of script '" ++ script
            ++ "' does not match expected result. The number of faulty rows is '"
            ++ str_of_Z n ++ "'"))) /\
    check_query_result self script ts tn rs rn true st
    = check_query_result self script ts tn rs rn false st.
Proof.
  intros W self script ts tn rs rn b st snow check deploy.
  subst snow check deploy.
  unfold compare_table_structure_snowflake, check_query_result, emitted.
  run_keyword.
  split; [|split; [|split; [|reflexivity]]].
  - intros e w1 Hs. rewrite Hs. cbn [fst snd world trace].
    repeat split; trace_done.
  - intros w1 w2 n Hs Hc. rewrite Hs. cbn [fst snd world trace]. rewrite Hc.
    destruct (Z.gtb_spec n 0); cbn [fst]; split; intros; try lia;
      try discriminate; reflexivity.
  - intros w1 w2 n Hs Hc. rewrite Hs. cbn [fst snd world trace]. rewrite Hc.
    destruct (Z.gtb_spec n 0); cbn [fst]; (split; [split|]); intros; try lia;
      try discriminate; reflexivity.
Qed.

Lemma deployment_comes_first_witness :
  execute_sql_script (Stub.failing (OtherError "ProgrammingError" "syntax"))
    "deploy.sql" (world Stub.start)
  = (Raise (OtherError "ProgrammingError" "syntax"), tt)
  /\ outcome (check_query_result (Stub.failing (OtherError "ProgrammingError" "syntax"))
                "deploy.sql" "a" "b" "c" "d" false) Stub.start
     = Raise (OtherError "ProgrammingError" "syntax").
Proof.
  split; [reflexivity|].
  apply (proj1 (deployment_comes_first _
                  (Stub.failing (OtherError "ProgrammingError" "syntax"))
                  "deploy.sql" "a" "b" "c" "d" false Stub.start)
           _ tt eq_refl).
Defined.

(** The verdicts of the three comparisons, for a count [actual] and an
    argument coerced to [n]. *)
Lemma row_count_verdicts (W : Type) (self : Collaborators W) (q : string)
  (numRows : pyval) (b : bool) (st : state W) (actual n : Z) (w' : W) :
  row_count self q (Some b) (world st) = (Ok actual, w') ->
  coerce_count numRows = Ok n ->
  (passes (row_count_is_equal_to_x self q numRows b) st <-> actual = n) /\
  (passes (row_count_is_greater_than_x self q numRows b) st <-> n < actual) /\
  (passes (row_count_is_less_than_x self q numRows b) st <-> actual < n).
Proof.
  intros Hcount Hn.
  unfold row_count_is_equal_to_x, row_count_is_greater_than_x,
    row_count_is_less_than_x.
  run_keyword. rewrite (coerced_is_text _ _ Hn). cbn [fst snd world trace].
  rewrite Hcount, Hn. cbn [fst snd world trace].
  rewrite Z.geb_leb.
  destruct (Z.eqb_spec actual n), (Z.leb_spec actual n), (Z.leb_spec n actual);
    cbn [negb fst]; repeat split; intros; try lia; try discriminate;
    reflexivity.
Qed.

(** X5: [count_specific_table] and [count_unique_rows_table2] compare their
    last argument, coerced to [n], with what [row_count] returns for the
    [COUNT] statement they build: they pass iff that row count is [n], and
    otherwise raise the [AssertionError] of [row_count_is_equal_to_x], which
    quotes the statement.  The run logs the keyword's own line, then the line
    of [row_count_is_equal_to_x], and calls [row_count] once, with [sansTran]
    false. *)
Theorem table_counts_judge_the_row_count :
  forall (W : Type) (self : Collaborators W) (s t k : string) (numRows : pyval)
         (st : state W) (actual n : Z) (w' : W),
    coerce_count numRows = Ok n ->
    let q1 := "SELECT COUNT(" ++ "*) FROM " ++ s ++ "." ++ t in
    let q2 := "SELECT COUNT(DISTINCT " ++ k ++ ") FROM " ++ s ++ "." ++ t in
    let inner q := LogInfo ("Executing : Row Count Is Equal To X  |  " ++ q
                            ++ "  |  " ++ py_str numRows ++ " ") in
    let message q := "Expected same number of rows to be returned from '" ++ q
                     ++ "' than the returned rows of " ++ str_of_Z actual in
    (row_count self q1 (Some false) (world st) = (Ok actual, w') ->
     let kw := count_specific_table self s t numRows in
     (passes kw st <-> actual = n) /\
     (actual <> n -> fails_with kw st (message q1)) /\
     emitted kw st
       [LogInfo ("Executing : Count for specific table: |  " ++ t ++ " ");
        inner q1; Call "row_count" [AStr q1; ABool false]]) /\
    (row_count self q2 (Some false) (world st) = (Ok actual, w') ->
     let kw := count_unique_rows_table2 self s t k numRows in
     (passes kw st <-> actual = n) /\
     (actual <> n -> fails_with kw st (message q2)) /\
     emitted kw st
       [LogInfo ("Executing : Count (unique rows) for table: |  " ++ t ++ " ");
        inner q2; Call "row_count" [AStr q2; ABool false]]).
Proof.
  intros W self s t k numRows st actual n w' Hn q1 q2 inner message.
  subst q1 q2 inner message.
  split; intros Hcount kw; subst kw;
    unfold count_specific_table, count_unique_rows_table2,
      row_count_is_equal_to_x, emitted;
    run_keyword; rewrite (coerced_is_text _ _ Hn); cbn [fst snd world trace];
    rewrite Hcount, Hn; cbn [fst snd world trace];
    (destruct (Z.eqb_spec actual n); cbn [negb fst snd world trace];
     (split; [split; intros; try lia; try discriminate; reflexivity|]);
     (split; [intros; try lia; reflexivity | trace_done])).
Qed.

Lemma table_counts_witness :
  coerce_count (PStr "1") = Ok 1
  /\ row_count (Stub.answering 1 [[PInt 250]] "x")
       ("SELECT COUNT(" ++ "*) FROM " ++ "hr" ++ "." ++ "person") (Some false)
       (world Stub.start) = (Ok 1, tt)
  /\ passes (count_specific_table (Stub.answering 1 [[PInt 250]] "x")
               "hr" "person" (PStr "1")) Stub.start.
Proof.
  split; [reflexivity|]. split; [reflexivity|].
  apply (proj1 (table_counts_judge_the_row_count _
                  (Stub.answering 1 [[PInt 250]] "x") "hr" "person" "id"
                  (PStr "1") Stub.start 1 1 tt eq_refl) eq_refl).
  reflexivity.
Defined.

(** X6: for one count and one coerced argument, exactly one of
    [row_count_is_equal_to_x], [row_count_is_greater_than_x] and
    [row_count_is_less_than_x] passes.  [row_count_is_0] passes iff
    [row_count_is_less_than_x] does against the text 1, and, when the count is
    not negative, iff [row_count_is_equal_to_x] does against the text 0. *)
Theorem row_count_checks_partition :
  forall (W : Type) (self : Collaborators W) (q : string) (numRows : pyval)
         (b : bool) (st : state W) (actual n : Z) (w' : W),
    row_count self q (Some b) (world st) = (Ok actual, w') ->
    coerce_count numRows = Ok n ->
    let eq := passes (row_count_is_equal_to_x self q numRows b) st in
    let gt := passes (row_count_is_greater_than_x self q numRows b) st in
    let lt := passes (row_count_is_less_than_x self q numRows b) st in
    let zero := passes (row_count_is_0 self q b) st in
    (eq \/ gt \/ lt) /\ ~ (eq /\ gt) /\ ~ (eq /\ lt) /\ ~ (gt /\ lt) /\
    (zero <-> passes (row_count_is_less_than_x self q (PStr "1") b) st) /\
    (0 <= actual ->
     (zero <-> passes (row_count_is_equal_to_x self q (PStr "0") b) st)).
Proof.
  intros W self q numRows b st actual n w' Hcount Hn eq gt lt zero.
  subst eq gt lt zero.
  destruct (row_count_verdicts W self q numRows b st actual n w' Hcount Hn)
    as (Heq & Hgt & Hlt).
  destruct (row_count_verdicts W self q (PStr "1") b st actual 1 w' Hcount
              eq_refl) as (_ & _ & Hlt1).
  destruct (row_count_verdicts W self q (PStr "0") b st actual 0 w' Hcount
              eq_refl) as (Heq0 & _ & _).
  assert (Hzero : passes (row_count_is_0 self q b) st <-> actual <= 0).
  { unfold row_count_is_0. run_keyword. rewrite Hcount.
    destruct (Z.gtb_spec actual 0); cbn [fst]; split; intros; try lia;
      try discriminate; reflexivity. }
  rewrite Heq, Hgt, Hlt, Hlt1, Heq0, Hzero. lia.
Qed.

Lemma row_count_checks_partition_witness :
  row_count Double.collaborators "SELECT id FROM person" (Some false)
    (world Double.start) = (Ok 2, Double.person_db)
  /\ coerce_count (PStr "2") = Ok 2
  /\ ~ (passes (row_count_is_equal_to_x Double.collaborators
                  "SELECT id FROM person" (PStr "2") false) Double.start
        /\ passes (row_count_is_greater_than_x Double.collaborators
                     "SELECT id FROM person" (PStr "2") false) Double.start).
Proof.
  split; [reflexivity|]. split; [reflexivity|].
  apply (row_count_checks_partition _ Double.collaborators
           "SELECT id FROM person" (PStr "2") false Double.start 2 2
           Double.person_db eq_refl eq_refl).
Defined.

(** X7: an error that [query] or [row_count] raises comes out, unchanged, of
    the seven keywords that run one statement; the keyword ends in the state
    the call left.  In the three comparisons the count argument is only
    printed before the call: the error of the call comes out for every
    argument that the log line can print, also one that cannot be coerced. *)
Theorem collaborator_errors_come_out :
  forall (W : Type) (self : Collaborators W) (q : string) (numRows : pyval)
         (b : bool) (st : state W) (e : exn) (w' : W),
    (query self q (Some b) (world st) = (Raise e, w') ->
     forall kw,
       In kw [check_if_exists_in_database self q b;
              check_if_not_exists_in_database self q b] ->
       outcome kw st = Raise e /\ world (final kw st) = w') /\
    (row_count self q (Some b) (world st) = (Raise e, w') ->
     (outcome (row_count_is_0 self q b) st = Raise e /\
      world (final (row_count_is_0 self q b) st) = w') /\
     forall shown : string,
       py_format numRows = Ok shown ->
       forall kw,
         In kw [row_count_is_equal_to_x self q numRows b;
                row_count_is_greater_than_x self q numRows b;
                row_count_is_less_than_x self q numRows b] ->
         outcome kw st = Raise e /\ world (final kw st) = w') /\
    (row_count self (table_exists_sql (db_api_module_name self (world st)) q)
       (Some b) (world st) = (Raise e, w') ->
     outcome (table_must_exist self q b) st = Raise e /\
     world (final (table_must_exist self q b) st) = w').
Proof.
  intros W self q numRows b st e w'.
  split; [|split].
  - intros H kw [<- | [<- | []]];
      unfold check_if_exists_in_database, check_if_not_exists_in_database;
      run_keyword; rewrite H; split; reflexivity.
  - intros H. split.
    + unfold row_count_is_0. run_keyword. rewrite H. split; reflexivity.
    + intros shown Hshown kw [<- | [<- | [<- | []]]];
        unfold row_count_is_equal_to_x, row_count_is_greater_than_x,
          row_count_is_less_than_x;
        run_keyword; rewrite Hshown; cbn [fst snd world trace]; rewrite H;
        split; reflexivity.
  - intros H. unfold table_must_exist. run_keyword. rewrite H.
    split; reflexivity.
Qed.

Lemma collaborator_errors_witness :
  row_count Double.collaborators "SELECT id FROM nowhere" (Some false)
    (world Double.start)
  = (Raise (OtherError "ProgrammingError" "SELECT id FROM nowhere"),
     Double.person_db)
  /\ py_format (PStr "two") = Ok "two"
  /\ coerce_count (PStr "two") = Raise ValueError
  /\ outcome (row_count_is_equal_to_x Double.collaborators
                "SELECT id FROM nowhere" (PStr "two") false) Double.start
     = Raise (OtherError "ProgrammingError" "SELECT id FROM nowhere").
Proof.
  split; [reflexivity|]. split; [reflexivity|]. split; [reflexivity|].
  apply (proj2 (proj1 (proj2 (collaborator_errors_come_out _
                                Double.collaborators "SELECT id FROM nowhere"
                                (PStr "two") false Double.start _
                                Double.person_db)) eq_refl)
           "two" eq_refl).
  left; reflexivity.
Defined.

(** X8: [script_row_count_is_greater_than_x] and
    [script_row_count_is_equal_to_x] log nothing of their own.  When
    [open_sql] raises, its error comes out and no statement is run.  When it
    returns the statement, the keyword passes iff the row count of that
    statement is greater than, respectively equal to, the coerced argument;
    the run is the call of [open_sql], the log line of the row-count keyword
    and one call of [row_count]. *)
Theorem script_row_counts_end_to_end :
  forall (W : Type) (self : Collaborators W) (file : string) (numRows : pyval)
         (b : bool) (st : state W),
    let gt := script_row_count_is_greater_than_x self file numRows b in
    let eq := script_row_count_is_equal_to_x self file numRows b in
    let open := Call "open_sql" [AStr file] in
    (forall (e : exn) (w1 : W),
        open_sql self file (world st) = (Raise e, w1) ->
        outcome gt st = Raise e /\ outcome eq st = Raise e /\
        emitted gt st [open] /\ emitted eq st [open]) /\
    (forall (stmt : string) (w1 w2 : W) (actual n : Z),
        open_sql self file (world st) = (Ok stmt, w1) ->
        row_count self stmt (Some false) w1 = (Ok actual, w2) ->
        coerce_count numRows = Ok n ->
        (passes gt st <-> n < actual) /\
        (passes eq st <-> actual = n) /\
        emitted gt st
          [open;
           LogInfo ("Executing : Row Count Is Greater Than X  |  " ++ stmt
                    ++ "  |  " ++ py_str numRows ++ " ");
           Call "row_count" [AStr stmt; ABool false]] /\
        emitted eq st
          [open;
           LogInfo ("Executing : Row Count Is Equal To X  |  " ++ stmt
                    ++ "  |  " ++ py_str numRows ++ " ");
           Call "row_count" [AStr stmt; ABool false]]).
Proof.
  intros W self file numRows b st gt eq open. subst gt eq open.
  unfold script_row_count_is_greater_than_x, script_row_count_is_equal_to_x,
    row_count_is_greater_than_x, row_count_is_equal_to_x, emitted.
  run_keyword. split.
  - intros e w1 Ho. rewrite Ho. cbn [fst snd world trace].
    repeat split; trace_done.
  - intros stmt w1 w2 actual n Ho Hc Hn. rewrite Ho. cbn [fst snd world trace].
    rewrite (coerced_is_text _ _ Hn). cbn [fst snd world trace].
    rewrite Hc, Hn. cbn [fst snd world trace].
    destruct (Z.eqb_spec actual n), (Z.leb_spec actual n);
      cbn [negb fst snd world trace];
      repeat split; intros; try lia; try discriminate; try reflexivity;
      trace_done.
Qed.

Lemma script_row_counts_witness :
  open_sql Double.collaborators "count.sql" (world Double.start)
  = (Ok "SELECT id FROM person", Double.person_db)
  /\ row_count Double.collaborators "SELECT id FROM person" (Some false)
       Double.person_db = (Ok 2, Double.person_db)
  /\ coerce_count (PStr "1") = Ok 1
  /\ passes (script_row_count_is_greater_than_x Double.collaborators "count.sql"
               (PStr "1") true) Double.start.
Proof.
  split; [reflexivity|]. split; [reflexivity|]. split; [reflexivity|].
  apply (proj2 (script_row_counts_end_to_end _ Double.collaborators "count.sql"
                  (PStr "1") true Double.start)
           _ _ _ 2 1 eq_refl eq_refl eq_refl).
  lia.
Defined.

(** *** The keywords on two results (X9 to X12) *)

(** X9: [row_unique_check2] logs nothing.  It opens the two files before it
    touches the connection: when the first [open_sql] raises, nothing else is
    called, and when the second raises, no cursor is taken and no statement
    run.  Otherwise it takes a cursor, which it does not use, and runs the two
    statements in the order of its arguments, with no transaction flag; an
    error of the first statement keeps the second from running.  With both
    results fetched it passes iff the scalars of their first rows are equal,
    and the [AssertionError] gives the scalar of the second result before the
    scalar of the first; an empty first result raises an [IndexError]. *)
Theorem row_unique_check2_call_order :
  forall (W : Type) (self : Collaborators W) (f1 f2 : string) (st : state W),
    let kw := row_unique_check2 self f1 f2 in
    let open1 := Call "open_sql" [AStr f1] in
    let open2 := Call "open_sql" [AStr f2] in
    let cursor := Call "_dbconnection.cursor" [] in
    (forall (e : exn) (w1 : W),
        open_sql self f1 (world st) = (Raise e, w1) ->
        outcome kw st = Raise e /\ emitted kw st [open1]) /\
    (forall (q1 : string) (w1 w2 : W) (e : exn),
        open_sql self f1 (world st) = (Ok q1, w1) ->
        open_sql self f2 w1 = (Raise e, w2) ->
        outcome kw st = Raise e /\ emitted kw st [open1; open2]) /\
    (forall (q1 q2 : string) (w1 w2 w3 w4 : W) (e : exn),
        open_sql self f1 (world st) = (Ok q1, w1) ->
        open_sql self f2 w1 = (Ok q2, w2) ->
        dbconnection_cursor self w2 = (Ok tt, w3) ->
        query self q1 None w3 = (Raise e, w4) ->
        outcome kw st = Raise e /\
        emitted kw st [open1; open2; cursor; Call "query" [AStr q1]]) /\
    (forall (q1 q2 : string) (w1 w2 w3 w4 w5 : W) (rs1 rs2 : list row),
        open_sql self f1 (world st) = (Ok q1, w1) ->
        open_sql self f2 w1 = (Ok q2, w2) ->
        dbconnection_cursor self w2 = (Ok tt, w3) ->
        query self q1 None w3 = (Ok rs1, w4) ->
        query self q2 None w4 = (Ok rs2, w5) ->
        emitted kw st [open1; open2; cursor; Call "query" [AStr q1];
                       Call "query" [AStr q2]] /\
        world (final kw st) = w5 /\
        (rs1 = [] -> outcome kw st = Raise IndexError) /\
        (forall a b : Z,
            scalar_of_first_row rs1 = Ok a ->
            scalar_of_first_row rs2 = Ok b ->
            (passes kw st <-> a = b) /\
            (a <> b ->
             fails_with kw st
               ("Key is not unique, total rows: '" ++ str_of_Z b
                ++ "', key rows: '" ++ str_of_Z a ++ "'")))).
Proof.
  intros W self f1 f2 st kw open1 open2 cursor. subst kw open1 open2 cursor.
  unfold row_unique_check2, emitted. run_keyword.
  split; [|split; [|split]].
  - intros e w1 H1. rewrite H1. split; [reflexivity | trace_done].
  - intros q1 w1 w2 e H1 H2. rewrite H1. cbn [fst snd world trace]. rewrite H2.
    split; [reflexivity | trace_done].
  - intros q1 q2 w1 w2 w3 w4 e H1 H2 H3 H4.
    rewrite H1. cbn [fst snd world trace]. rewrite H2. cbn [fst snd world trace].
    rewrite H3. cbn [fst snd world trace]. rewrite H4.
    split; [reflexivity | trace_done].
  - intros q1 q2 w1 w2 w3 w4 w5 rs1 rs2 H1 H2 H3 H4 H5.
    rewrite H1. cbn [fst snd world trace]. rewrite H2. cbn [fst snd world trace].
    rewrite H3. cbn [fst snd world trace]. rewrite H4. cbn [fst snd world trace].
    rewrite H5. cbn [fst snd world trace].
    split; [|split; [|split]].
    + destruct (scalar_of_first_row rs1) as [a|e]; [|trace_done].
      destruct (scalar_of_first_row rs2) as [b|e]; [|trace_done].
      destruct (negb (a =? b)); trace_done.
    + destruct (scalar_of_first_row rs1) as [a|e]; [|reflexivity].
      destruct (scalar_of_first_row rs2) as [b|e]; [|reflexivity].
      destruct (negb (a =? b)); reflexivity.
    + intros ->. reflexivity.
    + intros a b -> ->. cbn [fst snd world trace].
      destruct (Z.eqb_spec a b); cbn [negb fst]; repeat split; intros;
        try lia; try discriminate; try congruence; reflexivity.
Qed.

Lemma row_unique_check2_witness :
  open_sql Double.collaborators "count.sql" (world Double.start)
  = (Ok "SELECT id FROM person", Double.person_db)
  /\ open_sql Double.collaborators "missing.sql" Double.person_db
     = (Raise (OtherError "FileNotFoundError" "missing.sql"), Double.person_db)
  /\ outcome (row_unique_check2 Double.collaborators "count.sql" "missing.sql")
       Double.start
     = Raise (OtherError "FileNotFoundError" "missing.sql").
Proof.
  split; [reflexivity|]. split; [reflexivity|].
  apply (proj1 (proj2 (row_unique_check2_call_order _ Double.collaborators
                         "count.sql" "missing.sql" Double.start))
           _ _ Double.person_db _ eq_refl eq_refl).
Defined.

Ltac empty_first_rows H1 H2 H :=
  run_keyword; rewrite H1; cbn [fst snd world trace]; rewrite H2;
  cbn [fst snd world trace];
  destruct H as [-> | [-> [? ->]]]; cbn [scalar_of_first_row first_row rbind];
  (split; [reflexivity | split; [reflexivity | trace_done]]).

(** X10: the derived-scalar keywords take the first row of a result only
    after their fetches: when the first result is empty, or the second is and
    the first flattens, each of [row_unique_check],
    [row_unique_check_argument] and the five [dimensional_integrity_check_*]
    keywords raises an [IndexError], after its two fetches and before the log
    line of the verdict; [value_variance_check] raises it for an empty result
    whatever its fourth argument. *)
Theorem empty_results_raise_index_error :
  forall (W : Type) (self : Collaborators W) (s t k a ft fk : string)
         (field : pyval) (st : state W),
    let unique key := Call "count_unique_rows_table" [AStr s; AStr t; AStr key] in
    let unique_argument :=
      Call "count_unique_rows_table_argument" [AStr s; AStr t; AStr k; AStr a] in
    let found :=
      Call "count_found_rows_table" [AStr s; AStr t; AStr k; AStr ft; AStr fk] in
    needs_first_rows (row_unique_check self s t k)
      (count_unique_rows_table self s t k) (count_object_rows_table self s t)
      ("Executing : Row unique check for table: |  " ++ t ++ " ")
      (unique k) (Call "count_object_rows_table" [AStr s; AStr t]) st /\
    needs_first_rows (row_unique_check_argument self s t k a)
      (count_unique_rows_table self s t k)
      (count_object_rows_table_argument self s t a)
      ("Executing : Row unique check for table: |  " ++ t ++ " ")
      (unique k) (Call "count_object_rows_table_argument" [AStr s; AStr t; AStr a])
      st /\
    needs_first_rows (dimensional_integrity_check_found self s t k ft fk)
      (count_found_rows_table self s t k ft fk)
      (count_unique_rows_table self s t k)
      (integrity_log t ft) found (unique k) st /\
    needs_first_rows
      (dimensional_integrity_check_found_joinArgument self s t k ft fk a)
      (count_found_rows_table_argument self s t k ft fk a)
      (count_unique_rows_table self s t k)
      (integrity_log t ft)
      (Call "count_found_rows_table_argument"
         [AStr s; AStr t; AStr k; AStr ft; AStr fk; AStr a])
      (unique k) st /\
    needs_first_rows
      (dimensional_integrity_check_found_argument self s t k a ft fk)
      (count_found_rows_table self s t k ft fk)
      (count_unique_rows_table_argument self s t k a)
      (integrity_log t ft) found unique_argument st /\
    needs_first_rows
      (dimensional_integrity_check_found_withClause_argument self s t k a ft fk)
      (count_found_rows_table_withClause self s t k ft fk)
      (count_unique_rows_table_argument self s t k a)
      (integrity_log t ft)
      (Call "count_found_rows_table_withClause"
         [AStr s; AStr t; AStr k; AStr ft; AStr fk])
      unique_argument st /\
    needs_first_rows (dimensional_integrity_check_potential self s t k fk)
      (count_unique_rows_table self s t fk)
      (count_unique_rows_table self s t k)
      ("Executing : Dimensional integrity check: | " ++ t)
      (unique fk) (unique k) st /\
    (forall w1 : W,
        count_unique_rows_table self s t k (world st) = (Ok [], w1) ->
        outcome (value_variance_check self s t k field) st = Raise IndexError).
Proof.
  intros W self s t k a ft fk field st unique unique_argument found.
  subst unique unique_argument found.
  unfold needs_first_rows, emitted.
  repeat match goal with |- _ /\ _ => split end;
    try (intros rs1 rs2 w1 w2 H1 H2 H); try (intros w1 H1).
  - unfold row_unique_check. empty_first_rows H1 H2 H.
  - unfold row_unique_check_argument. empty_first_rows H1 H2 H.
  - unfold dimensional_integrity_check_found, compare_found_unique.
    empty_first_rows H1 H2 H.
  - unfold dimensional_integrity_check_found_joinArgument, compare_found_unique.
    empty_first_rows H1 H2 H.
  - unfold dimensional_integrity_check_found_argument, compare_found_unique.
    empty_first_rows H1 H2 H.
  - unfold dimensional_integrity_check_found_withClause_argument,
      compare_found_unique.
    empty_first_rows H1 H2 H.
  - unfold dimensional_integrity_check_potential, compare_found_unique.
    empty_first_rows H1 H2 H.
  - unfold value_variance_check. run_keyword. rewrite H1. reflexivity.
Qed.

Lemma empty_results_witness :
  count_unique_rows_table (Stub.answering 0 [] "x") "hr" "person" "id"
    (world Stub.start) = (Ok [], tt)
  /\ outcome (value_variance_check (Stub.answering 0 [] "x") "hr" "person" "id"
                (PStr "seven")) Stub.start = Raise IndexError.
Proof.
  split; [reflexivity|].
  apply (proj2 (proj2 (proj2 (proj2 (proj2 (proj2 (proj2
           (empty_results_raise_index_error _ (Stub.answering 0 [] "x")
              "hr" "person" "id" "x" "y" "z" (PStr "seven") Stub.start)))))))
           tt eq_refl).
Defined.

Lemma append_cancel_l (p a b : string) : p ++ a = p ++ b -> a = b.
Proof.
  induction p as [|c p IH]; cbn; [auto|]. intros [= H]. auto.
Qed.

Ltac judge_two H1 H2 Ha Hb :=
  run_keyword; rewrite H1; cbn [fst snd world trace]; rewrite H2;
  cbn [fst snd world trace scalar_of_first_row first_row rbind];
  rewrite Ha, Hb; cbn [fst snd world trace rbind];
  match goal with
  | |- context [?x =? ?y] =>
      destruct (Z.eqb_spec x y); cbn [negb fst snd world trace]
  end;
  (split; [trace_done|]);
  split; intros; try congruence; reflexivity.

(** X11: once the first rows of their two results are flattened to [a] and
    [b], [row_unique_check], [row_unique_check_argument] and the five
    [dimensional_integrity_check_*] keywords log a line that gives both
    numbers, whether the check then passes or fails; they pass iff the two
    numbers are equal.  In the two uniqueness checks and the four [found]
    checks the message of the [AssertionError] is the text of that line; in
    [dimensional_integrity_check_potential] the line says [found] where the
    message says [potential].  [row_unique_check_argument] hands its argument
    to the count of object rows only, [..._found_argument] and
    [..._found_withClause_argument] to the count of unique rows only, and
    [..._found_joinArgument] to the count of found rows only. *)
Theorem verdict_line_is_logged :
  forall (W : Type) (self : Collaborators W) (s t k a ft fk : string)
         (st : state W),
    let unique key := Call "count_unique_rows_table" [AStr s; AStr t; AStr key] in
    let unique_argument :=
      Call "count_unique_rows_table_argument" [AStr s; AStr t; AStr k; AStr a] in
    let found :=
      Call "count_found_rows_table" [AStr s; AStr t; AStr k; AStr ft; AStr fk] in
    let object_line u o := object_unique_message o k u in
    let found_line kind f u := unique_found_message k u kind fk f in
    logs_then_judges (row_unique_check self s t k)
      (count_unique_rows_table self s t k) (count_object_rows_table self s t)
      ("Executing : Row unique check for table: |  " ++ t ++ " ")
      (unique k) (Call "count_object_rows_table" [AStr s; AStr t])
      object_line object_line st /\
    logs_then_judges (row_unique_check_argument self s t k a)
      (count_unique_rows_table self s t k)
      (count_object_rows_table_argument self s t a)
      ("Executing : Row unique check for table: |  " ++ t ++ " ")
      (unique k) (Call "count_object_rows_table_argument" [AStr s; AStr t; AStr a])
      object_line object_line st /\
    logs_then_judges (dimensional_integrity_check_found self s t k ft fk)
      (count_found_rows_table self s t k ft fk)
      (count_unique_rows_table self s t k)
      (integrity_log t ft) found (unique k)
      (found_line "found") (found_line "found") st /\
    logs_then_judges
      (dimensional_integrity_check_found_joinArgument self s t k ft fk a)
      (count_found_rows_table_argument self s t k ft fk a)
      (count_unique_rows_table self s t k)
      (integrity_log t ft)
      (Call "count_found_rows_table_argument"
         [AStr s; AStr t; AStr k; AStr ft; AStr fk; AStr a])
      (unique k) (found_line "found") (found_line "found") st /\
    logs_then_judges
      (dimensional_integrity_check_found_argument self s t k a ft fk)
      (count_found_rows_table self s t k ft fk)
      (count_unique_rows_table_argument self s t k a)
      (integrity_log t ft) found unique_argument
      (found_line "found") (found_line "found") st /\
    logs_then_judges
      (dimensional_integrity_check_found_withClause_argument self s t k a ft fk)
      (count_found_rows_table_withClause self s t k ft fk)
      (count_unique_rows_table_argument self s t k a)
      (integrity_log t ft)
      (Call "count_found_rows_table_withClause"
         [AStr s; AStr t; AStr k; AStr ft; AStr fk])
      unique_argument (found_line "found") (found_line "found") st /\
    logs_then_judges (dimensional_integrity_check_potential self s t k fk)
      (count_unique_rows_table self s t fk)
      (count_unique_rows_table self s t k)
      ("Executing : Dimensional integrity check: | " ++ t)
      (unique fk) (unique k) (found_line "found") (found_line "potential") st /\
    (forall f u : Z,
        found_line "found" f u
        = "Unique rows '" ++ k ++ "': '" ++ str_of_Z u ++ "', found rows '" ++ fk
          ++ "': '" ++ str_of_Z f ++ "'" /\
        found_line "potential" f u
        = "Unique rows '" ++ k ++ "': '" ++ str_of_Z u ++ "', potential rows '"
          ++ fk ++ "': '" ++ str_of_Z f ++ "'" /\
        found_line "potential" f u <> found_line "found" f u /\
        object_line u f
        = "Object rows: '" ++ str_of_Z f ++ "', unique rows '" ++ k ++ "': '"
          ++ str_of_Z u ++ "'").
Proof.
  intros W self s t k a ft fk st unique unique_argument found object_line
    found_line.
  subst unique unique_argument found object_line found_line.
  unfold logs_then_judges, emitted.
  repeat match goal with |- _ /\ _ => split end;
    try (intros r1 r2 l1 l2 w1 w2 x y H1 H2 Ha Hb).
  - unfold row_unique_check. judge_two H1 H2 Ha Hb.
  - unfold row_unique_check_argument. judge_two H1 H2 Ha Hb.
  - unfold dimensional_integrity_check_found, compare_found_unique.
    judge_two H1 H2 Ha Hb.
  - unfold dimensional_integrity_check_found_joinArgument, compare_found_unique.
    judge_two H1 H2 Ha Hb.
  - unfold dimensional_integrity_check_found_argument, compare_found_unique.
    judge_two H1 H2 Ha Hb.
  - unfold dimensional_integrity_check_found_withClause_argument,
      compare_found_unique.
    judge_two H1 H2 Ha Hb.
  - unfold dimensional_integrity_check_potential, compare_found_unique.
    judge_two H1 H2 Ha Hb.
  - intros f u. unfold unique_found_message, object_unique_message.
    repeat match goal with |- _ /\ _ => split end; try reflexivity.
    intros E.
    repeat (apply append_cancel_l in E).
    cbn in E. discriminate E.
Qed.

Lemma verdict_line_witness :
  count_unique_rows_table Double.collaborators "hr" "person" "dept"
    (world Double.start) = (Ok [[PInt 3; PInt 14]], Double.person_db)
  /\ count_unique_rows_table Double.collaborators "hr" "person" "id"
       Double.person_db = (Ok [[PInt 10]], Double.person_db)
  /\ scalar_of_row [PInt 3; PInt 14] = Ok 3
  /\ scalar_of_row [PInt 10] = Ok 10
  /\ 3 <> 10
  /\ fails_with (dimensional_integrity_check_potential Double.collaborators
                   "hr" "person" "id" "dept") Double.start
       "Unique rows 'id': '10', potential rows 'dept': '3'".
Proof.
  assert (H1 : scalar_of_row [PInt 3; PInt 14] = Ok 3) by (vm_compute; reflexivity).
  assert (H2 : scalar_of_row [PInt 10] = Ok 10) by (vm_compute; reflexivity).
  split; [reflexivity|]. split; [reflexivity|]. split; [exact H1|].
  split; [exact H2|]. split; [discriminate|].
  apply (proj2 (proj2 (proj1 (proj2 (proj2 (proj2 (proj2 (proj2 (proj2
           (verdict_line_is_logged _ Double.collaborators "hr" "person" "id"
              "x" "y" "dept" Double.start)))))))
           _ _ _ _ _ _ 3 10 eq_refl eq_refl H1 H2))).
  discriminate.
Defined.

(** X12: [value_variance_check] converts its fourth argument only after the
    count is fetched and flattened: when [int(field)] raises, for [None], for
    a text that is no integer literal or for a float that is no finite number,
    that error comes out, the helper having been called with the schema, the
    table and the key and without the field.  A float is cut to its integer
    part: every [field] between 2.0 and 3.0 is the choice 2. *)
Theorem value_variance_field_errors :
  forall (W : Type) (self : Collaborators W) (s t k : string) (field : pyval)
         (st : state W) (rs : list row) (w1 : W) (u : Z),
    count_unique_rows_table self s t k (world st) = (Ok rs, w1) ->
    scalar_of_first_row rs = Ok u ->
    let kw := value_variance_check self s t k field in
    emitted kw st
      [LogInfo ("Executing : Values variance check: |  " ++ t ++ " ");
       Call "count_unique_rows_table" [AStr s; AStr t; AStr k]] /\
    (forall e : exn,
        py_int field = Raise e ->
        outcome kw st = Raise e /\
        (e = TypeError \/ e = ValueError \/ e = OverflowError)) /\
    (field = PNone -> outcome kw st = Raise TypeError) /\
    (forall (m : positive) (e : Z),
        field = PFloat (S754_finite false m e) ->
        e < 0 -> 2 * 2 ^ (- e) <= Zpos m < 3 * 2 ^ (- e) ->
        (passes kw st <-> 2 <= u)).
Proof.
  intros W self s t k field st rs w1 u Hrows Hu kw. subst kw.
  unfold value_variance_check, emitted. run_keyword. rewrite Hrows, Hu.
  cbn [fst snd world trace].
  repeat match goal with |- _ /\ _ => split end.
  - destruct (py_int field) as [f|e]; [|trace_done].
    cbn [fst snd world trace].
    destruct (f =? 0); [destruct (negb (u =? f)); trace_done|].
    destruct (f =? 1); [destruct (negb (u =? f)); trace_done|].
    destruct (f =? 2); [destruct (u <? f); trace_done | trace_done].
  - intros e He. rewrite He. split; [reflexivity|].
    destruct field as [| z | x | str]; cbn [py_int] in He.
    + inversion He. auto.
    + discriminate.
    + destruct x; cbn [trunc_float] in He; inversion He; auto.
    + apply parse_int_errors in He. auto.
  - intros ->. reflexivity.
  - intros m e -> He Hm. cbn [py_int trunc_float].
    destruct (Z.leb_spec 0 e); [lia|]. cbn [cond_opp].
    assert (Hp : 0 < 2 ^ (- e)) by (apply Z.pow_pos_nonneg; lia).
    assert (Hq : Zpos m / 2 ^ (- e) = 2).
    { symmetry. apply (Z.div_unique_pos _ _ 2 (Zpos m - 2 * 2 ^ (- e))); lia. }
    rewrite Hq. cbn [fst snd world trace Z.eqb].
    destruct (Z.ltb_spec u 2); cbn [fst]; split; intros; try lia;
      try discriminate; reflexivity.
Qed.

Lemma value_variance_field_witness :
  count_unique_rows_table Double.collaborators "hr" "person" "id"
    (world Double.start) = (Ok [[PInt 10]], Double.person_db)
  /\ scalar_of_first_row [[PInt 10]] = Ok 10
  /\ py_int (PStr "1.0") = Raise ValueError
  /\ outcome (value_variance_check Double.collaborators "hr" "person" "id"
                (PStr "1.0")) Double.start = Raise ValueError.
Proof.
  assert (H : scalar_of_first_row [[PInt 10]] = Ok 10) by (vm_compute; reflexivity).
  split; [reflexivity|]. split; [exact H|]. split; [reflexivity|].
  apply (proj1 (proj2 (value_variance_field_errors _ Double.collaborators
                         "hr" "person" "id" (PStr "1.0") Double.start
                         [[PInt 10]] Double.person_db 10 eq_refl H))
           ValueError eq_refl).
Defined.

(** *** The conversions (X13 to X15) *)

Lemma ascii_space (c : ascii) : is_ascii c = true -> is_py_space c = is_c_space c.
Proof.
  unfold is_ascii, is_py_space. intros H. apply N.ltb_lt in H.
  destruct (N.eqb_spec (code c) 133); [lia|].
  destruct (N.eqb_spec (code c) 160); [lia|].
  now rewrite !orb_false_r.
Qed.

Lemma c_space_ascii (c : ascii) : is_c_space c = true -> is_ascii c = true.
Proof.
  unfold is_c_space, is_ascii. intros H. apply N.ltb_lt.
  apply orb_true_iff in H. destruct H as [H|H].
  - apply andb_true_iff in H. destruct H as [_ H]. apply N.leb_le in H. lia.
  - apply N.eqb_eq in H. lia.
Qed.

Lemma drop_while_ext (p q : ascii -> bool) (l : list ascii) :
  (forall c, In c l -> p c = q c) -> drop_while p l = drop_while q l.
Proof.
  induction l as [|c l IH]; intros H; cbn [drop_while]; [reflexivity|].
  rewrite <- (H c (or_introl eq_refl)).
  destruct (p c); [|reflexivity]. apply IH. intros d Hd. apply H. now right.
Qed.

Lemma drop_while_keeps (P p : ascii -> bool) (l : list ascii) :
  forallb P l = true -> forallb P (drop_while p l) = true.
Proof.
  induction l as [|c l IH]; intros H; cbn [drop_while]; [reflexivity|].
  destruct (p c); [|assumption].
  cbn [forallb] in H. apply andb_true_iff in H. now apply IH.
Qed.

Lemma drop_while_all (p : ascii -> bool) (l : list ascii) :
  forallb p l = true -> drop_while p l = [].
Proof.
  induction l as [|c l IH]; intros H; cbn [drop_while]; [reflexivity|].
  cbn [forallb] in H. apply andb_true_iff in H. destruct H as [-> H]. auto.
Qed.

Lemma drop_while_app (p : ascii -> bool) (l x : list ascii) :
  forallb p l = true -> drop_while p (l ++ x) = drop_while p x.
Proof.
  induction l as [|c l IH]; intros H; cbn [drop_while app]; [reflexivity|].
  cbn [forallb] in H. apply andb_true_iff in H. destruct H as [-> H]. auto.
Qed.

Lemma split_sign_keeps (P : ascii -> bool) (l : list ascii) :
  forallb P l = true -> forallb P (snd (split_sign l)) = true.
Proof.
  intros H. unfold split_sign.
  destruct l as [|c l]; [reflexivity|].
  cbn [forallb] in H. apply andb_true_iff in H. destruct H as [Hc Hl].
  destruct c as [[] [] [] [] [] [] [] []]; cbn [snd forallb];
    try assumption; now rewrite Hc.
Qed.

Lemma scan_int_keeps (P : ascii -> bool) (s : list ascii) :
  forall (prev : bool) (acc n : Z) (rest : list ascii),
    scan_int prev acc s = Some (n, rest) ->
    forallb P s = true -> forallb P rest = true.
Proof.
  induction s as [|c s IH]; intros prev acc n rest H HP; cbn [scan_int] in H.
  - destruct prev; [discriminate|]. now inversion H.
  - pose proof HP as HP'. cbn [forallb] in HP'.
    apply andb_true_iff in HP'. destruct HP' as [_ Hs].
    destruct (is_digit c); [now apply (IH _ _ _ _ H)|].
    destruct (is_underscore c).
    + destruct prev; [discriminate|]. now apply (IH _ _ _ _ H).
    + destruct prev; [discriminate|]. now inversion H.
Qed.

(** On a text of ASCII characters the white space of byte strings and the
    white space of strings are the same, and [int] reads the two alike. *)
Lemma parse_int_ascii (l : list ascii) :
  forallb is_ascii l = true -> parse_int is_c_space l = parse_int is_py_space l.
Proof.
  intros H. unfold parse_int.
  assert (Hext : forall x, forallb is_ascii x = true ->
                           drop_while is_c_space x = drop_while is_py_space x).
  { intros x Hx. apply drop_while_ext. intros c Hc. symmetry. apply ascii_space.
    rewrite forallb_forall in Hx. now apply Hx. }
  rewrite <- (Hext l H).
  pose proof (split_sign_keeps is_ascii _ (drop_while_keeps is_ascii is_c_space l H))
    as H2.
  destruct (split_sign (drop_while is_c_space l)) as [neg s2]. cbn [snd] in H2.
  destruct s2 as [|c s2]; [reflexivity|].
  destruct (is_digit c); [|reflexivity].
  destruct (scan_int false 0 (c :: s2)) as [[n rest]|] eqn:E; [|reflexivity].
  rewrite <- (Hext rest (scan_int_keeps is_ascii _ _ _ _ _ E H2)). reflexivity.
Qed.

Lemma scan_int_end (acc : Z) (r : list ascii) :
  ends_digits r -> scan_int false acc r = Some (acc, r).
Proof.
  destruct r as [|c r]; [reflexivity|]. intros [H1 H2].
  cbn [scan_int]. now rewrite H1, H2.
Qed.

Lemma scan_int_acc_then (d : Decimal.uint) (p : positive) (r : list ascii) :
  ends_digits r ->
  scan_int false (Zpos p) (chars (NilEmpty.string_of_uint d) ++ r)
  = Some (Zpos (Pos.of_uint_acc d p), r).
Proof.
  intros Hr. revert p. induction d; intros p;
    cbn [NilEmpty.string_of_uint list_ascii_of_string Pos.of_uint_acc app];
    [now apply scan_int_end | ..];
    rewrite scan_int_digit by reflexivity;
    match goal with
    | |- scan_int false ?a _ = Some (Zpos (Pos.of_uint_acc _ ?q), _) =>
        replace a with (Zpos q)
          by (unfold digit_val, code;
              match goal with
              | |- context [N_of_ascii ?c] =>
                  let v := eval cbv in (N_of_ascii c) in
                  change (N_of_ascii c) with v
              end; lia)
    end; apply IHd.
Qed.

Lemma scan_int_uint_then (d : Decimal.uint) (r : list ascii) :
  ends_digits r ->
  scan_int false 0 (chars (NilEmpty.string_of_uint d) ++ r)
  = Some (Z.of_N (Pos.of_uint d), r).
Proof.
  intros Hr. induction d;
    cbn [NilEmpty.string_of_uint list_ascii_of_string Pos.of_uint app];
    [now apply scan_int_end | ..];
    rewrite scan_int_digit by reflexivity;
    [exact IHd | ..]; now apply scan_int_acc_then.
Qed.

Lemma spaces_end_digits (r : list ascii) :
  forallb is_c_space r = true -> ends_digits r.
Proof.
  destruct r as [|c r]; [exact (fun _ => I)|]. cbn [forallb ends_digits].
  intros H. apply andb_true_iff in H. destruct H as [H _].
  destruct c as [[] [] [] [] [] [] [] []]; try discriminate H; split; reflexivity.
Qed.

(** [int] on the digits of [d], after white space and a sign [sg] and before
    white space. *)
Lemma parse_int_padded (d : Decimal.uint) (l r sg : list ascii) (neg : bool) :
  d <> Decimal.Nil ->
  forallb is_c_space l = true -> forallb is_c_space r = true ->
  (sg = [] /\ neg = false \/ sg = ["+"%char] /\ neg = false
   \/ sg = ["-"%char] /\ neg = true) ->
  parse_int is_c_space (l ++ sg ++ chars (NilEmpty.string_of_uint d) ++ r)
  = if max_str_digits <? digits_len d then Raise ValueError
    else Ok (if neg then - Z.of_uint d else Z.of_uint d).
Proof.
  intros Hd Hl Hr Hsg. unfold parse_int.
  rewrite (drop_while_app is_c_space l _ Hl).
  destruct (head_uint is_c_space d c_space_digit Hd)
    as (c & s & E & Hc & Hs & Hsign).
  pose proof (scan_int_uint_then d r (spaces_end_digits r Hr)) as Hscan.
  pose proof (numeral_digits_uint d r (spaces_end_digits r Hr)) as Hnum.
  rewrite E in *. cbn [app] in Hscan, Hnum.
  destruct Hsg as [[-> ->] | [[-> ->] | [-> ->]]]; cbn [app drop_while].
  - rewrite Hs. cbn [app] in Hsign.
    assert (Hsign' : split_sign (c :: (s ++ r)%list) = (false, c :: (s ++ r)%list)).
    { destruct c as [[] [] [] [] [] [] [] []]; try discriminate Hc; reflexivity. }
    rewrite Hsign', Hc, Hscan, Hnum, (drop_while_all _ _ Hr). reflexivity.
  - change (is_c_space "+") with false. cbn [split_sign].
    rewrite Hc, Hscan, Hnum, (drop_while_all _ _ Hr). reflexivity.
  - change (is_c_space "-") with false. cbn [split_sign].
    rewrite Hc, Hscan, Hnum, (drop_while_all _ _ Hr). reflexivity.
Qed.

Lemma forallb_chars_app (P : ascii -> bool) (a b : string) :
  forallb P (chars (a ++ b)) = forallb P (chars a) && forallb P (chars b).
Proof. rewrite chars_app. apply forallb_app. Qed.

Lemma spaces_ascii (l : list ascii) :
  forallb is_c_space l = true -> forallb is_ascii l = true.
Proof.
  rewrite !forallb_forall. intros H c Hc. apply c_space_ascii. now apply H.
Qed.

(** X13: what the coercion [int(numRows.encode('ascii'))] of the row-count
    keywords makes of its argument.  A value that is no text, an [int] or a
    [float] included, raises an [AttributeError]; a text with a character
    outside ASCII raises a [UnicodeEncodeError], also when the character is a
    blank that [int] would skip; on a text of ASCII characters the coercion is
    [int] of the text.  The decimal text of an integer of at most
    [max_str_digits] digits is read with white space before and after it, and
    with a plus sign when it is not negative; the text of an integer of more
    digits raises a [ValueError]. *)
Theorem coerce_count_by_argument :
  (forall v : pyval,
      (forall s, v <> PStr s) -> coerce_count v = Raise AttributeError) /\
  (forall (s : string) (c : ascii),
      In c (chars s) -> (128 <= code c)%N ->
      coerce_count (PStr s) = Raise UnicodeEncodeError) /\
  (forall s : string,
      forallb is_ascii (chars s) = true ->
      coerce_count (PStr s) = py_int (PStr s)) /\
  (forall (z : Z) (l r : string),
      forallb is_c_space (chars l) = true ->
      forallb is_c_space (chars r) = true ->
      (decimal_digits z <= max_str_digits ->
       coerce_count (PStr (l ++ str_of_Z z ++ r)) = Ok z /\
       (0 <= z -> coerce_count (PStr (l ++ "+" ++ str_of_Z z ++ r)) = Ok z)) /\
      (max_str_digits < decimal_digits z ->
       coerce_count (PStr (l ++ str_of_Z z ++ r)) = Raise ValueError)).
Proof.
  repeat match goal with |- _ /\ _ => split end.
  - intros [| z | x | s] H; try reflexivity. now destruct (H s).
  - intros s c Hc Hcode. unfold coerce_count, encode_ascii.
    destruct (forallb is_ascii (chars s)) eqn:E; [|reflexivity].
    rewrite forallb_forall in E. specialize (E c Hc).
    unfold is_ascii in E. apply N.ltb_lt in E. lia.
  - intros s H. unfold coerce_count, encode_ascii. rewrite H.
    cbn [rbind py_int]. apply parse_int_ascii. assumption.
  - intros z l r Hl Hr.
    destruct (str_of_Z_digits z) as (d & Hd & -> & Hv & Hlen).
    rewrite Hlen.
    unfold coerce_count, encode_ascii.
    assert (Hdig : forallb is_ascii (chars (NilEmpty.string_of_uint d)) = true)
      by apply ascii_uint.
    pose proof (fun sg neg H =>
                  parse_int_padded d (chars l) (chars r) sg neg Hd Hl Hr H) as HP.
    assert (Hplain :
              rbind (if forallb is_ascii
                          (chars (l ++ ((if z <? 0 then "-" else EmptyString)
                                        ++ NilEmpty.string_of_uint d) ++ r))
                     then Ok (chars (l ++ ((if z <? 0 then "-" else EmptyString)
                                           ++ NilEmpty.string_of_uint d) ++ r))
                     else Raise UnicodeEncodeError) int_of_bytes
              = if max_str_digits <? digits_len d then Raise ValueError
                else Ok z).
    { rewrite !forallb_chars_app, (spaces_ascii _ Hl), (spaces_ascii _ Hr), Hdig.
      destruct (z <? 0) eqn:Hlt;
        cbn [andb rbind list_ascii_of_string forallb]; unfold int_of_bytes;
        rewrite !chars_app; cbn [list_ascii_of_string app].
      - apply Z.ltb_lt in Hlt.
        specialize (HP ["-"%char] true ltac:(auto)). cbn [app] in HP.
        change (is_ascii "-") with true. cbn [andb rbind].
        rewrite HP. destruct (max_str_digits <? digits_len d); [reflexivity|].
        f_equal. lia.
      - apply Z.ltb_ge in Hlt.
        specialize (HP [] false ltac:(auto)). cbn [app] in HP.
        rewrite HP. destruct (max_str_digits <? digits_len d); [reflexivity|].
        f_equal. lia. }
    split; [intros Hfit; split|intros Hlong].
    + rewrite Hplain. destruct (Z.ltb_spec max_str_digits (digits_len d));
        [lia | reflexivity].
    + intros Hz. destruct (Z.ltb_spec z 0); [lia|].
      rewrite !forallb_chars_app, (spaces_ascii _ Hl), (spaces_ascii _ Hr), Hdig.
      cbn [andb rbind list_ascii_of_string forallb]. unfold int_of_bytes.
      rewrite !chars_app. cbn [list_ascii_of_string app].
      specialize (HP ["+"%char] false ltac:(auto)). cbn [app] in HP.
      change (is_ascii "+") with true. cbn [andb rbind].
      rewrite HP. destruct (Z.ltb_spec max_str_digits (digits_len d)); [lia|].
      f_equal. lia.
    + rewrite Hplain. destruct (Z.ltb_spec max_str_digits (digits_len d));
        [reflexivity | lia].
Qed.

Lemma coerce_count_by_argument_witness :
  forallb is_c_space (chars " ") = true
  /\ decimal_digits 12 <= max_str_digits
  /\ coerce_count (PStr (" " ++ str_of_Z 12 ++ " ")) = Ok 12
  /\ coerce_count (PStr " +12 ") = Ok 12
  /\ coerce_count (PFloat (float_of_Z 12)) = Raise AttributeError.
Proof.
  assert (Hfit : decimal_digits 12 <= max_str_digits)
    by (vm_compute; discriminate).
  split; [reflexivity|]. split; [exact Hfit|].
  split; [|split].
  - exact (proj1 (proj1 (proj2 (proj2 (proj2 coerce_count_by_argument)) 12 " " " "
                           eq_refl eq_refl) Hfit)).
  - apply (proj2 (proj1 (proj2 (proj2 (proj2 coerce_count_by_argument)) 12 " " " "
                           eq_refl eq_refl) Hfit)).
    lia.
  - apply (proj1 coerce_count_by_argument). discriminate.
Defined.

Lemma scan_digits_keeps (P : ascii -> bool) (s : list ascii) :
  (forall c, is_digit c = true -> P c = true) ->
  forall acc n, forallb P (snd (scan_digits acc n s)) = true -> forallb P s = true.
Proof.
  intros HP. induction s as [|c s IH]; intros acc n H; [reflexivity|].
  cbn [scan_digits] in H. destruct (is_digit c) eqn:Hc; [|exact H].
  cbn [forallb]. rewrite (HP c Hc). cbn [andb]. now apply (IH _ _ H).
Qed.

Lemma split_sign_float (s : list ascii) :
  forallb float_char (snd (split_sign s)) = true -> forallb float_char s = true.
Proof.
  unfold split_sign. destruct s as [|c s]; [auto|].
  destruct c as [[] [] [] [] [] [] [] []]; cbn [snd]; auto;
    intros H; cbn [forallb]; rewrite H; reflexivity.
Qed.

Lemma digit_float_char (c : ascii) : is_digit c = true -> float_char c = true.
Proof. intros H. unfold float_char. now rewrite H. Qed.

Lemma lower_prefix_float (p s rest : list ascii) :
  (forall a, In a p -> existsb (Ascii.eqb a) (chars "+-.einftya") = true) ->
  lower_prefix p s = Some rest ->
  forallb float_char rest = true -> forallb float_char s = true.
Proof.
  revert s. induction p as [|a p IH]; intros s Hp H Hrest; cbn [lower_prefix] in H.
  - now inversion H.
  - destruct s as [|c s]; [discriminate|].
    destruct (Ascii.eqb_spec a (to_lower c)) as [E|]; [|discriminate].
    cbn [forallb]. rewrite (IH s (fun x Hx => Hp x (or_intror Hx)) H Hrest).
    rewrite andb_true_r. unfold float_char. rewrite <- E.
    rewrite (Hp a (or_introl eq_refl)). now rewrite !orb_true_r.
Qed.

Lemma parse_inf_or_nan_float (s rest : list ascii) (x : spec_float) :
  parse_inf_or_nan s = Some (x, rest) ->
  forallb float_char rest = true -> forallb float_char s = true.
Proof.
  unfold parse_inf_or_nan. intros H Hrest.
  assert (Hletters : forall p, In p [chars "inf"; chars "inity"; chars "nan"] ->
            forall a, In a p -> existsb (Ascii.eqb a) (chars "+-.einftya") = true).
  { intros p Hp a Ha. cbn in Hp.
    destruct Hp as [<- | [<- | [<- | []]]]; cbn in Ha;
      repeat (destruct Ha as [<- | Ha]; [reflexivity|]); destruct Ha. }
  destruct (lower_prefix (chars "inf") s) as [r1|] eqn:E1.
  - apply (lower_prefix_float _ _ _ (Hletters _ (or_introl eq_refl)) E1).
    destruct (lower_prefix (chars "inity") r1) as [r2|] eqn:E2.
    + inversion H; subst.
      apply (lower_prefix_float _ _ _
               (Hletters _ (or_intror (or_introl eq_refl))) E2 Hrest).
    + now inversion H; subst.
  - destruct (lower_prefix (chars "nan") s) as [r1|] eqn:E2; [|discriminate].
    inversion H; subst.
    apply (lower_prefix_float _ _ _
             (Hletters _ (or_intror (or_intror (or_introl eq_refl)))) E2 Hrest).
Qed.

Lemma scan_exponent_float (s : list ascii) :
  forallb float_char (snd (scan_exponent s)) = true -> forallb float_char s = true.
Proof.
  unfold scan_exponent. destruct s as [|c s]; [auto|].
  destruct (N.eqb_spec (code (to_lower c)) 101) as [E|]; [|auto].
  destruct (split_sign s) as [neg s2] eqn:Es.
  destruct (scan_digits 0 0 s2) as [[ev en] rest] eqn:Ed.
  destruct (en =? 0); [auto|]. cbn [snd]. intros H.
  cbn [forallb]. apply andb_true_iff. split.
  - unfold float_char.
    assert (El : to_lower c = "e"%char).
    { unfold code in E. rewrite <- (ascii_N_embedding (to_lower c)), E. reflexivity. }
    rewrite El. now rewrite !orb_true_r.
  - apply split_sign_float. rewrite Es. cbn [snd].
    apply (scan_digits_keeps float_char s2 digit_float_char 0 0).
    now rewrite Ed.
Qed.

Lemma strtod_float (s rest : list ascii) (x : spec_float) :
  strtod s = Some (x, rest) ->
  forallb float_char rest = true -> forallb float_char s = true.
Proof.
  unfold strtod. intros H Hrest. apply split_sign_float.
  destruct (split_sign s) as [neg s1]. cbn [snd].
  pose proof (scan_digits_keeps float_char s1 digit_float_char 0 0) as H1.
  destruct (scan_digits 0 0 s1) as [[iv inum] s2]. cbn [snd] in H1.
  assert (H3 : forall mv fnum s3,
             match s2 with
             | "."%char :: s2' =>
                 let '(v, n, r) := scan_digits iv 0 s2' in (v, n, r)
             | _ => (iv, 0, s2)
             end = (mv, fnum, s3) ->
             forallb float_char s3 = true -> forallb float_char s2 = true).
  { intros mv fnum s3 E Hs3.
    destruct s2 as [|c s2']; [now inversion E; subst|].
    destruct (Ascii.eqb_spec c "."%char) as [->|Hc].
    - pose proof (scan_digits_keeps float_char s2' digit_float_char iv 0) as H2.
      destruct (scan_digits iv 0 s2') as [[v n] r]. inversion E; subst.
      cbn [forallb]. now rewrite (H2 Hs3).
    - assert (E' : (iv, 0, c :: s2') = (mv, fnum, s3)).
      { destruct c as [[] [] [] [] [] [] [] []]; try exact E. now destruct Hc. }
      now inversion E'; subst. }
  destruct (match s2 with
            | "."%char :: s2' =>
                let '(v, n, r) := scan_digits iv 0 s2' in (v, n, r)
            | _ => (iv, 0, s2)
            end) as [[mv fnum] s3] eqn:E3.
  specialize (H3 mv fnum s3 eq_refl).
  destruct (inum + fnum =? 0).
  - destruct (parse_inf_or_nan s1) as [[y r]|] eqn:Ep; [|discriminate].
    inversion H; subst. now apply (parse_inf_or_nan_float _ _ _ Ep).
  - pose proof (scan_exponent_float s3) as H4.
    destruct (scan_exponent s3) as [ev r]. inversion H; subst.
    cbn [snd] in H4. auto.
Qed.

Lemma remove_underscores_float (s : list ascii) :
  forall (prev : option ascii) (s' : list ascii),
    remove_underscores prev s = Some s' ->
    forallb float_char s' = true -> forallb float_char s = true.
Proof.
  induction s as [|c s IH]; intros prev s' H Hs'; [reflexivity|].
  cbn [remove_underscores] in H. cbn [forallb].
  destruct (is_underscore c) eqn:Hc.
  - assert (Hf : float_char c = true)
      by (unfold float_char; rewrite Hc; now rewrite !orb_true_r).
    rewrite Hf. cbn [andb].
    destruct prev as [p|]; [|discriminate].
    destruct (is_digit p); [|discriminate]. now apply (IH _ _ H).
  - assert (Hrec : forall r, option_map (cons c) (remove_underscores (Some c) s)
                             = Some r ->
                             forallb float_char r = true ->
                             float_char c && forallb float_char s = true).
    { intros r Hr Hfr.
      destruct (remove_underscores (Some c) s) as [t|] eqn:Et; [|discriminate].
      inversion Hr; subst. cbn [forallb] in Hfr.
      apply andb_true_iff in Hfr. destruct Hfr as [-> Ht]. cbn [andb].
      now apply (IH _ _ Et). }
    destruct prev as [p|]; [|now apply (Hrec s')].
    destruct (is_underscore p && negb (is_digit c)); [discriminate|].
    now apply (Hrec s').
Qed.

Lemma drop_while_float (s : list ascii) :
  forallb float_char (drop_while is_py_space s) = true ->
  forallb float_char s = true.
Proof.
  induction s as [|c s IH]; [auto|]. cbn [drop_while forallb].
  destruct (is_py_space c) eqn:Hc; [|auto]. intros H.
  rewrite (IH H), andb_true_r. unfold float_char. rewrite Hc.
  now rewrite orb_true_r.
Qed.

Lemma forallb_rev (P : ascii -> bool) (s : list ascii) :
  forallb P (rev s) = forallb P s.
Proof.
  destruct (forallb P s) eqn:E.
  - rewrite forallb_forall in *. intros c Hc. apply E. now apply in_rev.
  - destruct (forallb P (rev s)) eqn:E'; [|reflexivity].
    rewrite <- E. symmetry. rewrite forallb_forall in *.
    intros c Hc. apply E'. now apply in_rev in Hc.
Qed.

(** A text that [float] accepts holds only the characters of numbers. *)
Lemma parse_float_chars (s : list ascii) (x : spec_float) :
  parse_float s = Ok x -> forallb float_char s = true.
Proof.
  unfold parse_float, strip. intros H.
  destruct (remove_underscores None _) as [s'|] eqn:Eu; [|discriminate].
  destruct (strtod s') as [[y rest]|] eqn:Es; [|discriminate].
  destruct rest; [|discriminate].
  pose proof (strtod_float _ _ _ Es eq_refl) as H1.
  pose proof (remove_underscores_float _ _ _ Eu H1) as H2.
  rewrite forallb_rev in H2. apply drop_while_float in H2.
  rewrite forallb_rev in H2. now apply drop_while_float in H2.
Qed.

Lemma parse_float_errors (s : list ascii) (e : exn) :
  parse_float s = Raise e -> e = ValueError.
Proof.
  unfold parse_float.
  destruct (remove_underscores None _) as [s'|]; [|now intros [=]].
  destruct (strtod s') as [[y rest]|]; [|now intros [=]].
  destruct rest; [discriminate | now intros [=]].
Qed.

Lemma in_concat (sep x : string) (l : list string) (c : ascii) :
  In x l -> In c (chars x) -> In c (chars (String.concat sep l)).
Proof.
  induction l as [|y l IH]; [contradiction|]. intros Hx Hc.
  cbn [String.concat]. destruct l as [|y' l].
  - destruct Hx as [-> | []]. assumption.
  - rewrite !chars_app. apply in_or_app. destruct Hx as [-> | Hx]; [now left|].
    right. apply in_or_app. right. now apply IH.
Qed.

(** X14: the flattening accepts only what [float] accepts: a row in which some
    column's text holds a character that no number holds, a letter outside
    [inf], [infinity], [nan] and the exponent [e], a colon, a slash, raises a
    [ValueError].  So does every row with a [None] in any column, the value of
    a NULL. *)
Theorem foreign_text_is_value_error :
  (forall (r : row) (v : pyval) (c : ascii),
      In v r -> In c (chars (py_str v)) -> float_char c = false ->
      scalar_of_row r = Raise ValueError) /\
  (forall r : row, In PNone r -> scalar_of_row r = Raise ValueError) /\
  (forall (r : row) (e : exn),
      scalar_of_row r = Raise e ->
      e = ValueError \/ e = OverflowError).
Proof.
  assert (H : forall (r : row) (v : pyval) (c : ascii),
             In v r -> In c (chars (py_str v)) -> float_char c = false ->
             scalar_of_row r = Raise ValueError).
  { intros r v c Hv Hc Hf. unfold scalar_of_row, join. cbn [py_float].
    destruct (parse_float _) as [x|e] eqn:E.
    - apply parse_float_chars in E. rewrite forallb_forall in E.
      rewrite (E c) in Hf; [discriminate|].
      apply (in_concat "." (py_str v)); [|assumption].
      now apply in_map.
    - now rewrite (parse_float_errors _ _ E). }
  split; [exact H|]. split.
  - intros r Hr. apply (H r PNone "o"%char Hr); [|reflexivity].
    cbn. auto.
  - intros r e. unfold scalar_of_row, join. cbn [py_float].
    destruct (parse_float _) as [x|e'] eqn:E; cbn [rbind].
    + destruct x; cbn [py_round]; intros [=]; auto.
    + intros [= <-]. left. apply (parse_float_errors _ _ E).
Qed.

Lemma foreign_text_witness :
  In (PStr "2024-01-31T10:00") [PInt 1; PStr "2024-01-31T10:00"]
  /\ In ":"%char (chars (py_str (PStr "2024-01-31T10:00")))
  /\ float_char ":"%char = false
  /\ scalar_of_row [PInt 1; PStr "2024-01-31T10:00"] = Raise ValueError.
Proof.
  assert (H1 : In (PStr "2024-01-31T10:00") [PInt 1; PStr "2024-01-31T10:00"])
    by (right; left; reflexivity).
  assert (H2 : In ":"%char (chars (py_str (PStr "2024-01-31T10:00"))))
    by (cbn; tauto).
  split; [exact H1|]. split; [exact H2|]. split; [reflexivity|].
  apply (proj1 foreign_text_is_value_error _ _ _ H1 H2 eq_refl).
Defined.

(** *** The threshold check (X15) *)

(** The order of [SFcompare] is transitive, on every pair of floats. *)
Lemma SFltb_trans (x y z : spec_float) :
  SFltb x y = true -> SFltb y z = true -> SFltb x z = true.
Proof.
  unfold SFltb.
  destruct x as [sx | sx | | sx mx ex], y as [sy | sy | | sy my ey],
    z as [sz | sz | | sz mz ez];
    cbn [SFcompare];
    try discriminate;
    try (destruct sx; discriminate);
    try (destruct sy; discriminate);
    try (destruct sz; discriminate);
    try (destruct sx, sy; discriminate);
    try (destruct sy, sz; discriminate);
    try (destruct sx, sy, sz; (discriminate || reflexivity)).
  destruct sx, sy, sz; try discriminate; try reflexivity;
    destruct (Z.compare_spec ex ey), (Z.compare_spec ey ez),
      (Z.compare_spec ex ez); try discriminate; try reflexivity; try lia;
    subst;
    change (Pos.compare_cont Eq) with Pos.compare;
    destruct (Pos.compare_spec mx my), (Pos.compare_spec my mz),
      (Pos.compare_spec mx mz); cbn [CompOpp]; try discriminate;
    try reflexivity; try lia; subst; lia.
Qed.

Lemma div_eucl_exact (q b : Z) : b <> 0 -> Z.div_eucl (q * b) b = (q, 0).
Proof.
  intros Hb. pose proof (Z.div_mul q b Hb) as Hd.
  pose proof (Z.mod_mul q b Hb) as Hm.
  unfold Z.div, Z.modulo in *. destruct (Z.div_eucl (q * b) b). now subst.
Qed.

(** A count divided by itself is the float 1.0. *)
Lemma py_truediv_self (p : positive) :
  py_truediv (Zpos p) (Zpos p) = Ok (S754_finite false 4503599627370496 (-52)).
Proof.
  unfold py_truediv. cbn [Z.abs Z.to_pos Z.ltb Z.compare SFdiv xorb].
  unfold SFdiv_core_binary.
  replace (Zdigits2 (Zpos p) + 0 - (Zdigits2 (Zpos p) + 0)) with 0 by lia.
  change (Z.min (fexp prec emax 0) (0 - 0)) with (-53).
  change (0 - 0 - -53) with 53.
  cbv iota. rewrite Z.shiftl_mul_pow2 by lia.
  rewrite (Z.mul_comm (Zpos p)), div_eucl_exact by lia.
  assert (Hloc : new_location (Zpos p) 0 = loc_Exact).
  { unfold new_location. destruct (Z.even (Zpos p)); reflexivity. }
  rewrite Hloc. vm_compute. reflexivity.
Qed.

(** X15: [count_empty_column_value_percentage] logs nothing and reads its
    threshold last: a threshold that [float] refuses raises that error only
    after the two counts are fetched.  For a table of [total > 0] rows of
    which [nulls] have no value: a check that passes against one threshold
    passes against every greater one; a threshold that is not a number
    ([nan]) never fails; and with [nulls = 0] the check passes against every
    threshold that is not below zero; with [nulls = total] the percentage is
    100.0, and the check fails iff the threshold is below 100.0. *)
Theorem empty_percentage_by_threshold :
  forall (W : Type) (self : Collaborators W) (s t c : string) (st : state W)
         (total nulls : Z) (w1 w2 : W),
    row_count self (query_total s t) None (world st) = (Ok total, w1) ->
    row_count self (query_column s t c) None w1 = (Ok nulls, w2) ->
    0 < total ->
    0 <= nulls <= total ->
    let kw p := count_empty_column_value_percentage self s t c p in
    (forall (p : pyval) (e : exn),
        py_float p = Raise e ->
        outcome (kw p) st = Raise e /\
        emitted (kw p) st [Call "row_count" [AStr (query_total s t)];
                           Call "row_count" [AStr (query_column s t c)]]) /\
    (forall (p1 p2 : pyval) (t1 t2 : spec_float),
        py_float p1 = Ok t1 -> py_float p2 = Ok t2 -> SFltb t1 t2 = true ->
        passes (kw p1) st -> passes (kw p2) st) /\
    (forall p : pyval, py_float p = Ok S754_nan -> passes (kw p) st) /\
    (nulls = 0 ->
     forall (p : pyval) (th : spec_float),
       py_float p = Ok th ->
       (passes (kw p) st <-> SFltb th (S754_zero false) = false)) /\
    (nulls = total ->
     forall (p : pyval) (th : spec_float),
       py_float p = Ok th ->
       (passes (kw p) st <-> SFltb th (float_of_Z 100) = false) /\
       (SFltb th (float_of_Z 100) = true ->
        fails_with (kw p) st
          ("Percentage of EMPTY columns is '100.0' is higher than allow percentage '"
           ++ py_str p ++ "'"))).
Proof.
  intros W self s t c st total nulls w1 w2 H1 H2 Htotal Hnulls kw. subst kw.
  destruct (py_truediv_fraction nulls total Htotal Hnulls) as [q Hq].
  assert (Hrun : forall p,
             count_empty_column_value_percentage self s t c p st
             = (rbind (py_float p)
                  (fun th =>
                     if py_fgt (py_fmul q (float_of_Z 100)) th
                     then Raise (AssertionError
                            ("Percentage of EMPTY columns is '"
                             ++ float_repr (py_fmul q (float_of_Z 100))
                             ++ "' is higher than allow percentage '"
                             ++ py_str p ++ "'"))
                     else Ok tt),
                {| world := w2;
                   trace := (trace st
                             ++ [Call "row_count" [AStr (query_total s t)]])
                            ++ [Call "row_count" [AStr (query_column s t c)]] |})).
  { intros p. unfold count_empty_column_value_percentage. run_keyword.
    rewrite H1. cbn [fst snd world trace]. rewrite H2, Hq.
    cbn [fst snd world trace].
    destruct (py_float p) as [th|e]; cbn [rbind]; [|reflexivity].
    destruct (py_fgt _ th); reflexivity. }
  unfold passes, fails_with, outcome, emitted, final.
  repeat match goal with |- _ /\ _ => split end.
  - intros p e He. rewrite Hrun, He. split; [reflexivity | trace_done].
  - intros p1 p2 t1 t2 Hp1 Hp2 Hlt. rewrite !Hrun, Hp1, Hp2. cbn [rbind fst].
    unfold py_fgt.
    destruct (SFltb t1 (py_fmul q (float_of_Z 100))) eqn:E1; [discriminate|].
    intros _.
    destruct (SFltb t2 (py_fmul q (float_of_Z 100))) eqn:E2; [|reflexivity].
    rewrite (SFltb_trans _ _ _ Hlt E2) in E1. discriminate.
  - intros p Hp. rewrite Hrun, Hp. reflexivity.
  - intros -> p th Hp. rewrite Hrun, Hp. cbn [rbind fst].
    assert (Hzero : py_fmul q (float_of_Z 100) = S754_zero false).
    { unfold py_truediv in Hq. destruct total; try lia. inversion Hq.
      reflexivity. }
    rewrite Hzero. unfold py_fgt.
    destruct (SFltb th (S754_zero false)); split; intros; try discriminate;
      reflexivity.
  - intros -> p th Hp. rewrite Hrun, Hp. cbn [rbind fst].
    assert (Hfull : py_fmul q (float_of_Z 100) = float_of_Z 100).
    { destruct total as [|pt|pt]; try lia. rewrite py_truediv_self in Hq.
      inversion Hq. vm_compute. reflexivity. }
    rewrite Hfull. unfold py_fgt.
    change (float_repr (float_of_Z 100)) with "100.0".
    destruct (SFltb th (float_of_Z 100)); repeat split; intros;
      try discriminate; reflexivity.
Qed.

Lemma empty_percentage_by_threshold_witness :
  row_count Double.collaborators (query_total "hr" "person") None
    (world Double.start) = (Ok 10, Double.person_db)
  /\ row_count Double.collaborators (query_column "hr" "person" "last_name") None
       Double.person_db = (Ok 3, Double.person_db)
  /\ 0 < 10 /\ 0 <= 3 <= 10
  /\ py_float (PStr "nan") = Ok S754_nan
  /\ passes (count_empty_column_value_percentage Double.collaborators
               "hr" "person" "last_name" (PStr "nan")) Double.start.
Proof.
  assert (Hnan : py_float (PStr "nan") = Ok S754_nan) by (vm_compute; reflexivity).
  split; [reflexivity|]. split; [reflexivity|]. split; [lia|]. split; [lia|].
  split; [exact Hnan|].
  apply (proj1 (proj2 (proj2
           (empty_percentage_by_threshold _ Double.collaborators "hr" "person"
              "last_name" Double.start 10 3 Double.person_db Double.person_db
              eq_refl eq_refl ltac:(lia) ltac:(lia))))
           (PStr "nan") Hnan).
Defined.

(** *** One statement, one call (X16) *)

(** X16: every run of [check_if_exists_in_database],
    [check_if_not_exists_in_database] and [row_count_is_0], whatever the
    statement returns or raises and however the run ends, consists of the
    keyword's log line and then one call of [query], respectively
    [row_count], with the statement and the value of [sansTran] as they were
    given: the flag is handed on, nothing is logged after the call and the
    statement is not run a second time.  So does every run of the three
    row-count comparisons on an argument that the log line can print; on the
    one argument that it cannot, an [int] of more than [max_str_digits]
    digits, they raise the [ValueError] of the formatting with nothing logged
    and nothing called. *)
Theorem one_statement_one_call :
  forall (W : Type) (self : Collaborators W) (q : string) (numRows : pyval)
         (b : bool) (st : state W),
    let fetch := Call "query" [AStr q; ABool b] in
    let count := Call "row_count" [AStr q; ABool b] in
    let eq := row_count_is_equal_to_x self q numRows b in
    let gt := row_count_is_greater_than_x self q numRows b in
    let lt := row_count_is_less_than_x self q numRows b in
    emitted (check_if_exists_in_database self q b) st
      [LogInfo ("Executing : Check If Exists In Database  |  " ++ q ++ " "); fetch] /\
    emitted (check_if_not_exists_in_database self q b) st
      [LogInfo ("Executing : Check If Not Exists In Database  |  " ++ q ++ " ");
       fetch] /\
    emitted (row_count_is_0 self q b) st
      [LogInfo ("Executing : Row Count Is 0  |  " ++ q ++ " "); count] /\
    (forall shown : string,
        py_format numRows = Ok shown ->
        emitted eq st
          [LogInfo ("Executing : Row Count Is Equal To X  |  " ++ q ++ "  |  "
                    ++ shown ++ " "); count] /\
        emitted gt st
          [LogInfo ("Executing : Row Count Is Greater Than X  |  " ++ q ++ "  |  "
                    ++ shown ++ " "); count] /\
        emitted lt st
          [LogInfo ("Executing : Row Count Is Less Than X  |  " ++ q ++ "  |  "
                    ++ shown ++ " "); count]) /\
    (forall e : exn,
        py_format numRows = Raise e ->
        e = ValueError /\
        (exists z, numRows = PInt z /\ max_str_digits < decimal_digits z) /\
        forall kw, In kw [eq; gt; lt] ->
                   outcome kw st = Raise e /\ emitted kw st []).
Proof.
  intros W self q numRows b st fetch count eq gt lt. subst fetch count eq gt lt.
  unfold emitted, check_if_exists_in_database, check_if_not_exists_in_database,
    row_count_is_0, row_count_is_equal_to_x, row_count_is_greater_than_x,
    row_count_is_less_than_x.
  run_keyword.
  repeat match goal with |- _ /\ _ => split end.
  - destruct (query self q (Some b) (world st)) as [[rows|e1] w1];
      [destruct rows|]; trace_done.
  - destruct (query self q (Some b) (world st)) as [[rows|e1] w1];
      [destruct rows|]; trace_done.
  - destruct (row_count self q (Some b) (world st)) as [[n|e2] w2];
      [destruct (n >? 0)|]; trace_done.
  - intros shown ->. cbn [fst snd world trace].
    destruct (row_count self q (Some b) (world st)) as [[n|e2] w2];
      cbn [fst snd world trace].
    + destruct (coerce_count numRows) as [m|e3]; cbn [fst snd world trace];
        repeat match goal with |- _ /\ _ => split end;
        try trace_done;
        match goal with
        | |- context [if ?c then _ else _] => destruct c; trace_done
        end.
    + repeat match goal with |- _ /\ _ => split end; trace_done.
  - intros e He.
    destruct (py_format_cases numRows) as [H | [H Hz]]; [congruence|].
    assert (E : e = ValueError) by congruence. subst e.
    split; [reflexivity|]. split; [exact Hz|].
    intros kw [<- | [<- | [<- | []]]]; rewrite H;
      (split; [reflexivity | cbn [fst snd]; now rewrite List.app_nil_r]).
Qed.

Lemma one_statement_one_call_witness :
  py_format (PInt 3) = Ok "3"
  /\ emitted (row_count_is_equal_to_x Double.collaborators
                "SELECT id FROM person" (PInt 3) true) Double.start
       [LogInfo "Executing : Row Count Is Equal To X  |  SELECT id FROM person  |  3 ";
        Call "row_count" [AStr "SELECT id FROM person"; ABool true]].
Proof.
  assert (H : py_format (PInt 3) = Ok "3") by (vm_compute; reflexivity).
  split; [exact H|].
  apply (proj1 (proj1 (proj2 (proj2 (proj2
           (one_statement_one_call _ Double.collaborators
              "SELECT id FROM person" (PInt 3) true Double.start)))) "3" H)).
Defined.

(** *** The second column of a row (X17) *)

Lemma round_nearest_even_ge (m : Z) (l : location) :
  m <= round_nearest_even m l <= m + 1.
Proof.
  destruct l as [|[]]; cbn [round_nearest_even]; try destruct (Z.even m); lia.
Qed.

(** [shr_fexp] keeps a mantissa between two integers, when the upper one has
    at most 53 bits. *)
Lemma shr_fexp_between (m e : Z) (l : location) (A B : Z) :
  e <= 0 -> 0 <= A -> B < 2 ^ 53 ->
  A * 2 ^ (- e) <= m <= B * 2 ^ (- e) ->
  let '(mrs, e') := shr_fexp prec emax m e l in
  e' <= 0 /\ A * 2 ^ (- e') <= shr_m mrs <= B * 2 ^ (- e') /\
  (m < B * 2 ^ (- e) -> shr_m mrs < B * 2 ^ (- e')).
Proof.
  intros He HA HB [Hlo Hhi]. unfold shr_fexp, shr.
  assert (Hp : 0 < 2 ^ (- e)) by (apply Z.pow_pos_nonneg; lia).
  assert (Hm : 0 <= m) by nia.
  assert (Hd : Zdigits2 m <= 53 - e).
  { apply Zdigits2_le; [lia|]. split; [assumption|].
    replace (53 - e) with (53 + - e) by lia.
    rewrite Z.pow_add_r by lia. nia. }
  assert (Hf : fexp prec emax (Zdigits2 m + e) <= 0)
    by (unfold fexp, SpecFloat.emin, prec, emax; lia).
  destruct (fexp prec emax (Zdigits2 m + e) - e) as [|n|n] eqn:En.
  - rewrite shr_record_of_loc_m. repeat split; lia.
  - rewrite iter_shr_1_m by (rewrite shr_record_of_loc_m; assumption).
    rewrite shr_record_of_loc_m.
    assert (Hn : 0 < 2 ^ Zpos n) by (apply Z.pow_pos_nonneg; lia).
    assert (Hq : 0 < 2 ^ (- (e + Zpos n))) by (apply Z.pow_pos_nonneg; lia).
    assert (E : 2 ^ (- e) = 2 ^ Zpos n * 2 ^ (- (e + Zpos n))).
    { rewrite <- Z.pow_add_r by lia. f_equal. lia. }
    rewrite E in Hlo, Hhi.
    split; [lia|]. split; [split|].
    + apply Z.div_le_lower_bound; [lia | nia].
    + apply Z.div_le_upper_bound; [lia | nia].
    + rewrite E. intros Hlt. apply Z.div_lt_upper_bound; [lia | nia].
  - rewrite shr_record_of_loc_m. repeat split; lia.
Qed.

(** Rounding a mantissa that stands for a number between [A] and [A + 1]
    gives a float between [A] and [A + 1]. *)
Lemma binary_round_aux_between (q e : Z) (l : location) (A : Z) :
  e <= 0 -> 0 <= A -> A + 1 < 2 ^ 53 ->
  A * 2 ^ (- e) <= q < (A + 1) * 2 ^ (- e) ->
  float_between (binary_round_aux prec emax false q e l) A (A + 1).
Proof.
  intros He HA HB [Hlo Hhi]. unfold binary_round_aux.
  pose proof (shr_fexp_between q e l A (A + 1) He HA HB ltac:(lia)) as H1.
  destruct (shr_fexp prec emax q e l) as [mrs1 e1].
  destruct H1 as (He1 & [Hlo1 _] & Hlt1). specialize (Hlt1 Hhi).
  pose proof (round_nearest_even_ge (shr_m mrs1) (loc_of_shr_record mrs1)) as Hr.
  set (m2 := round_nearest_even (shr_m mrs1) (loc_of_shr_record mrs1)) in *.
  pose proof (shr_fexp_between m2 e1 loc_Exact A (A + 1) He1 HA HB ltac:(lia))
    as H2.
  destruct (shr_fexp prec emax m2 e1 loc_Exact) as [mrs2 e2].
  destruct H2 as (He2 & [Hlo2 Hhi2] & _).
  assert (Hp : 0 < 2 ^ (- e2)) by (apply Z.pow_pos_nonneg; lia).
  destruct (shr_m mrs2) as [|m|m]; cbn [float_between].
  - nia.
  - destruct (Z.leb_spec e2 (emax - prec)) as [|Hbig];
      [|unfold emax, prec in Hbig; lia].
    cbn [float_between]. auto.
  - nia.
Qed.

(** The quotient of two positive integers that lies between [A] and [A + 1]
    is a float between [A] and [A + 1]. *)
Lemma SFdiv_between (p d : positive) (A : Z) :
  0 <= A -> A + 1 < 2 ^ 53 ->
  A * Zpos d <= Zpos p < (A + 1) * Zpos d ->
  float_between
    (SFdiv prec emax (S754_finite false p 0) (S754_finite false d 0)) A (A + 1).
Proof.
  intros HA HB [Hlo Hhi]. cbn [SFdiv xorb]. unfold SFdiv_core_binary.
  set (e' := Z.min (fexp prec emax (Zdigits2 (Zpos p) + 0 - (Zdigits2 (Zpos d) + 0)))
                   (0 - 0)).
  assert (He' : e' <= 0) by (subst e'; lia).
  set (m' := match 0 - 0 - e' with
             | Zpos _ => Z.shiftl (Zpos p) (0 - 0 - e')
             | Z0 => Zpos p
             | Zneg _ => 0
             end).
  assert (Hm' : m' = Zpos p * 2 ^ (- e')).
  { subst m'. replace (0 - 0 - e') with (- e') by lia.
    destruct (- e') as [|n|n] eqn:En; [cbn; lia | | lia].
    now rewrite Z.shiftl_mul_pow2 by lia. }
  pose proof (Z_div_mod m' (Zpos d) ltac:(lia)) as Hdiv.
  destruct (Z.div_eucl m' (Zpos d)) as [q r]. destruct Hdiv as [Hq Hr].
  assert (Hp : 0 < 2 ^ (- e')) by (apply Z.pow_pos_nonneg; lia).
  apply binary_round_aux_between; try assumption.
  split; nia.
Qed.

Lemma of_uint_lt (d : Decimal.uint) : 0 <= Z.of_uint d < 10 ^ digits_len d.
Proof.
  induction d;
    [cbn; lia | ..];
    unfold Z.of_uint, digits_len in *;
    cbn [Pos.of_uint NilEmpty.string_of_uint list_ascii_of_string List.length];
    rewrite Nat2Z.inj_succ, Z.pow_succ_r by lia;
    [lia | ..];
    rewrite N2Z.inj_pos;
    match goal with
    | |- context [Pos.of_uint_acc ?d ?p] =>
        pose proof (of_uint_acc_val d p) as E; unfold Z.of_uint, digits_len in E;
        rewrite E
    end; lia.
Qed.

Lemma py_round_between (x : spec_float) (A : Z) :
  float_between x A (A + 1) ->
  exists n, py_round x = Ok n /\ (n = A \/ n = A + 1).
Proof.
  destruct x as [s | s | | s m e]; cbn [float_between py_round]; try tauto.
  - intros H. exists 0. split; [reflexivity | lia].
  - destruct s; [tauto|]. intros (He & Hlo & Hhi). cbn [cond_opp].
    eexists. split; [reflexivity|].
    assert (Hp : 0 < 2 ^ (- e)) by (apply Z.pow_pos_nonneg; lia).
    destruct (Z.leb_spec 0 e).
    + assert (e = 0) by lia. subst e. cbn in *. lia.
    + unfold round_half_even.
      pose proof (Z.div_mod (Zpos m) (2 ^ (- e)) ltac:(lia)) as Hdm.
      pose proof (Z.mod_pos_bound (Zpos m) (2 ^ (- e)) Hp) as Hmod.
      assert (Hq : Zpos m / 2 ^ (- e) = A \/
                   (Zpos m / 2 ^ (- e) = A + 1 /\ Zpos m mod 2 ^ (- e) = 0))
        by nia.
      destruct Hq as [-> | [-> Hz]].
      * destruct (2 * (Zpos m mod 2 ^ (- e)) ?= 2 ^ (- e));
          [destruct (Z.even A)| |]; lia.
      * rewrite Hz. destruct (Z.compare_spec (2 * 0) (2 ^ (- e))); lia.
Qed.

(** X17: in a row of two integers the second column, when it is not
    negative, moves the scalar by at most one: for [a] of less than 53 bits
    the row (a, b) flattens to [a] or to the next integer away from zero. *)
Theorem second_column_adds_at_most_one :
  forall a b : Z,
    0 <= b -> Z.abs a < 2 ^ 53 - 1 ->
    exists n,
      scalar_of_row [PInt a; PInt b] = Ok n /\
      (0 <= a -> n = a \/ n = a + 1) /\
      (a < 0 -> n = a \/ n = a - 1).
Proof.
  intros a b Hb Ha.
  rewrite (proj1 (proj2 scalar_of_integer_rows) a b Hb).
  destruct (str_of_Z_nonneg b Hb) as (d & Hs & Hv & Hlen).
  pose proof (of_uint_lt d) as Hlt. rewrite Hv, Hlen in Hlt.
  assert (Hk : 0 < str_len b).
  { rewrite <- Hlen. apply digits_len_pos. intros ->.
    unfold str_of_Z in Hs. destruct (to_int_digits b) as (d' & Hd' & E & _).
    rewrite E in Hs. destruct (b <? 0); cbn in Hs; [discriminate|].
    destruct d'; [congruence | discriminate ..]. }
  assert (Hp : 0 < 10 ^ str_len b) by (apply Z.pow_pos_nonneg; lia).
  assert (Hx : float_between
                 (float_of_decimal (Z.abs a * 10 ^ str_len b + b) (- str_len b))
                 (Z.abs a) (Z.abs a + 1)).
  { unfold float_of_decimal.
    destruct (Z.abs a * 10 ^ str_len b + b) as [|p|p] eqn:Em; [|clear Hlen|nia].
    - cbn [float_between]. nia.
    - destruct (Z.leb_spec 0 (- str_len b)); [lia|].
      rewrite Z.opp_involutive.
      destruct (10 ^ str_len b) as [|t|t] eqn:Et; try lia.
      cbn [Z.to_pos]. apply SFdiv_between; lia. }
  destruct (Z.ltb_spec a 0) as [Hneg|Hpos]; cbn [with_sign].
  - destruct (float_of_decimal _ _) as [s | s | | s m e] eqn:Ef;
      cbn [float_between] in Hx; try tauto.
    + exists 0. cbn [SFopp py_round]. split; [reflexivity | lia].
    + destruct s; [tauto|]. cbn [SFopp negb].
      destruct (py_round_between (S754_finite false m e) (Z.abs a) Hx)
        as (n & Hn & Hcases).
      exists (- n). split; [|lia].
      unfold py_round, cond_opp in *. congruence.
  - destruct (py_round_between _ (Z.abs a) Hx) as (n & Hn & Hcases).
    exists n. split; [assumption | lia].
Qed.

Lemma second_column_witness :
  0 <= 95 /\ Z.abs 100 < 2 ^ 53 - 1
  /\ exists n, scalar_of_row [PInt 100; PInt 95] = Ok n /\ (n = 100 \/ n = 101).
Proof.
  split; [lia|]. split; [vm_compute; reflexivity|].
  destruct (second_column_adds_at_most_one 100 95 ltac:(lia)
              ltac:(vm_compute; reflexivity)) as (n & Hn & Hpos & _).
  exists n. split; [exact Hn | apply Hpos; lia].
Defined.
